(** * xlsx2html: style resolution and table layout

    A shallow embedding of [xlsx2html/utils/theme.py] and of the
    rendering core of [xlsx2html/core.py], together with the properties
    of the natural-language specification that were checked against it.

    Python values are modelled as they occur in the source:
    - [str] as [string], [int] as [Z], [float] as IEEE-754 binary64
      ([PrimFloat.float], the format of CPython's [float]);
    - exceptions as the [Raise] branch of [result];
    - insertion-ordered [dict]s (attributes, style sets, the stylesheet)
      as association lists with unique keys; the occurrence tables and
      the excluded-cell set of [worksheet_to_data], where order is never
      observed, as [gmap] and [gset]. *)

From Stdlib Require Import ZArith Ascii String Floats OrderedTypeEx.
From Stdlib Require Import DecimalString DecimalPos DecimalZ.
From stdpp Require Import gmap strings list fin_maps sorting.

Local Open Scope string_scope.
Local Open Scope Z_scope.

(** ** Python primitives *)

Module Py.

Inductive exn : Set :=
| IndexError | KeyError | ValueError | OverflowError | ZeroDivisionError
| TypeError | ParseError.

Inductive result (A : Type) : Type :=
| Ok (a : A)
| Raise (e : exn).
Arguments Ok {A} a.
Arguments Raise {A} e.

Definition bind {A B} (r : result A) (k : A → result B) : result B :=
  match r with Ok a => k a | Raise e => Raise e end.

(** [try: r  except Exception: d] *)
Definition try_except {A} (r : result A) (d : A) : A :=
  match r with Ok a => a | Raise _ => d end.

(** [seq[i]] on a tuple or list: negative indices count from the end,
    anything else out of range raises [IndexError]. *)
Definition getitem {A} (l : list A) (i : Z) : result A :=
  let n := Z.of_nat (length l) in
  let j := if i <? 0 then i + n else i in
  if (j <? 0) || (n <=? j) then Raise IndexError
  else match nth_error l (Z.to_nat j) with
       | Some a => Ok a
       | None => Raise IndexError
       end.

(** [str(n)] for an [int]. *)
Definition str_of_int (n : Z) : string := NilZero.string_of_int (Z.to_int n).

(** [sep.join(l)] *)
Fixpoint join (sep : string) (l : list string) : string :=
  match l with
  | [] => ""
  | [s] => s
  | s :: rest => s ++ sep ++ join sep rest
  end.

(** [s[n:]] for [0 <= n] *)
Fixpoint drop_str (n : nat) (s : string) : string :=
  match n, s with
  | O, _ => s
  | S n', String _ s' => drop_str n' s'
  | S _, EmptyString => EmptyString
  end.

(** [s[:n]] for [0 <= n] *)
Fixpoint take_str (n : nat) (s : string) : string :=
  match n, s with
  | O, _ => EmptyString
  | S n', String c s' => String c (take_str n' s')
  | S _, EmptyString => EmptyString
  end.

(** [all(p(c) for c in s)] *)
Fixpoint all_chars (p : ascii → bool) (s : string) : bool :=
  match s with
  | EmptyString => true
  | String c s' => p c && all_chars p s'
  end.

(** [s.replace(old, '')] for a one-character [old] *)
Fixpoint remove_char (old : ascii) (s : string) : string :=
  match s with
  | EmptyString => EmptyString
  | String c s' =>
      if Ascii.eqb c old then remove_char old s' else String c (remove_char old s')
  end.

(** [s.replace(old, new)] for a one-character [old] *)
Fixpoint replace_char (old : ascii) (new : string) (s : string) : string :=
  match s with
  | EmptyString => EmptyString
  | String c s' =>
      if Ascii.eqb c old then new ++ replace_char old new s'
      else String c (replace_char old new s')
  end.

(** [sub in s] on strings *)
Fixpoint contains (sub s : string) : bool :=
  String.prefix sub s ||
  match s with
  | EmptyString => false
  | String _ s' => contains sub s'
  end.

(** [s.upper()] on ASCII text *)
Definition upper_char (c : ascii) : ascii :=
  let n := nat_of_ascii c in
  if (97 <=? n)%nat && (n <=? 122)%nat then ascii_of_nat (n - 32) else c.

Fixpoint upper (s : string) : string :=
  match s with
  | EmptyString => EmptyString
  | String c s' => String (upper_char c) (upper s')
  end.

(** [c in '0123456789abcdefABCDEF'], with the digit's value *)
Definition hex_digit (c : ascii) : option Z :=
  let n := Z.of_nat (nat_of_ascii c) in
  if (48 <=? n) && (n <=? 57) then Some (n - 48)
  else if (97 <=? n) && (n <=? 102) then Some (n - 87)
  else if (65 <=? n) && (n <=? 70) then Some (n - 55)
  else None.

Definition is_hex (c : ascii) : bool :=
  match hex_digit c with Some _ => true | None => false end.

(** [int(s, 16)] on the strings the callers can pass: they have checked
    that every character is a hexadecimal digit or ['#'], which rules
    out the sign, prefix, underscore and blank forms [int] also reads.
    The empty string and any other character raise [ValueError]. *)
Fixpoint int16_acc (acc : Z) (s : string) : result Z :=
  match s with
  | EmptyString => Ok acc
  | String c s' =>
      match hex_digit c with
      | Some d => int16_acc (16 * acc + d) s'
      | None => Raise ValueError
      end
  end.

Definition int16 (s : string) : result Z :=
  match s with
  | EmptyString => Raise ValueError
  | _ => int16_acc 0 s
  end.

(** Lower-case hexadecimal digits of a positive number, most
    significant first. *)
Definition hex_char (d : Z) : ascii :=
  ascii_of_nat (Z.to_nat (if d <? 10 then 48 + d else 87 + d)).

Fixpoint hex_pos (p : positive) (fuel : nat) (acc : string) : string :=
  match fuel with
  | O => acc
  | S fuel' =>
      let acc' := String (hex_char (Z.pos p mod 16)) acc in
      match Z.pos p / 16 with
      | Z.pos q => hex_pos q fuel' acc'
      | _ => acc'
      end
  end.

Definition hex_nonneg (n : Z) : string :=
  match n with
  | Z.pos p => hex_pos p (Pos.to_nat p) ""
  | _ => "0"
  end.

(** ['%02x' % n]: at least two characters, zero padded, the sign
    counted in the width. *)
Definition fmt_02x (n : Z) : string :=
  if n <? 0 then "-" ++ hex_nonneg (- n)
  else if n <? 16 then "0" ++ hex_nonneg n
  else hex_nonneg n.

(** *** Floats *)

Local Open Scope float_scope.

(** [float(n)] for an [int] that a float represents exactly (every
    [int] converted here is below [2^53] or was itself rounded from a
    float). *)
Definition float_of_Z (n : Z) : float :=
  let a := Z.abs n in
  let k := Z.max 0 (Z.log2 a - 61) in
  let f := Z.ldexp (of_uint63 (Uint63.of_Z (Z.shiftr a k))) k in
  if (n <? 0)%Z then - f else f.

(** [int(round(x))]: round to the nearest integer, ties to even;
    [ValueError] on NaN and [OverflowError] on an infinity. *)
Definition round_int (x : float) : result Z :=
  match Prim2SF x with
  | S754_nan => Raise ValueError
  | S754_infinity _ => Raise OverflowError
  | S754_zero _ => Ok 0%Z
  | S754_finite s m e =>
      let mag :=
        if (0 <=? e)%Z then Z.shiftl (Z.pos m) e
        else
          let d := Z.shiftl 1 (- e) in
          let q := (Z.pos m / d)%Z in
          let r := (Z.pos m mod d)%Z in
          match (2 * r ?= d)%Z with
          | Lt => q
          | Gt => (q + 1)%Z
          | Eq => if Z.even q then q else (q + 1)%Z
          end in
      Ok (if s then (- mag)%Z else mag)
  end.

(** [x / y] on floats raises on a zero divisor. *)
Definition div (x y : float) : result float :=
  if y =? 0 then Raise ZeroDivisionError else Ok (x / y).

(** [x % 1.0]: the remainder has the sign of the divisor. *)
Definition mod1 (x : float) : float :=
  match Prim2SF x with
  | S754_nan | S754_infinity _ => nan
  | S754_zero _ => 0
  | S754_finite s m e =>
      if (0 <=? e)%Z then 0
      else
        let r := (Z.pos m mod Z.shiftl 1 (- e))%Z in
        if (r =? 0)%Z then 0
        else
          let f := Z.ldexp (of_uint63 (Uint63.of_Z r)) e in
          if s then - f + 1 else f
  end.

(** [max(a, b, c)] and [min(a, b, c)]: the first extremal argument. *)
Definition max3 (a b c : float) : float :=
  let m := if a <? b then b else a in
  if m <? c then c else m.

Definition min3 (a b c : float) : float :=
  let m := if b <? a then b else a in
  if c <? m then c else m.

End Py.

(** ** [colorsys] (CPython's standard library), as [theme.py] imports it *)

Module colorsys.
Import Py.
Local Open Scope float_scope.

Definition ONE_THIRD : float := 1 / 3.
Definition ONE_SIXTH : float := 1 / 6.
Definition TWO_THIRD : float := 2 / 3.

Definition rgb_to_hls (r g b : float) : result (float * float * float) :=
  let maxc := max3 r g b in
  let minc := min3 r g b in
  let sumc := maxc + minc in
  let rangec := maxc - minc in
  let l := sumc / 2 in
  if minc =? maxc then Ok (0, l, 0)
  else
    bind (if l <=? 0.5 then div rangec sumc else div rangec (2 - sumc)) (fun s =>
    bind (div (maxc - r) rangec) (fun rc =>
    bind (div (maxc - g) rangec) (fun gc =>
    bind (div (maxc - b) rangec) (fun bc =>
    let h :=
      if r =? maxc then bc - gc
      else if g =? maxc then 2 + rc - bc
      else 4 + gc - rc in
    Ok (mod1 (h / 6), l, s))))).

Definition _v (m1 m2 hue : float) : float :=
  let hue := mod1 hue in
  if hue <? ONE_SIXTH then m1 + (m2 - m1) * hue * 6
  else if hue <? 0.5 then m2
  else if hue <? TWO_THIRD then m1 + (m2 - m1) * (TWO_THIRD - hue) * 6
  else m1.

Definition hls_to_rgb (h l s : float) : float * float * float :=
  if s =? 0 then (l, l, l)
  else
    let m2 := if l <=? 0.5 then l * (1 + s) else l + s - l * s in
    let m1 := 2 * l - m2 in
    (_v m1 m2 (h + ONE_THIRD), _v m1 m2 h, _v m1 m2 (h - ONE_THIRD)).

End colorsys.

(** ** [xlsx2html/utils/theme.py] *)

(** An XML element as [openpyxl.xml.functions.fromstring] returns it:
    a qualified tag, its attributes and its child elements in document
    order. *)
#[local] Set Warnings "-register-all".
Inductive Element : Type :=
| Elem (tag : string) (attrib : list (string * string)) (children : list Element).

Definition tag (e : Element) : string := let 'Elem t _ _ := e in t.
Definition attrib (e : Element) : list (string * string) := let 'Elem _ a _ := e in a.
Definition children (e : Element) : list Element := let 'Elem _ _ c := e in c.

(** [e.find(t)] and [e.findall(t)] for a plain tag: direct children only. *)
Definition find (t : string) (e : Element) : option Element :=
  List.find (fun c => String.eqb (tag c) t) (children e).

Definition findall (t : string) (e : Element) : list Element :=
  List.filter (fun c => String.eqb (tag c) t) (children e).

(** [d.get(k, default)] on an attribute dictionary *)
Fixpoint attrib_get (k : string) (d : list (string * string)) (default : string) : string :=
  match d with
  | [] => default
  | (k', v) :: d' => if String.eqb k' k then v else attrib_get k d' default
  end.

(** The part of a workbook the colour code reads: [wb.loaded_theme] is
    [None] or the theme part's XML, which [fromstring] parses or rejects. *)
Record Workbook : Type := {
  loaded_theme : option (Py.result Element)
}.

Module Theme.
Import Py.

Definition RGBMAX : Z := 255.
Definition HLSMAX : Z := 240.

Definition white_hls : Z * Z * Z := (0, HLSMAX, 0).

(** The first argument of [rgb_to_ms_hls]: a hex string, or three
    channels in [(0,1)] (passed as a tuple or as three arguments). *)
Inductive rgb_arg : Type :=
| Hex (s : string)
| Channels (red green blue : float).

Definition hex_channels (red : string) : result (float * float * float) :=
  let red :=
    if (6 <? String.length red)%nat then drop_str (String.length red - 6) red else red in
  bind (int16 (drop_str 4 red)) (fun blue =>
  bind (int16 (take_str 2 (drop_str 2 red))) (fun green =>
  bind (int16 (take_str 2 red)) (fun red =>
  Ok ((float_of_Z red / float_of_Z RGBMAX)%float,
      (float_of_Z green / float_of_Z RGBMAX)%float,
      (float_of_Z blue / float_of_Z RGBMAX)%float)))).

Definition scale_hls (hls : float * float * float) : result (Z * Z * Z) :=
  let '(h, l, s) := hls in
  bind (round_int (h * float_of_Z HLSMAX)) (fun h' =>
  bind (round_int (l * float_of_Z HLSMAX)) (fun l' =>
  bind (round_int (s * float_of_Z HLSMAX)) (fun s' =>
  Ok (h', l', s')))).

Definition rgb_to_ms_hls (red : rgb_arg) : Z * Z * Z :=
  try_except
    match red with
    | Hex red =>
        if negb (all_chars is_hex (remove_char "#" red)) then Ok white_hls
        else
          match hex_channels red with
          | Raise _ => Ok white_hls
          | Ok (r, g, b) => bind (colorsys.rgb_to_hls r g b) scale_hls
          end
    | Channels r g b => bind (colorsys.rgb_to_hls r g b) scale_hls
    end
    white_hls.

Definition ms_hls_to_rgb (hue lightness saturation : Z) : float * float * float :=
  colorsys.hls_to_rgb (float_of_Z hue / float_of_Z HLSMAX)%float
                      (float_of_Z lightness / float_of_Z HLSMAX)%float
                      (float_of_Z saturation / float_of_Z HLSMAX)%float.

Definition rgb_to_hex (rgb : float * float * float) : result string :=
  let '(red, green, blue) := rgb in
  bind (round_int (red * float_of_Z RGBMAX)) (fun r =>
  bind (round_int (green * float_of_Z RGBMAX)) (fun g =>
  bind (round_int (blue * float_of_Z RGBMAX)) (fun b =>
  Ok (upper (fmt_02x r ++ fmt_02x g ++ fmt_02x b))))).

Definition theme_slots : list string :=
  ["lt1"; "dk1"; "lt2"; "dk2"; "accent1"; "accent2"; "accent3"; "accent4";
   "accent5"; "accent6"].

Definition xlmns : string := "http://schemas.openxmlformats.org/drawingml/2006/main".

(** [QName(xlmns, name).text] *)
Definition qname (name : string) : string := "{" ++ xlmns ++ "}" ++ name.

Definition slot_color (i : Element) : string :=
  if contains "window" (attrib_get "val" (attrib i) "")
  then attrib_get "lastClr" (attrib i) (attrib_get "val" (attrib i) "FFFFFF")
  else attrib_get "val" (attrib i) "FFFFFF".

Definition slot_colors (firstColorScheme : Element) (c : string) : list string :=
  match find (qname c) firstColorScheme with
  | None => ["FFFFFF"]
  | Some accent => List.map slot_color (children accent)
  end.

Definition get_theme_colors (wb : Workbook) : result (list string) :=
  match loaded_theme wb with
  | None => Ok ["FFFFFF"]
  | Some parsed =>
      bind parsed (fun root =>
      match find (qname "themeElements") root with
      | None => Ok ["FFFFFF"]
      | Some themeEl =>
          match findall (qname "clrScheme") themeEl with
          | [] => Ok ["FFFFFF"]
          | firstColorScheme :: _ =>
              Ok (List.concat (List.map (slot_colors firstColorScheme) theme_slots))
          end
      end)
  end.

Definition tint_luminance (tint : float) (lum : Z) : result Z :=
  if (tint <? 0)%float
  then round_int (float_of_Z lum * (1 + tint))%float
  else round_int (float_of_Z lum * (1 - tint)
                  + (float_of_Z HLSMAX - float_of_Z HLSMAX * (1 - tint)))%float.

(** The palette entry [theme_and_tint_to_rgb] starts from:
    [get_theme_colors(wb)[theme]], or entry [0] on an [IndexError]. *)
Definition theme_entry (wb : Workbook) (theme : Z) : result string :=
  match bind (get_theme_colors wb) (fun colors => getitem colors theme) with
  | Raise IndexError => bind (get_theme_colors wb) (fun colors => getitem colors 0)
  | r => r
  end.

Definition tint_hex (rgb : string) (tint : float) : string :=
  try_except
    (let '(h, l, s) := rgb_to_ms_hls (Hex rgb) in
     bind (tint_luminance tint l) (fun l' => rgb_to_hex (ms_hls_to_rgb h l' s)))
    "FFFFFF".

Definition theme_and_tint_to_rgb (wb : Workbook) (theme : Z) (tint : float) : string :=
  try_except
    (bind (theme_entry wb theme) (fun rgb =>
     if negb (all_chars is_hex rgb) then Ok "FFFFFF"
     else Ok (tint_hex rgb tint)))
    "FFFFFF".

End Theme.

(** ** [xlsx2html/core.py] *)

Module Core.
Import Py.

(** *** Values and dictionaries *)

(** The Python values that reach the renderer: cell values, attribute
    values and formatted text. *)
Inductive pyval : Type :=
| VNone
| VStr (s : string)
| VInt (n : Z)
| VFloat (x : float).

(** Truth value of an object ([if v], [not v]). *)
Definition truthy (v : pyval) : bool :=
  match v with
  | VNone => false
  | VStr s => negb (String.eqb s "")
  | VInt n => negb (n =? 0)
  | VFloat x => negb (x =? 0)%float
  end.

Definition truthy_str (s : option string) : bool :=
  match s with
  | None => false
  | Some s => negb (String.eqb s "")
  end.

(** The double-quote character, as a string. *)
Definition dquote : string := String (ascii_of_nat 34) EmptyString.

(** The line feed character. *)
Definition LF : ascii := ascii_of_nat 10.

(** A [dict] with string keys, in insertion order. *)
Fixpoint dict_get {V} (k : string) (d : list (string * V)) : option V :=
  match d with
  | [] => None
  | (k', v) :: d' => if String.eqb k' k then Some v else dict_get k d'
  end.

(** [d[k] = v]: an existing key keeps its place. *)
Fixpoint dict_set {V} (k : string) (v : V) (d : list (string * V)) : list (string * V) :=
  match d with
  | [] => [(k, v)]
  | (k', v') :: d' =>
      if String.eqb k' k then (k', v) :: d' else (k', v') :: dict_set k v d'
  end.

(** [d.update(other)] *)
Definition dict_update {V} (d other : list (string * V)) : list (string * V) :=
  fold_left (fun acc kv => dict_set kv.1 kv.2 acc) other d.

(** A StyleSet: CSS property name to value, [None] for a property the
    resolver declared without a value. *)
Definition StyleSet : Type := list (string * option string).

Definition Attrs : Type := list (string * pyval).

(** [sorted(d.items(), key=lambda a: a[0])]: a stable sort on the key. *)
Fixpoint insert_sorted {V} (a : string * V) (l : list (string * V)) : list (string * V) :=
  match l with
  | [] => [a]
  | b :: l' => if String.leb a.1 b.1 then a :: l else b :: insert_sorted a l'
  end.

Definition sorted_items {V} (d : list (string * V)) : list (string * V) :=
  foldr insert_sorted [] d.

(** *** The cell model read from openpyxl *)

Inductive color_kind : Set := kind_rgb | kind_indexed | kind_theme | kind_auto.

(** [openpyxl.styles.colors.Color]: [type] names the field in use. *)
Record Color : Type := {
  color_type : color_kind;
  color_rgb : option string;
  color_indexed : Z;
  color_theme : Z;
  color_tint : float
}.

Record Side : Type := {
  side_style : option string;
  side_color : option Color
}.

Record Border : Type := {
  border_right : option Side;
  border_left : option Side;
  border_top : option Side;
  border_bottom : option Side
}.

Record Alignment : Type := {
  horizontal : option string;
  vertical : option string
}.

(** A gradient fill has no [patternType] attribute. *)
Inductive Fill : Type :=
| PatternFill (patternType : option string) (fgColor : Color)
| GradientFill.

Record Font : Type := {
  font_name : option string;
  font_sz : pyval;
  font_color : option Color;
  font_b : bool;
  font_i : bool;
  font_u : option string
}.

Record Cell : Type := {
  cell_row : Z;
  cell_column : Z;
  cell_value : pyval;
  cell_border : Border;
  cell_alignment : Alignment;
  cell_fill : Fill;
  cell_font : option Font
}.

(** A cell is identified by its (column, row) pair; [cell.coordinate]
    is openpyxl's one-to-one rendering of that pair ("A1"), so
    membership of coordinates in sets and maps is decided on the pair
    and the string is only produced for the [id] attribute. *)
Definition coord : Type := Z * Z.

Definition coordinate (cell : Cell) : coord := (cell_column cell, cell_row cell).

(** [openpyxl.utils.get_column_letter], for [1 <= col_idx <= 18278]. *)
Fixpoint column_letters (fuel : nat) (col_idx : Z) (acc : string) : string :=
  match fuel with
  | O => acc
  | S fuel' =>
      if col_idx <=? 0 then acc
      else
        let q := col_idx / 26 in
        let r := col_idx mod 26 in
        let '(q, r) := if r =? 0 then (q - 1, 26) else (q, r) in
        column_letters fuel' q (String (ascii_of_nat (Z.to_nat (r + 64))) acc)
  end.

Definition get_column_letter (col_idx : Z) : string := column_letters 3 col_idx "".

Definition coordinate_str (c : coord) : string :=
  get_column_letter c.1 ++ str_of_int c.2.

(** *** What the module imports from outside [src/] *)

Record External : Type := {
(** [openpyxl.styles.colors.COLOR_INDEX] *)
COLOR_INDEX : list string;
(** [aRGB_REGEX.match(s)] is not [None] *)
aRGB_REGEX_match : string → bool;
(** [xlsx2html.constants.border.BORDER_STYLES]: style name to a
    dictionary of CSS suffix and value, or to [None] *)
BORDER_STYLES : list (string * option (list (string * string)));
(** [xlsx2html.format.format_cell(cell, locale=locale, f_cell=f_cell)] *)
format_cell : Cell → option string → option Cell → pyval;
(** [json.dumps] on a StyleSet *)
json_dumps : StyleSet → string;
(** [str] on a float *)
str_float : float → string
}.

Section WithExternal.
Context (ext : External).

(** [str(v)], as ['%s' % v] and [format] print a value. *)
Definition py_str (v : pyval) : string :=
  match v with
  | VNone => "None"
  | VStr s => s
  | VInt n => str_of_int n
  | VFloat x => str_float ext x
  end.

(** *** Serialisation of attributes and styles *)

Definition render_attrs (attrs : Attrs) : string :=
  match attrs with
  | [] => ""
  | _ =>
      join " "
        (List.map (fun a => a.1 ++ "=" ++ dquote ++ py_str a.2 ++ dquote)
           (List.filter (fun a => truthy a.2) (sorted_items attrs)))
  end.

Definition some_str (v : option string) : string :=
  match v with Some s => s | None => "None" end.

Definition render_inline_styles (styles : StyleSet) : string :=
  match styles with
  | [] => ""
  | _ =>
      join ";"
        (List.map (fun a => a.1 ++ ": " ++ some_str a.2)
           (List.filter (fun a => match a.2 with Some _ => true | None => false end)
              (sorted_items styles)))
  end.

(** *** Colours *)

Definition normalize_color (wb : Workbook) (color : Color) : option string :=
  match color_type color with
  | kind_auto => Some "#000000"
  | kind_theme =>
      Some ("#" ++ Theme.theme_and_tint_to_rgb wb (color_theme color) (color_tint color))
  | kind_rgb =>
      let rgb := color_rgb color in
      if truthy_str rgb then Some ("#" ++ drop_str 2 (some_str rgb)) else None
  | kind_indexed =>
      let rgb :=
        match getitem (COLOR_INDEX ext) (color_indexed color) with
        | Ok s => Some s
        | Raise _ => None
        end in
      let rgb :=
        if negb (truthy_str rgb) || negb (aRGB_REGEX_match ext (some_str rgb))
        then Some "00000000" else rgb in
      if truthy_str rgb then Some ("#" ++ drop_str 2 (some_str rgb)) else None
  end.

(** *** Borders *)

Inductive b_dir : Set := right | left | top | bottom.

Definition b_dir_name (d : b_dir) : string :=
  match d with
  | right => "right" | left => "left" | top => "top" | bottom => "bottom"
  end.

(** [getattr(cell.border, b_dir)] *)
Definition border_side (b : Border) (d : b_dir) : option Side :=
  match d with
  | right => border_right b
  | left => border_left b
  | top => border_top b
  | bottom => border_bottom b
  end.

(** [BORDER_STYLES.get(style)] *)
Definition border_styles_get (style : option string) : option (list (string * string)) :=
  match style with
  | None => None
  | Some name =>
      match dict_get name (BORDER_STYLES ext) with
      | Some (Some border_style) => Some border_style
      | _ => None
      end
  end.

(** One turn of the loop over the four directions. *)
Definition border_step (wb : Workbook) (cell : Cell) (h_styles : StyleSet) (d : b_dir)
  : StyleSet :=
  match border_side (cell_border cell) d with
  | None => h_styles
  | Some b_s =>
      match border_styles_get (side_style b_s) with
      | None | Some [] => h_styles
      | Some border_style =>
          let h_styles :=
            fold_left
              (fun h kv => dict_set ("border-" ++ b_dir_name d ++ "-" ++ kv.1) (Some kv.2) h)
              border_style h_styles in
          match side_color b_s with
          | Some color =>
              dict_set ("border-" ++ b_dir_name d ++ "-color") (normalize_color wb color)
                h_styles
          | None => h_styles
          end
      end
  end.

Definition get_border_style_from_cell (wb : Workbook) (cell : Cell) : StyleSet :=
  fold_left (border_step wb cell) [right; left; top; bottom] [].

(** *** Cell styles *)

(** The entry of [merged_cell_map] for an anchor cell. *)
Record MergeInfo : Type := {
  m_attrs : Attrs;
  m_cells : list Cell
}.

Definition fill_styles (wb : Workbook) (fill : Fill) (h_styles : StyleSet) : StyleSet :=
  match fill with
  | GradientFill => h_styles
  | PatternFill patternType fgColor =>
      let solid :=
        match patternType with Some p => String.eqb p "solid" | None => false end in
      let h_styles :=
        if solid then dict_set "background-color" (normalize_color wb fgColor) h_styles
        else h_styles in
      match patternType with
      | Some _ => if solid then h_styles
                  else dict_set "background-color" (Some "#EEEEEE") h_styles
      | None => h_styles
      end
  end.

Definition font_styles (wb : Workbook) (font : option Font) (h_styles : StyleSet) : StyleSet :=
  match font with
  | None => h_styles
  | Some f =>
      let h := dict_set "font-size" (Some (py_str (font_sz f) ++ "px")) h_styles in
      let h := if truthy_str (font_name f) then dict_set "font-family" (font_name f) h else h in
      let h := match font_color f with
               | Some c => dict_set "color" (normalize_color wb c) h
               | None => h
               end in
      let h := if font_b f then dict_set "font-weight" (Some "bold") h else h in
      let h := if font_i f then dict_set "font-style" (Some "italic") h else h in
      if truthy_str (font_u f) then dict_set "text-decoration" (Some "underline") h else h
  end.

Definition get_styles_from_cell (wb : Workbook) (cell : Cell)
    (merged_cell_map : option MergeInfo) : StyleSet :=
  let h_styles : StyleSet := [("border-collapse", Some "collapse")] in
  let b_styles := get_border_style_from_cell wb cell in
  let b_styles :=
    match merged_cell_map with
    | Some info =>
        fold_left (fun b m_cell => dict_update b (get_border_style_from_cell wb m_cell))
          (m_cells info) b_styles
    | None => b_styles
    end in
  let h_styles := dict_update h_styles b_styles in
  let h_styles :=
    if truthy_str (horizontal (cell_alignment cell))
    then dict_set "text-align" (horizontal (cell_alignment cell)) h_styles else h_styles in
  let h_styles :=
    if truthy_str (vertical (cell_alignment cell))
    then dict_set "vertical-align" (vertical (cell_alignment cell)) h_styles else h_styles in
  let h_styles := fill_styles wb (cell_fill cell) h_styles in
  font_styles wb (cell_font cell) h_styles.

Definition get_cell_id (cell : Cell) : string := coordinate_str (coordinate cell).

(** *** The worksheet model *)

(** [openpyxl.worksheet.cell_range.CellRange] *)
Record CellRange : Type := {
  min_col : Z;
  min_row : Z;
  max_col : Z;
  max_row : Z
}.

(** [range(lo, hi + 1)] *)
Definition zrange (lo hi : Z) : list Z :=
  List.map (fun i => lo + Z.of_nat i) (seq 0 (Z.to_nat (hi - lo + 1))).

(** [rows_from_range(cell_range.coord)]: the coordinates row by row. *)
Definition rows_from_range (rg : CellRange) : list (list coord) :=
  List.map (fun r => List.map (fun c => (c, r)) (zrange (min_col rg) (max_col rg)))
    (zrange (min_row rg) (max_row rg)).

(** [cellrange.rows]: (row, column) pairs row by row. *)
Definition range_rows (rg : CellRange) : list (list (Z * Z)) :=
  List.map (fun r => List.map (fun c => (r, c)) (zrange (min_col rg) (max_col rg)))
    (zrange (min_row rg) (max_row rg)).

Record DataValidation : Type := {
  dv_type : option string;
  dv_sqref : list CellRange
}.

(** An entry of [data["cols"]], as far as [render_table] reads it. *)
Record ColumnSpec : Type := {
  col_index : pyval;
  col_hidden : bool;
  col_style : StyleSet
}.

(** An entry of [data["images"]], as far as [render_table] reads it. *)
Record ImageData : Type := {
  img_width : pyval;
  img_height : pyval;
  img_src : string;
  img_style : StyleSet
}.

(** The worksheet.  [ws_rows] is [list(ws.iter_rows())].  [ws_cols]
    and [ws_images] stand for the column list that lines 267-294
    build from the column dimensions and for [images_to_data(ws)];
    they involve float formatting and data-URI encoding only, no
    property below depends on how they are computed, and the
    renderer reads them as given.  The ["rowHeights"] entry of the
    result is never read by the renderer and is left out. *)
Record Worksheet : Type := {
  ws_title : string;
  ws_rows : list (list Cell);
  ws_merged_ranges : list CellRange;
  ws_row_hidden : Z → bool;
  ws_data_validations : list DataValidation;
  ws_cols : list ColumnSpec;
  ws_images : list (string * list ImageData)
}.

Definition default_side : Side := {| side_style := None; side_color := None |}.

(** A cell openpyxl creates on first access: no value, default style. *)
Definition blank_cell (c : coord) : Cell := {|
  cell_row := c.2;
  cell_column := c.1;
  cell_value := VNone;
  cell_border := {| border_right := Some default_side; border_left := Some default_side;
                    border_top := Some default_side; border_bottom := Some default_side |};
  cell_alignment := {| horizontal := None; vertical := None |};
  cell_fill := PatternFill None
                 {| color_type := kind_rgb; color_rgb := Some "00000000";
                    color_indexed := 0; color_theme := 0; color_tint := 0%float |};
  cell_font := Some {| font_name := Some "Calibri"; font_sz := VInt 11;
                       font_color := Some {| color_type := kind_theme; color_rgb := None;
                                             color_indexed := 0; color_theme := 1;
                                             color_tint := 0%float |};
                       font_b := false; font_i := false; font_u := None |}
|}.

(** [ws[coordinate]] *)
Definition ws_cell (ws : Worksheet) (c : coord) : Cell :=
  match List.find (fun cell => bool_decide (coordinate cell = c)) (concat (ws_rows ws)) with
  | Some cell => cell
  | None => blank_cell c
  end.

(** [ws[key]] for a key with a colon: the rows of the range. *)
Definition ws_range_rows (ws : Worksheet) (rg : CellRange) : list (list Cell) :=
  List.map (List.map (ws_cell ws)) (rows_from_range rg).

(** [cell_range.coord] has no colon when the range is a single cell. *)
Definition one_cell (rg : CellRange) : bool :=
  (min_col rg =? max_col rg) && (min_row rg =? max_row rg).

(** [list(ws[cell_range])], the key being [cell_range.coord]: for a
    one-cell range [ws[key]] is the cell itself, and [list] of a cell
    raises [TypeError]. *)
Definition ws_range (ws : Worksheet) (rg : CellRange) : result (list (list Cell)) :=
  if one_cell rg then Raise TypeError else Ok (ws_range_rows ws rg).

(** *** The render model *)

(** A grid cell: the [cell_data] dictionary. *)
Record GridCell : Type := {
  column : Z;
  row : Z;
  value : pyval;
  formatted_value : pyval;
  is_list : bool;
  attrs : Attrs;
  style : StyleSet
}.

(** The dictionary [worksheet_to_data] returns. *)
Record Data : Type := {
  title : string;
  rows : list (list GridCell);
  cols : list ColumnSpec;
  images : list (string * list ImageData);
  styles : list (string * StyleSet)
}.

(** *** [worksheet_to_data]: merged ranges (lines 172-201) *)

Definition span_attr (span : nat) : pyval :=
  if (span <=? 1)%nat then VNone else VInt (Z.of_nat span).

Definition merge_info (cell_range_list : list (list Cell)) (row0 : list Cell) : MergeInfo := {|
  m_attrs := [("colspan", span_attr (length row0));
              ("rowspan", span_attr (length cell_range_list))];
  m_cells := concat cell_range_list
|}.

Definition excluded_init (ws : Worksheet) : gset coord :=
  list_to_set (concat (concat (List.map rows_from_range (ws_merged_ranges ws)))).

Definition merge_step (ws : Worksheet)
    (st : result (gmap coord MergeInfo * gset coord)) (cell_range : CellRange)
  : result (gmap coord MergeInfo * gset coord) :=
  bind st (fun '(merged_cell_map, excluded_cells) =>
  bind (ws_range ws cell_range) (fun cell_range_list =>
  bind (getitem cell_range_list 0) (fun row0 =>
  bind (getitem row0 0) (fun m_cell =>
  let merged_cell_map :=
    <[coordinate m_cell := merge_info cell_range_list row0]> merged_cell_map in
  if bool_decide (coordinate m_cell ∈ excluded_cells)
  then Ok (merged_cell_map, excluded_cells ∖ {[coordinate m_cell]})
  else Raise KeyError)))).

Definition merged_cells (ws : Worksheet) : result (gmap coord MergeInfo * gset coord) :=
  fold_left (merge_step ws) (ws_merged_ranges ws) (Ok (∅, excluded_init ws)).

(** *** [worksheet_to_data]: data-validation cells (lines 210-218) *)

Definition dv_cells (dv : DataValidation) : list (Z * Z) :=
  match dv_type dv with
  | Some t =>
      if String.eqb t "list"
      then concat (concat (List.map range_rows (dv_sqref dv)))
      else []
  | None => []
  end.

Definition cells_with_list (ws : Worksheet) : gset (Z * Z) :=
  list_to_set (concat (List.map dv_cells (ws_data_validations ws))).

(** *** [worksheet_to_data]: the grid (lines 220-266) *)

Definition classname (ws_id row_i col_i : nat) : string :=
  "wsid-" ++ str_of_int (Z.of_nat ws_id) ++ "-cellst-"
  ++ str_of_int (Z.of_nat row_i) ++ "-" ++ str_of_int (Z.of_nat col_i).

Section Grid.
Context (wb : Workbook) (ws : Worksheet) (locale : option string)
        (fs : option Worksheet) (ws_id : nat)
        (merged_cell_map : gmap coord MergeInfo) (excluded_cells : gset coord).

Definition cell_data (cell : Cell) : GridCell :=
  let f_cell := option_map (fun fs => ws_cell fs (coordinate cell)) fs in
  let formatted_value := format_cell ext cell locale f_cell in
  let formatted_value :=
    match formatted_value with
    | VStr s => VStr (replace_char LF "<br/>" s)
    | v => v
    end in
  let merged_cell_info := merged_cell_map !! coordinate cell in
  let attrs : Attrs := [("id", VStr (get_cell_id cell))] in
  let attrs :=
    match merged_cell_info with
    | Some info => dict_update attrs (m_attrs info)
    | None => attrs
    end in
  {| column := cell_column cell;
     row := cell_row cell;
     value := cell_value cell;
     formatted_value := formatted_value;
     is_list := bool_decide ((cell_row cell, cell_column cell) ∈ cells_with_list ws);
     attrs := attrs;
     style := dict_update [] (get_styles_from_cell wb cell merged_cell_info) |}.

(** The cell is skipped by the [continue] of line 231. *)
Definition skipped (cell : Cell) : bool :=
  bool_decide (coordinate cell ∈ excluded_cells) || ws_row_hidden ws (cell_row cell).

(** The state of the inner loop: the row under construction and
    the two occurrence tables. *)
Record RowState : Type := {
  data_row : list GridCell;
  cell_styles : gmap string nat;
  cell_classnames : gmap string string
}.

Definition cell_step (row_i col_i : nat) (cell : Cell) (st : RowState) : RowState :=
  if skipped cell then st
  else
    let cd := cell_data cell in
    let style_key := json_dumps ext (style cd) in
    {| data_row := app (data_row st) [cd];
       cell_styles :=
         <[style_key := match cell_styles st !! style_key with
                        | Some n => (n + 1)%nat
                        | None => 1%nat
                        end]> (cell_styles st);
       cell_classnames :=
         <[style_key := classname ws_id row_i col_i]> (cell_classnames st) |}.

Fixpoint cells_loop (row_i col_i : nat) (cells : list Cell) (st : RowState) : RowState :=
  match cells with
  | [] => st
  | cell :: rest => cells_loop row_i (S col_i) rest (cell_step row_i col_i cell st)
  end.

(** The state of the outer loop. *)
Record GridState : Type := {
  data_list : list (list GridCell);
  styles_count : gmap string nat;
  classnames : gmap string string;
  no_found_data : bool
}.

Definition all_none (cells : list Cell) : bool :=
  forallb (fun cell => match cell_value cell with VNone => true | _ => false end) cells.

Definition row_step (row_i : nat) (cells : list Cell) (st : GridState) : GridState :=
  if no_found_data st && all_none cells
  then {| data_list := [] :: data_list st;
          styles_count := styles_count st;
          classnames := classnames st;
          no_found_data := no_found_data st |}
  else
    let rs := cells_loop row_i 0 cells
                {| data_row := []; cell_styles := styles_count st;
                   cell_classnames := classnames st |} in
    {| data_list := data_row rs :: data_list st;
       styles_count := cell_styles rs;
       classnames := cell_classnames rs;
       no_found_data := false |}.

Fixpoint rows_loop (row_i : nat) (rws : list (list Cell)) (st : GridState) : GridState :=
  match rws with
  | [] => st
  | cells :: rest => rows_loop (S row_i) rest (row_step row_i cells st)
  end.

Definition grid_init : GridState :=
  {| data_list := []; styles_count := ∅; classnames := ∅; no_found_data := true |}.

(** [for row_i, row in enumerate(reversed(list(ws.iter_rows())))] *)
Definition build_grid : GridState := rows_loop 0 (rev (ws_rows ws)) grid_init.

End Grid.

(** *** [worksheet_to_data]: style deduplication (lines 295-303) *)

(** [d[k]] on a table: [KeyError] when the key is missing. *)
Definition table_get {V} (d : gmap string V) (k : string) : result V :=
  match d !! k with
  | Some v => Ok v
  | None => Raise KeyError
  end.

Section Dedup.
Context (cell_styles : gmap string nat) (cell_classnames : gmap string string).

Definition dedup_cell (style_data : list (string * StyleSet)) (cell : GridCell)
  : result (GridCell * list (string * StyleSet)) :=
  let style_key := json_dumps ext (style cell) in
  bind (table_get cell_styles style_key) (fun n =>
  if (1 <? n)%nat then
    bind (table_get cell_classnames style_key) (fun classname =>
    Ok ({| column := column cell;
           row := row cell;
           value := value cell;
           formatted_value := formatted_value cell;
           is_list := is_list cell;
           attrs := dict_update (attrs cell) [("class", VStr classname)];
           style := [] |},
        dict_set classname (style cell) style_data))
  else Ok (cell, style_data)).

Fixpoint dedup_row (style_data : list (string * StyleSet)) (cells : list GridCell)
  : result (list GridCell * list (string * StyleSet)) :=
  match cells with
  | [] => Ok ([], style_data)
  | cell :: rest =>
      bind (dedup_cell style_data cell) (fun '(cell', style_data) =>
      bind (dedup_row style_data rest) (fun '(rest', style_data) =>
      Ok (cell' :: rest', style_data)))
  end.

Fixpoint dedup_rows (style_data : list (string * StyleSet)) (rws : list (list GridCell))
  : result (list (list GridCell) * list (string * StyleSet)) :=
  match rws with
  | [] => Ok ([], style_data)
  | cells :: rest =>
      bind (dedup_row style_data cells) (fun '(cells', style_data) =>
      bind (dedup_rows style_data rest) (fun '(rest', style_data) =>
      Ok (cells' :: rest', style_data)))
  end.

End Dedup.

(** [worksheet_to_data(wb, ws, locale, fs)], with [ws_pos] the index
    [wb.worksheets.index(ws)].  openpyxl's two merged-cell interfaces
    (the [OPENPYXL_24] branch) give the same ranges and the same set
    of member coordinates. *)
Definition worksheet_to_data (wb : Workbook) (ws_pos : nat) (ws : Worksheet)
    (locale : option string) (fs : option Worksheet) : result Data :=
  let ws_id := (ws_pos + 1)%nat in
  bind (merged_cells ws) (fun '(merged_cell_map, excluded_cells) =>
  let g := build_grid wb ws locale fs ws_id merged_cell_map excluded_cells in
  bind (dedup_rows (styles_count g) (classnames g) [] (data_list g))
    (fun '(data_list, style_data) =>
  Ok {| title := ws_title ws;
        rows := data_list;
        cols := ws_cols ws;
        images := ws_images ws;
        styles := style_data |})).

(** *** Rendering *)

Definition pyval_eqb (a b : pyval) : bool :=
  match a, b with
  | VNone, VNone => true
  | VStr s, VStr t => String.eqb s t
  | VInt n, VInt m => n =? m
  | VFloat x, VFloat y => (x =? y)%float
  | VInt n, VFloat y => (float_of_Z n =? y)%float
  | VFloat x, VInt m => (x =? float_of_Z m)%float
  | _, _ => false
  end.

Definition table_open : string :=
  "<table  style=" ++ dquote ++ "border-collapse: collapse" ++ dquote
  ++ " border=" ++ dquote ++ "0" ++ dquote
  ++ " cellspacing=" ++ dquote ++ "0" ++ dquote
  ++ " cellpadding=" ++ dquote ++ "0" ++ dquote ++ "><colgroup>".

Definition render_col (col : ColumnSpec) : string :=
  "<col " ++ render_attrs [] ++ " style=" ++ dquote
  ++ render_inline_styles (col_style col) ++ dquote ++ ">".

Definition hidden_columns (cols : list ColumnSpec) : list pyval :=
  List.map col_index (List.filter col_hidden cols).

Definition render_img (img : ImageData) : string :=
  "<img width=" ++ dquote ++ py_str (img_width img) ++ dquote
  ++ " height=" ++ dquote ++ py_str (img_height img) ++ dquote
  ++ "style=" ++ dquote ++ render_inline_styles (img_style img) ++ dquote
  ++ "src=" ++ dquote ++ img_src img ++ dquote ++ "/>".

Definition cell_colspan (cell : GridCell) : Z :=
  match dict_get "colspan" (attrs cell) with
  | Some (VInt n) => n
  | _ => 1
  end.

Definition cell_images (data : Data) (cell : GridCell) : list ImageData :=
  concat
    (List.map
       (fun colspanned_col =>
          match dict_get (str_of_int colspanned_col ++ ":" ++ str_of_int (row cell))
                  (images data) with
          | Some l => l
          | None => []
          end)
       (zrange (column cell) (column cell + cell_colspan cell - 1))).

Definition render_cell (data : Data) (cell : GridCell) : string :=
  "<td " ++ render_attrs (attrs cell) ++ " style=" ++ dquote
  ++ render_inline_styles (style cell) ++ dquote ++ ">"
  ++ py_str (formatted_value cell)
  ++ join (String LF EmptyString) (List.map render_img (cell_images data cell))
  ++ "</td>".

Section Hooks.
(** The two caller-supplied hooks receive the output buffer and
    may extend it; by default they leave it as it is. *)
Context (append_headers : Data → list string → list string)
        (append_lineno : list string → nat → list string).

Definition render_row (data : Data) (i : nat) (cells : list GridCell) : string :=
  let trow := append_lineno ["<tr>"] i in
  let trow :=
    app trow
      (List.map (render_cell data)
         (List.filter
            (fun cell =>
               negb (existsb (pyval_eqb (VInt (column cell)))
                       (hidden_columns (cols data))))
            cells)) in
  join (String LF EmptyString) (app trow ["</tr>"]).

Definition render_table (data : Data) : string :=
  let html := table_open :: List.map render_col (cols data) in
  let html := app html ["</colgroup>"] in
  let html := append_headers data html in
  let html := app html (imap (render_row data) (rows data)) in
  join (String LF EmptyString) (app html ["</table>"]).

End Hooks.

Definition render_styles (data : Data) : string :=
  fold_left
    (fun style_data kv =>
       style_data ++ " ." ++ kv.1 ++ " { " ++ render_inline_styles kv.2 ++ " }")
    (styles data) "".

End WithExternal.
End Core.

(** ** [xlsx2html/core.py]: images and the column list *)

Module Layout.
Import Py Core.

(** *** Images (lines 135-167) *)

(** An [openpyxl.drawing.image.Image], as [image_to_data] reads it: the
    marker [anchor._from], the extent of
    [anchor.pic.graphicalProperties.transform] when there is a
    transform, and the image's own size. *)
Record Image : Type := {
  from_col : Z;
  from_row : Z;
  from_colOff : Z;
  from_rowOff : Z;
  transform_ext : option (Z * Z);
  image_width : pyval;
  image_height : pyval
}.

Section Images.
(** [openpyxl.utils.units.EMU_to_pixels] and
    [xlsx2html.utils.image.bytes_to_datauri(image.ref, image.path)] come
    from outside [src/]. *)
Context (ext : External) (EMU_to_pixels : Z → pyval) (bytes_to_datauri : Image → string).

(** [image_to_data]: the ["col"] and ["row"] entries, and the entries
    [render_table] reads. *)
Definition image_to_data (image : Image) : Z * Z * ImageData :=
  let offsetX := EMU_to_pixels (from_colOff image) in
  let offsetY := EMU_to_pixels (from_rowOff image) in
  (from_col image + 1, from_row image + 1,
   {| img_width := match transform_ext image with
                   | Some (width, _) => EMU_to_pixels width
                   | None => image_width image
                   end;
      img_height := match transform_ext image with
                    | Some (_, height) => EMU_to_pixels height
                    | None => image_height image
                    end;
      img_src := bytes_to_datauri image;
      img_style := [("margin-left", Some (py_str ext offsetX ++ "px"));
                    ("margin-top", Some (py_str ext offsetY ++ "px"))] |}).

(** [images_data[key].append(v)] on a [defaultdict(list)] *)
Fixpoint dict_append {V} (k : string) (v : V) (d : list (string * list V))
  : list (string * list V) :=
  match d with
  | [] => [(k, [v])]
  | (k', l) :: d' =>
      if String.eqb k' k then (k', app l [v]) :: d' else (k', l) :: dict_append k v d'
  end.

Definition image_key (_id : Z * Z * ImageData) : string :=
  str_of_int _id.1.1 ++ ":" ++ str_of_int _id.1.2.

Definition images_to_data (images : list Image) : list (string * list ImageData) :=
  fold_left
    (fun images_data _i =>
       let _id := image_to_data _i in
       dict_append (image_key _id) _id.2 images_data)
    images [].

End Images.

(** *** The column list (lines 267-294) *)

(** An [openpyxl.worksheet.dimensions.ColumnDimension], as the loop
    reads it; [index] is the column letter. *)
Record ColumnDimension : Type := {
  cd_index : string;
  cd_min : option Z;
  cd_max : option Z;
  cd_customWidth : bool;
  cd_width : float;
  cd_hidden : bool
}.

#[local] Set Warnings "-inexact-float".

Section ColumnList.
(** [round(x, 2)] on a float comes from outside [src/]. *)
Context (ext : External) (round2 : float → float).

(** [all([col_dim.min, col_dim.max])]: both bounds are set and not 0. *)
Definition col_bounds (col_dim : ColumnDimension) : option (Z * Z) :=
  match cd_min col_dim, cd_max col_dim with
  | Some lo, Some hi => if (lo =? 0) || (hi =? 0) then None else Some (lo, hi)
  | _, _ => None
  end.

(** The dictionary appended for a column dimension, as far as
    [render_table] reads it. *)
Definition col_entry (col_dim : ColumnDimension) : ColumnSpec :=
  let width :=
    if cd_customWidth col_dim then round2 (cd_width col_dim / 10)%float
    else 0.89%float in
  let col_width := (96 * width)%float in
  let visibility := if (cd_width col_dim =? 0)%float then "collapse" else "visible" in
  {| col_index := VStr (cd_index col_dim);
     col_hidden := cd_hidden col_dim;
     col_style := [("min-width", Some (str_float ext col_width ++ "px"));
                   ("visibility", Some visibility)] |}.

(** The inner loop, [n] turns left: the state is [col_list] and
    [max_col_number]. *)
Fixpoint col_repeat (n : nat) (entry : ColumnSpec) (st : list ColumnSpec * Z)
  : list ColumnSpec * Z :=
  match n with
  | O => st
  | S n' =>
      let max_col_number := st.2 - 1 in
      let col_list := app st.1 [entry] in
      if max_col_number <? 0 then (col_list, max_col_number)
      else col_repeat n' entry (col_list, max_col_number)
  end.

Definition col_step (st : list ColumnSpec * Z) (col_dim : ColumnDimension)
  : list ColumnSpec * Z :=
  match col_bounds col_dim with
  | None => st
  | Some (lo, hi) => col_repeat (Z.to_nat (hi - lo + 1)) (col_entry col_dim) st
  end.

(** [col_list] after the loop over the column dimensions, which are
    given in the order of [sorted(..., key=column_index_from_string)];
    [max_col_number] is the value the grid loop has left. *)
Definition col_list (column_dimensions : list ColumnDimension) (max_col_number : Z)
  : list ColumnSpec :=
  (fold_left col_step column_dimensions ([], max_col_number + 1)).1.

End ColumnList.

End Layout.

(** ** Vocabulary of the specification and sample inputs *)

Module Spec.
Import Py Theme Core.

(** [rrggbb] for three channel values. *)
Definition hex6 (r g b : Z) : string := upper (fmt_02x r ++ fmt_02x g ++ fmt_02x b).



(** The workbook has no usable theme data: no theme part, no
    [themeElements] in it, or no [clrScheme] below that. *)
Definition theme_missing (wb : Workbook) : Prop :=
  match loaded_theme wb with
  | None => True
  | Some (Raise _) => False
  | Some (Ok root) =>
      match find (qname "themeElements") root with
      | None => True
      | Some themeEl => findall (qname "clrScheme") themeEl = []
      end
  end.

(** A theme part whose first slot lists the given colours. *)
Definition theme_of (colors : list string) : Workbook :=
  {| loaded_theme := Some (Ok (Elem "theme" []
       [Elem (qname "themeElements") []
          [Elem (qname "clrScheme") []
             [Elem (qname "lt1") []
                (List.map (fun s => Elem (qname "srgbClr") [("val", s)] []) colors)]]])) |}.

Definition no_theme : Workbook := {| loaded_theme := None |}.

(** openpyxl's legacy palette, [openpyxl.styles.colors.COLOR_INDEX]. *)
Definition legacy_palette : list string :=
  ["00000000"; "00FFFFFF"; "00FF0000"; "0000FF00"; "000000FF";
   "00FFFF00"; "00FF00FF"; "0000FFFF"; "00000000"; "00FFFFFF";
   "00FF0000"; "0000FF00"; "000000FF"; "00FFFF00"; "00FF00FF";
   "0000FFFF"; "00800000"; "00008000"; "00000080"; "00808000";
   "00800080"; "00008080"; "00C0C0C0"; "00808080"; "009999FF";
   "00993366"; "00FFFFCC"; "00CCFFFF"; "00660066"; "00FF8080";
   "000066CC"; "00CCCCFF"; "00000080"; "00FF00FF"; "00FFFF00";
   "0000FFFF"; "00800080"; "00800000"; "00008080"; "000000FF";
   "0000CCFF"; "00CCFFFF"; "00CCFFCC"; "00FFFF99"; "0099CCFF";
   "00FF99CC"; "00CC99FF"; "00FFCC99"; "003366FF"; "0033CCCC";
   "0099CC00"; "00FFCC00"; "00FF9900"; "00FF6600"; "00666699";
   "00969696"; "00003366"; "00339966"; "00003300"; "00333300";
   "00993300"; "00993366"; "00333399"; "00333333"].

(** openpyxl's [aRGB_REGEX], [^([A-Fa-f0-9]{8}|[A-Fa-f0-9]{6})$], under
    [match]: eight or six hex digits, a final line feed allowed. *)
Definition aRGB_match (s : string) : bool :=
  let hex_n (t : string) :=
    all_chars is_hex t && (Nat.eqb (String.length t) 8 || Nat.eqb (String.length t) 6) in
  hex_n s ||
  (String.eqb (drop_str (String.length s - 1) s) (String LF EmptyString)
   && hex_n (take_str (String.length s - 1) s)).

(** Modelled from the spec: the border-style table of
    [xlsx2html.constants.border], which is not among the sources; "a
    fixed table maps known style names (thin, medium, thick, dashed,
    dotted, double, etc.) to a CSS width+line-style pair".  Only the
    sample inputs below use it. *)
Definition sample_border_styles : list (string * option (list (string * string))) :=
  [("dashed", Some [("style", "dashed")]);
   ("dotted", Some [("style", "dotted")]);
   ("double", Some [("style", "double")]);
   ("hair", None);
   ("medium", Some [("style", "solid"); ("width", "2px")]);
   ("thick", Some [("style", "solid"); ("width", "1px")]);
   ("thin", Some [("style", "solid"); ("width", "1px")])].

(** [json.dumps] on style sets whose strings need no escaping. *)
Definition sample_json_dumps (s : StyleSet) : string :=
  "{" ++ join ", "
           (List.map
              (fun kv =>
                 dquote ++ kv.1 ++ dquote ++ ": "
                 ++ match kv.2 with
                    | Some v => dquote ++ v ++ dquote
                    | None => "null"
                    end)
              s)
  ++ "}".

(** A formatter that prints strings as they are and nothing for an
    empty cell. *)
Definition sample_format_cell (cell : Cell) (_ : option string) (_ : option Cell) : pyval :=
  match cell_value cell with
  | VNone => VStr ""
  | v => v
  end.

Definition sample_ext : External := {|
  COLOR_INDEX := legacy_palette;
  aRGB_REGEX_match := aRGB_match;
  BORDER_STYLES := sample_border_styles;
  format_cell := sample_format_cell;
  json_dumps := sample_json_dumps;
  str_float := fun _ => "0.0"
|}.

Definition no_border : Border :=
  {| border_right := Some default_side; border_left := Some default_side;
     border_top := Some default_side; border_bottom := Some default_side |}.

(** A cell with a value and no styling, bold on request. *)
Definition plain_cell (col rw : Z) (v : pyval) (bold : bool) : Cell := {|
  cell_row := rw;
  cell_column := col;
  cell_value := v;
  cell_border := no_border;
  cell_alignment := {| horizontal := None; vertical := None |};
  cell_fill := GradientFill;
  cell_font := if bold
               then Some {| font_name := None; font_sz := VInt 11; font_color := None;
                            font_b := true; font_i := false; font_u := None |}
               else None
|}.

Definition sheet (rws : list (list Cell)) (merged : list CellRange) (hidden : Z → bool)
  : Worksheet := {|
  ws_title := "Sheet1";
  ws_rows := rws;
  ws_merged_ranges := merged;
  ws_row_hidden := hidden;
  ws_data_validations := [];
  ws_cols := [];
  ws_images := []
|}.

(** The default hooks of [xlsx2html]: [lambda dumb1, dumb2: True]. *)
Definition no_headers (_ : Data) (html : list string) : list string := html.
Definition no_lineno (trow : list string) (_ : nat) : list string := trow.

(** The whole pipeline on a sheet with the default hooks. *)
Definition table_of (ws : Worksheet) : result string :=
  bind (worksheet_to_data sample_ext no_theme 0 ws None None)
    (fun data => Ok (render_table sample_ext no_headers no_lineno data)).

(** The cells of the render model, row by row. *)
Definition emitted (data : Data) : list GridCell := concat (rows data).

(** The coordinate belongs to the range. *)
Definition in_range (rg : CellRange) (c : coord) : Prop :=
  min_col rg ≤ c.1 ≤ max_col rg ∧ min_row rg ≤ c.2 ≤ max_row rg.

Definition anchor (rg : CellRange) : coord := (min_col rg, min_row rg).

Definition at_coord (c : coord) (g : GridCell) : bool :=
  bool_decide ((column g, row g) = c).


(** The colour is an indexed reference whose index lies outside the
    palette, or whose palette entry is empty or not an aRGB string. *)
Definition unresolved_index (ext : External) (color : Color) : Prop :=
  color_type color = kind_indexed ∧
  (Z.of_nat (length (COLOR_INDEX ext)) ≤ color_indexed color
   ∨ color_indexed color < - Z.of_nat (length (COLOR_INDEX ext))
   ∨ ∃ s, getitem (COLOR_INDEX ext) (color_indexed color) = Ok s
          ∧ (s = "" ∨ aRGB_REGEX_match ext s = false)).

Definition indexed (i : Z) : Color :=
  {| color_type := kind_indexed; color_rgb := None; color_indexed := i;
     color_theme := 0; color_tint := 0%float |}.

(** The common prefix of the CSS properties of one border edge. *)
Definition edge_prefix (d : b_dir) : string := "border-" ++ b_dir_name d ++ "-".

(** The edge is absent, has no style name, or its style name is not
    mapped by the border-style table. *)
Definition edge_unmapped (ext : External) (cell : Cell) (d : b_dir) : Prop :=
  match border_side (cell_border cell) d with
  | None => True
  | Some b_s =>
      match side_style b_s with
      | None => True
      | Some name =>
          dict_get name (BORDER_STYLES ext) = None
          ∨ dict_get name (BORDER_STYLES ext) = Some None
      end
  end.

(** Entries in key order. *)
Definition key_le {V} (a b : string * V) : Prop := String.leb a.1 b.1 = true.

(** One attribute and one style declaration as they are printed. *)
Definition fmt_attr (ext : External) (a : string * pyval) : string :=
  a.1 ++ "=" ++ dquote ++ py_str ext a.2 ++ dquote.

Definition fmt_style (a : string * option string) : string :=
  a.1 ++ ": " ++ some_str a.2.

Definition has_value (a : string * option string) : bool :=
  match a.2 with Some _ => true | None => false end.

(** The range has at least one column and one row. *)
Definition nonempty_range (rg : CellRange) : Prop :=
  min_col rg ≤ max_col rg ∧ min_row rg ≤ max_row rg.


(** The entry of [merged_cell_map] the loop stores for a range. *)
Definition range_info (ws : Worksheet) (rg : CellRange) : MergeInfo :=
  merge_info (ws_range_rows ws rg)
    (List.map (ws_cell ws)
       (List.map (λ c, (c, min_row rg)) (zrange (min_col rg) (max_col rg)))).

(** No dash among the characters of the string. *)
Fixpoint dashless (s : string) : Prop :=
  match s with
  | EmptyString => True
  | String c s' => c ≠ "-"%char ∧ dashless s'
  end.

Section GridSpec.
Context (ext : External) (wb : Workbook) (ws : Worksheet) (locale : option string)
        (fs : option Worksheet) (ws_id : nat)
        (merged_cell_map : gmap coord MergeInfo) (excluded_cells : gset coord).

(** The grid cells a row of the sheet contributes when it is not
    skipped as a whole. *)
Definition emit_row (cells : list Cell) : list GridCell :=
  List.map (cell_data ext wb ws locale fs merged_cell_map)
    (List.filter (λ cell, negb (skipped ws excluded_cells cell)) cells).

(** The row and every row below it hold no value. *)
Definition trailing_blank (rws : list (list Cell)) : bool := forallb all_none rws.

(** The grid, top to bottom: a row contributes its cells unless it is a
    trailing blank row, which contributes an empty row. *)
Fixpoint grid_spec (rws : list (list Cell)) : list (list GridCell) :=
  match rws with
  | [] => []
  | cells :: rest =>
      (if trailing_blank (cells :: rest) then [] else emit_row cells) :: grid_spec rest
  end.

(** A visit of the inner loop: [row_i], [col_i] and the cell emitted. *)
Definition visit : Type := nat * nat * GridCell.

Fixpoint row_visits (row_i col_i : nat) (cells : list Cell) : list visit :=
  match cells with
  | [] => []
  | cell :: rest =>
      app (if skipped ws excluded_cells cell then []
           else [(row_i, col_i, cell_data ext wb ws locale fs merged_cell_map cell)])
          (row_visits row_i (S col_i) rest)
  end.

(** The visits in the order the loops make them: bottom row first. *)
Fixpoint grid_visits (rws : list (list Cell)) : list visit :=
  match rws with
  | [] => []
  | cells :: rest =>
      app (grid_visits rest)
          (if trailing_blank (cells :: rest) then []
           else row_visits (length rest) 0 cells)
  end.

Definition style_key (g : GridCell) : string := json_dumps ext (style g).

(** The two occurrence tables after a sequence of visits. *)
Definition table_step (t : gmap string nat * gmap string string) (v : visit)
  : gmap string nat * gmap string string :=
  (<[style_key v.2 := match t.1 !! style_key v.2 with
                      | Some n => (n + 1)%nat
                      | None => 1%nat
                      end]> t.1,
   <[style_key v.2 := classname ws_id v.1.1 v.1.2]> t.2).

Definition tables_after (vs : list visit) (t : gmap string nat * gmap string string)
  : gmap string nat * gmap string string :=
  fold_left table_step vs t.

End GridSpec.

(** The coordinate of a grid cell and of the cells of a row. *)
Definition coords_of (g : GridCell) : coord := (column g, row g).
Definition row_coords (r : list GridCell) : list coord := List.map coords_of r.

(** The set of suppressed coordinates: the members of the merged
    ranges, their anchors apart. *)
Definition suppressed (ws : Worksheet) : gset coord :=
  excluded_init ws ∖ list_to_set (List.map anchor (ws_merged_ranges ws)).

(** The coordinates of the cells a row keeps: those that are neither
    suppressed nor in a hidden row. *)
Definition kept_coords (ws : Worksheet) (cells : list Cell) : list coord :=
  List.map coordinate (List.filter (λ cell, negb (skipped ws (suppressed ws) cell)) cells).

(** The coordinates of the grid, top to bottom. *)
Fixpoint coords_spec (ws : Worksheet) (rws : list (list Cell)) : list (list coord) :=
  match rws with
  | [] => []
  | cells :: rest =>
      (if trailing_blank (cells :: rest) then [] else kept_coords ws cells)
      :: coords_spec ws rest
  end.

(** The cell with its inline StyleSet replaced by a class attribute. *)
Definition with_class (name : string) (g : GridCell) : GridCell :=
  {| column := column g; row := row g; value := value g;
     formatted_value := formatted_value g; is_list := is_list g;
     attrs := dict_update (attrs g) [("class", VStr name)];
     style := [] |}.

(** How many of the cells have the serialisation key [k]. *)
Definition occurrences (ext : External) (k : string) (l : list GridCell) : nat :=
  length (List.filter (λ g, String.eqb (style_key ext g) k) l).

(** The stylesheet entries whose StyleSet has the key [k]. *)
Definition entries_for (ext : External) (k : string) (sheet : list (string * StyleSet))
  : list (string * StyleSet) :=
  List.filter (λ e, String.eqb (json_dumps ext e.2) k) sheet.

(** One step of the second pass on the stylesheet. *)
Definition sheet_step (ext : External) (cs : gmap string nat) (cn : gmap string string)
    (sd : list (string * StyleSet)) (g : GridCell) : list (string * StyleSet) :=
  match cs !! style_key ext g, cn !! style_key ext g with
  | Some n, Some name => if (1 <? n)%nat then dict_set name (style g) sd else sd
  | _, _ => sd
  end.

(** What the second pass makes of a cell. *)
Definition dedup_rel (ext : External) (cs : gmap string nat) (cn : gmap string string)
    (g g' : GridCell) : Prop :=
  ∃ n, cs !! style_key ext g = Some n
       ∧ if (1 <? n)%nat
         then ∃ name, cn !! style_key ext g = Some name ∧ g' = with_class name g
         else g' = g.

(** The invariant of the stylesheet during the second pass: names are
    unique and every entry holds the StyleSet of a shared cell under
    the class name of its key. *)
Definition sheet_inv (ext : External) (cn : gmap string string) (L : list GridCell)
    (sd : list (string * StyleSet)) : Prop :=
  NoDup (List.map fst sd)
  ∧ ∀ name st, In (name, st) sd →
      ∃ g, In g L ∧ (1 < occurrences ext (style_key ext g) L)%nat
           ∧ cn !! style_key ext g = Some name ∧ st = style g.

(** What the second pass has made of a cell [g] of the grid: with a
    key shared by two cells or more, [g'] is [g] under the class name
    of an occurrence of the key and the stylesheet has exactly one
    entry for the key, under that name; otherwise [g'] is [g] and the
    stylesheet has no entry for the key. *)
Definition deduplicated (ext : External) (ws_id : nat) (visits : list visit)
    (cells : list GridCell) (sheet : list (string * StyleSet)) (g g' : GridCell) : Prop :=
  (2 ≤ occurrences ext (style_key ext g) cells →
     ∃ ri ci g0 st,
       In (ri, ci, g0) visits ∧ style_key ext g0 = style_key ext g
       ∧ g' = with_class (classname ws_id ri ci) g
       ∧ entries_for ext (style_key ext g) sheet = [(classname ws_id ri ci, st)])%nat
  ∧ (occurrences ext (style_key ext g) cells < 2 →
       g' = g ∧ entries_for ext (style_key ext g) sheet = [])%nat.

(** The coordinate belongs to the range, as a test. *)
Definition in_range_b (rg : CellRange) (c : coord) : bool :=
  (min_col rg <=? c.1) && (c.1 <=? max_col rg)
  && (min_row rg <=? c.2) && (c.2 <=? max_row rg).

(** The cells of the render model whose coordinate lies in the range. *)
Definition region_cells (rg : CellRange) (data : Data) : list GridCell :=
  List.filter (λ g, in_range_b rg (coords_of g)) (emitted data).



(** The source cells the grid keeps, top to bottom. *)
Fixpoint kept_cells (ws : Worksheet) (excl : gset coord) (rws : list (list Cell))
  : list Cell :=
  match rws with
  | [] => []
  | cells :: rest =>
      app (if trailing_blank (cells :: rest) then []
           else List.filter (λ cell, negb (skipped ws excl cell)) cells)
          (kept_cells ws excl rest)
  end.


(** Every cell of the row lies in a hidden row. *)
Definition row_hidden (ws : Worksheet) (cells : list Cell) : bool :=
  forallb (λ cell, ws_row_hidden ws (cell_row cell)) cells.

(** *** Sample inputs *)

(** The render model of a sheet, for the sample inputs. *)
Definition data_of (ws : Worksheet) : Data :=
  match worksheet_to_data sample_ext no_theme 0 ws None None with
  | Ok data => data
  | Raise _ => {| title := ""; rows := []; cols := []; images := []; styles := [] |}
  end.

(** Printed pieces of a table. *)
Definition attr (k v : string) : string := k ++ "=" ++ dquote ++ v ++ dquote.

Definition td (attrs style text : string) : string :=
  "<td " ++ attrs ++ " style=" ++ dquote ++ style ++ dquote ++ ">" ++ text ++ "</td>".

Definition lines (l : list string) : string := join (String LF EmptyString) l.

(** One column, five rows: blank, "x", blank, bold "y", blank. *)
Definition blank_rows_sheet : Worksheet :=
  sheet [[plain_cell 1 1 VNone false];
         [plain_cell 1 2 (VStr "x") false];
         [plain_cell 1 3 VNone false];
         [plain_cell 1 4 (VStr "y") true];
         [plain_cell 1 5 VNone false]]
        [] (λ _, false).

(** One column, three rows, the second of them hidden. *)
Definition hidden_row_sheet : Worksheet :=
  sheet [[plain_cell 1 1 (VStr "a") false];
         [plain_cell 1 2 (VStr "b") false];
         [plain_cell 1 3 (VStr "c") true]]
        [] (λ r, r =? 2).

(** Three columns, three rows, A1:C2 merged. *)
Definition merged_range : CellRange :=
  {| min_col := 1; min_row := 1; max_col := 3; max_row := 2 |}.

Definition merged_sheet : Worksheet :=
  sheet [[plain_cell 1 1 (VStr "a") false; plain_cell 2 1 VNone false;
          plain_cell 3 1 VNone false];
         [plain_cell 1 2 VNone false; plain_cell 2 2 VNone false;
          plain_cell 3 2 VNone false];
         [plain_cell 1 3 (VStr "z") true; plain_cell 2 3 VNone false;
          plain_cell 3 3 VNone false]]
        [merged_range] (λ _, false).

(** Two columns, two rows, the second row blank with A2:B2 merged. *)
Definition blank_merged_range : CellRange :=
  {| min_col := 1; min_row := 2; max_col := 2; max_row := 2 |}.

Definition blank_merged_sheet : Worksheet :=
  sheet [[plain_cell 1 1 (VStr "x") false; plain_cell 2 1 VNone false];
         [plain_cell 1 2 VNone false; plain_cell 2 2 VNone false]]
        [blank_merged_range] (λ _, false).

(** One column, two rows, A1:A2 merged and the first row hidden. *)
Definition hidden_merged_range : CellRange :=
  {| min_col := 1; min_row := 1; max_col := 1; max_row := 2 |}.

Definition hidden_merged_sheet : Worksheet :=
  sheet [[plain_cell 1 1 (VStr "a") false];
         [plain_cell 1 2 (VStr "b") false]]
        [hidden_merged_range] (λ r, r =? 1).

(** A cell whose top edge has a style name the table does not know. *)
Definition wavy_top_cell : Cell := {|
  cell_row := 1;
  cell_column := 1;
  cell_value := VStr "a";
  cell_border :=
    {| border_right := Some default_side; border_left := Some default_side;
       border_top := Some {| side_style := Some "wavy"; side_color := None |};
       border_bottom := Some default_side |};
  cell_alignment := {| horizontal := None; vertical := None |};
  cell_fill := GradientFill;
  cell_font := None
|}.

(** *** Further properties: their vocabulary and sample inputs *)

(** The coordinate lies in a range of a data validation of type
    ['list']. *)
Definition in_list_validation (ws : Worksheet) (c : coord) : Prop :=
  ∃ dv rg, In dv (ws_data_validations ws) ∧ dv_type dv = Some "list"
           ∧ In rg (dv_sqref dv) ∧ in_range rg c.


(** The key names a property of one border edge. *)
Definition edge_key (k : string) : Prop :=
  ∃ d rest, k = "border-" ++ b_dir_name d ++ "-" ++ rest.

(** The StyleSet a cell of the render model is displayed with: the
    stylesheet entry of its class, if it has one, and its inline
    StyleSet. *)
Definition class_style (data : Data) (g : GridCell) : StyleSet :=
  match dict_get "class" (attrs g) with
  | Some (VStr name) =>
      match dict_get name (styles data) with
      | Some st => st
      | None => []
      end
  | _ => []
  end.

Definition resolved_style (data : Data) (g : GridCell) : StyleSet :=
  app (class_style data g) (style g).

(** Cells with the same serialisation key have the same StyleSet. *)
Definition keys_determine_styles (ext : External) (cells : list GridCell) : Prop :=
  ∀ g1 g2, In g1 cells → In g2 cells →
    style_key ext g1 = style_key ext g2 → style g1 = style g2.

(** A cell with a thin right edge. *)
Definition thin_right_cell : Cell := {|
  cell_row := 1;
  cell_column := 2;
  cell_value := VNone;
  cell_border :=
    {| border_right := Some {| side_style := Some "thin"; side_color := None |};
       border_left := Some default_side;
       border_top := Some default_side;
       border_bottom := Some default_side |};
  cell_alignment := {| horizontal := None; vertical := None |};
  cell_fill := GradientFill;
  cell_font := None
|}.

(** A channel value of [0..255] as a float of [(0,1)]. *)
Definition unit_channel (k : Z) : float := (float_of_Z k / float_of_Z RGBMAX)%float.

(** The number of palette entries a slot of the colour scheme gives:
    one for an absent slot, one per child element otherwise. *)
Definition slot_size (scheme : Element) (c : string) : nat :=
  match find (qname c) scheme with
  | None => 1%nat
  | Some accent => length (children accent)
  end.

(** The workbook has a theme part that parses, with a [themeElements]
    element whose first [clrScheme] is [scheme]. *)
Definition has_scheme (wb : Workbook) (scheme : Element) : Prop :=
  ∃ root themeEl rest,
    loaded_theme wb = Some (Ok root)
    ∧ find (qname "themeElements") root = Some themeEl
    ∧ findall (qname "clrScheme") themeEl = scheme :: rest.

(** A colour scheme with two slots: [lt1] with a system colour and
    [dk1] with two children. *)
Definition sample_scheme : Element :=
  Elem (qname "clrScheme") []
    [Elem (qname "dk1") []
       [Elem (qname "srgbClr") [("val", "111111")] [];
        Elem (qname "srgbClr") [("val", "222222")] []];
     Elem (qname "lt1") []
       [Elem (qname "sysClr") [("val", "window"); ("lastClr", "FFFFFE")] []]].

Definition sample_theme : Workbook :=
  {| loaded_theme :=
       Some (Ok (Elem (qname "theme") []
                   [Elem (qname "themeElements") [] [sample_scheme]])) |}.

(** One column, two rows; A1 holds a text of two lines and lies in a
    data validation of type ['list']. *)
Definition list_sheet : Worksheet := {|
  ws_title := "Sheet1";
  ws_rows := [[plain_cell 1 1 (VStr ("a" ++ String LF "b")) false];
              [plain_cell 1 2 (VStr "c") false]];
  ws_merged_ranges := [];
  ws_row_hidden := λ _, false;
  ws_data_validations :=
    [{| dv_type := Some "list";
        dv_sqref := [{| min_col := 1; min_row := 1; max_col := 1; max_row := 1 |}] |}];
  ws_cols := [];
  ws_images := []
|}.

(** The first cell of the render model of [list_sheet]. *)
Definition list_sheet_a1 : GridCell :=
  with_class "wsid-1-cellst-1-0"
    (cell_data sample_ext no_theme list_sheet None None ∅
       (plain_cell 1 1 (VStr ("a" ++ String LF "b")) false)).

(** The bold cell of the render model of [blank_rows_sheet]. *)
Definition blank_rows_a4 : GridCell :=
  cell_data sample_ext no_theme blank_rows_sheet None None ∅
    (plain_cell 1 4 (VStr "y") true).

(** The index of the column entry is a string, as a column letter is. *)
Definition letter_index (col : ColumnSpec) : Prop := ∃ s, col_index col = VStr s.

(** A render model with one hidden column entry of index ["A"]. *)
Definition hidden_letter_data : Data := {|
  title := "Sheet1";
  rows := [[blank_rows_a4]];
  cols := [{| col_index := VStr "A"; col_hidden := true; col_style := [] |}];
  images := [];
  styles := []
|}.

End Spec.

(** ** Images and columns: vocabulary and sample inputs *)

Module LayoutSpec.
Import Py Core Spec Layout.

(** The image is anchored at the column and the row, counted from 1. *)
Definition anchored_at (c r : Z) (image : Image) : bool :=
  (from_col image + 1 =? c) && (from_row image + 1 =? r).

(** No colon among the characters of the string. *)
Fixpoint colonless (s : string) : Prop :=
  match s with
  | EmptyString => True
  | String c s' => c ≠ ":"%char ∧ colonless s'
  end.

(** The number of entries the loop appends for a dimension of [n]
    columns, with [m] as [max_col_number]. *)
Definition entries_appended (n m : Z) : nat := Z.to_nat (Z.min n (Z.max m 0 + 1)).

(** Sample inputs. *)
Definition sample_pixels (emu : Z) : pyval := VInt (emu / 9525).
Definition sample_datauri (_ : Image) : string := "data:image/png;base64,AA==".

Definition image_at (c r : Z) : Image :=
  {| from_col := c; from_row := r; from_colOff := 0; from_rowOff := 9525;
     transform_ext := None; image_width := VInt 10; image_height := VInt 20 |}.

(** The top-left cell of [merged_sheet] in the render model: columns
    1 to 3 of row 1. *)
Definition merged_a1 : GridCell :=
  with_class "wsid-1-cellst-2-0"
    (cell_data sample_ext no_theme merged_sheet None None
       {[ (1, 1) := range_info merged_sheet merged_range ]}
       (plain_cell 1 1 (VStr "a") false)).

Definition sample_images : list Image := [image_at 1 0; image_at 0 0; image_at 1 0].

Definition sample_image_data : Data :=
  {| title := ""; rows := []; cols := [];
     images := images_to_data sample_ext sample_pixels sample_datauri sample_images;
     styles := [] |}.

Definition sample_round2 (x : float) : float := x.

Definition wide_dimension : ColumnDimension :=
  {| cd_index := "A"; cd_min := Some 1; cd_max := Some 5; cd_customWidth := false;
     cd_width := 13%float; cd_hidden := true |}.

End LayoutSpec.

(** ** Properties *)

Import Py Theme Core Spec.

(** *** Sequence access *)

Lemma getitem_raises {A} (l : list A) (i : Z) (e : exn) :
  getitem l i = Raise e → e = IndexError.
Proof.
  unfold getitem. destruct (_ || _); [congruence|].
  destruct (nth_error _ _); congruence.
Qed.

Lemma getitem_out_of_range {A} (l : list A) (i : Z) :
  Z.of_nat (length l) ≤ i ∨ i < - Z.of_nat (length l) → getitem l i = Raise IndexError.
Proof.
  intros H. unfold getitem.
  destruct (Z.ltb_spec i 0); simpl.
  - destruct (Z.ltb_spec (i + Z.of_nat (length l)) 0); [done|lia].
  - destruct (Z.ltb_spec i 0); [lia|]. simpl.
    destruct (Z.leb_spec (Z.of_nat (length l)) i); [done|lia].
Qed.

(** A boolean check run over [0 .. n-1] holds at every point below [n]. *)
Lemma forallb_below (P : Z → bool) (n : nat) :
  forallb P (zrange 0 (Z.of_nat n - 1)) = true → ∀ v, 0 ≤ v < Z.of_nat n → P v = true.
Proof.
  intros H v Hv. rewrite forallb_forall in H. apply H.
  unfold zrange. apply in_map_iff. exists (Z.to_nat v). split; [lia|].
  apply in_seq. lia.
Qed.

(** *** Theme colours *)





Lemma missing_theme_palette (wb : Workbook) :
  theme_missing wb → get_theme_colors wb = Ok ["FFFFFF"].
Proof.
  unfold theme_missing, get_theme_colors.
  destruct (loaded_theme wb) as [[root|e]|]; simpl; try done.
  destruct (find _ root); [|done]. by intros ->.
Qed.

Lemma missing_theme_entry (wb : Workbook) (theme : Z) :
  theme_missing wb → theme_entry wb theme = Ok "FFFFFF".
Proof.
  intros H. unfold theme_entry. rewrite (missing_theme_palette _ H). simpl.
  destruct (getitem ["FFFFFF"] theme) eqn:E.
  - unfold getitem in E. simpl in E.
    destruct (_ || _); [done|].
    destruct (Z.to_nat _) as [|[|n]]; simpl in E; congruence.
  - by apply getitem_raises in E as ->.
Qed.

(** C5, as the code has it.  A palette entry with a non-hexadecimal
    character, or a theme part that does not parse, resolves to
    [FFFFFF] whatever the tint, and a string with such a character
    converts to the white HLS triple.  With missing theme data every
    slot is white and the tint is still applied to it: the result is
    [FFFFFF] for tint 0.  The resolver returns a string in every case. *)
Theorem malformed_color_resolves_to_white (wb : Workbook) (theme : Z) (tint : float) :
  (∀ rgb, theme_entry wb theme = Ok rgb → all_chars is_hex rgb = false →
     theme_and_tint_to_rgb wb theme tint = "FFFFFF")
  ∧ (∀ e, loaded_theme wb = Some (Raise e) →
       theme_and_tint_to_rgb wb theme tint = "FFFFFF")
  ∧ (∀ s, all_chars is_hex (remove_char "#" s) = false →
       rgb_to_ms_hls (Hex s) = (0, HLSMAX, 0))
  ∧ (theme_missing wb →
       theme_and_tint_to_rgb wb theme tint = tint_hex "FFFFFF" tint
       ∧ theme_and_tint_to_rgb wb theme 0 = "FFFFFF").
Proof.
  split; [|split; [|split]].
  - intros rgb H1 H2. unfold theme_and_tint_to_rgb. rewrite H1. simpl.
    rewrite H2. reflexivity.
  - intros e H. unfold theme_and_tint_to_rgb, theme_entry, get_theme_colors.
    rewrite H. by destruct e.
  - intros s H. unfold rgb_to_ms_hls. rewrite H. reflexivity.
  - intros H. unfold theme_and_tint_to_rgb. rewrite !(missing_theme_entry _ _ H).
    split; [reflexivity|]. vm_compute. reflexivity.
Qed.

Lemma malformed_color_witness :
  theme_entry (theme_of ["window"]) 0 = Ok "window"
  ∧ theme_and_tint_to_rgb (theme_of ["window"]) 0 (-0.5) = "FFFFFF"
  ∧ theme_and_tint_to_rgb no_theme 3 0 = "FFFFFF".
Proof.
  split; [reflexivity|]. split.
  - exact (proj1 (malformed_color_resolves_to_white (theme_of ["window"]) 0 (-0.5)%float)
             "window" eq_refl eq_refl).
  - exact (proj2 (proj2 (proj2 (proj2
             (malformed_color_resolves_to_white no_theme 3 0%float))) I)).
Defined.

(** C5 as stated fails: with no theme data and tint -0.5 the resolver
    returns the grey [808080], not white. *)
Lemma missing_theme_tinted_is_not_white :
  theme_missing no_theme
  ∧ theme_and_tint_to_rgb no_theme 0 (-0.5) = "808080"
  ∧ theme_and_tint_to_rgb no_theme 0 (-0.5) ≠ "FFFFFF".
Proof. split; [exact I|]. split; [vm_compute; reflexivity|]. vm_compute. discriminate. Qed.






(** *** Indexed colours *)

(** C4, as the code has it.  An indexed reference outside the palette,
    or to an empty or non-aRGB entry, resolves to ["#000000"]: the
    fallback [00000000] with its alpha byte dropped.  [normalize_color]
    returns a value in every case. *)
Theorem unresolved_index_is_black (ext : External) (wb : Workbook) (color : Color) :
  unresolved_index ext color → normalize_color ext wb color = Some "#000000".
Proof.
  intros [Ht H]. unfold normalize_color. rewrite Ht.
  destruct H as [H|[H|(s & Hs & H)]].
  - rewrite getitem_out_of_range by lia. reflexivity.
  - rewrite getitem_out_of_range by lia. reflexivity.
  - rewrite Hs. destruct H as [->|H]; [reflexivity|].
    simpl. rewrite H. rewrite orb_true_r. reflexivity.
Qed.

Lemma unresolved_index_witness :
  unresolved_index sample_ext (indexed 65)
  ∧ normalize_color sample_ext no_theme (indexed 65) = Some "#000000".
Proof.
  assert (unresolved_index sample_ext (indexed 65)) as H.
  { split; [reflexivity|]. left. vm_compute. discriminate. }
  split; [exact H|].
  exact (unresolved_index_is_black sample_ext no_theme (indexed 65) H).
Defined.

(** C4 as stated fails: index 64 of the 64-entry palette does not give
    "no colour" ([None]) but the colour ["#000000"]. *)
Lemma index_64_is_a_color :
  length legacy_palette = 64%nat
  ∧ normalize_color sample_ext no_theme (indexed 64) = Some "#000000"
  ∧ normalize_color sample_ext no_theme (indexed 64) ≠ None.
Proof. split; [reflexivity|]. split; [vm_compute; reflexivity|]. vm_compute. discriminate. Qed.

(** *** Borders *)

Lemma dict_set_in {V} (k : string) (v : V) (d : list (string * V)) (k' : string) (v' : V) :
  In (k', v') (dict_set k v d) → (k' = k ∧ v' = v) ∨ In (k', v') d.
Proof.
  induction d as [|[k0 v0] d IH]; simpl.
  - intros [[= <- <-]|[]]. by left.
  - destruct (String.eqb_spec k0 k) as [->|Hne]; simpl.
    + intros [[= <- <-]|H]; [by left|by right; right].
    + intros [H|H]; [by right; left|]. destruct (IH H); [by left|by right; right].
Qed.

Lemma edge_unmapped_step (ext : External) (wb : Workbook) (cell : Cell) (d : b_dir)
    (h : StyleSet) :
  edge_unmapped ext cell d → border_step ext wb cell h d = h.
Proof.
  unfold edge_unmapped, border_step.
  destruct (border_side _ _) as [b_s|]; [|done].
  unfold border_styles_get.
  destruct (side_style b_s) as [name|]; [|done].
  by intros [-> | ->].
Qed.

Lemma other_edge_prefix (d d' : b_dir) (k : string) :
  d ≠ d' → String.prefix (edge_prefix d) ("border-" ++ b_dir_name d' ++ "-" ++ k) = false.
Proof. destruct d, d'; intros H; try done. Qed.

Lemma border_step_keys (ext : External) (wb : Workbook) (cell : Cell) (h : StyleSet)
    (d' d : b_dir) :
  d ≠ d' →
  (∀ k v, In (k, v) h → String.prefix (edge_prefix d) k = false) →
  ∀ k v, In (k, v) (border_step ext wb cell h d') → String.prefix (edge_prefix d) k = false.
Proof.
  intros Hd Hh. unfold border_step.
  destruct (border_side _ _) as [b_s|]; [|done].
  destruct (border_styles_get _ _) as [[|kv border_style]|]; [done| |done].
  set (bs := kv :: border_style). clearbody bs.
  assert (∀ k v, In (k, v)
            (fold_left
               (λ h kv, dict_set ("border-" ++ b_dir_name d' ++ "-" ++ kv.1) (Some kv.2) h)
               bs h)
          → String.prefix (edge_prefix d) k = false) as Hfold.
  { clear -Hd Hh. revert h Hh. induction bs as [|kv bs IH]; intros h Hh; simpl; [done|].
    apply IH. intros k v Hin. apply dict_set_in in Hin as [[-> _]|Hin]; [|by eapply Hh].
    by apply other_edge_prefix. }
  destruct (side_color b_s); [|done].
  intros k v Hin. apply dict_set_in in Hin as [[-> _]|Hin]; [|by eapply Hfold].
  apply (other_edge_prefix d d' "color" Hd).
Qed.

(** C9.  For an edge that is absent, has no style name, or whose style
    name the border-style table does not map, the mapper yields nothing
    and [get_border_style_from_cell] emits no [border-<edge>-...]
    property for it: no default border is put in its place. *)
Theorem unmapped_edge_emits_no_border
    (ext : External) (wb : Workbook) (cell : Cell) (d : b_dir) :
  edge_unmapped ext cell d →
  (∀ b_s, border_side (cell_border cell) d = Some b_s →
     border_styles_get ext (side_style b_s) = None)
  ∧ ∀ k v, In (k, v) (get_border_style_from_cell ext wb cell) →
      String.prefix (edge_prefix d) k = false.
Proof.
  intros Hu. split.
  - intros b_s Hb. unfold edge_unmapped in Hu. rewrite Hb in Hu.
    unfold border_styles_get. destruct (side_style b_s); [|done].
    by destruct Hu as [-> | ->].
  - unfold get_border_style_from_cell.
    assert (∀ ds h, (∀ k v, In (k, v) h → String.prefix (edge_prefix d) k = false) →
              ∀ k v, In (k, v) (fold_left (border_step ext wb cell) ds h) →
                     String.prefix (edge_prefix d) k = false) as Hfold.
    { induction ds as [|d' ds IH]; intros h Hh; simpl; [done|].
      apply IH.
      assert (d = d' ∨ d ≠ d') as [<-|Hne] by (destruct d, d'; (by left) || (by right)).
      - by rewrite edge_unmapped_step.
      - by apply border_step_keys. }
    apply Hfold. intros k v [].
Qed.

Lemma unmapped_edge_witness :
  edge_unmapped sample_ext wavy_top_cell top
  ∧ (∀ b_s, border_side (cell_border wavy_top_cell) top = Some b_s →
       border_styles_get sample_ext (side_style b_s) = None)
  ∧ ∀ k v, In (k, v) (get_border_style_from_cell sample_ext no_theme wavy_top_cell) →
      String.prefix (edge_prefix top) k = false.
Proof.
  assert (edge_unmapped sample_ext wavy_top_cell top) as H by (left; reflexivity).
  exact (conj H (unmapped_edge_emits_no_border sample_ext no_theme wavy_top_cell top H)).
Defined.

(** *** Serialisation of attributes and styles *)

Lemma string_leb_trans (a b c : string) :
  String.leb a b = true → String.leb b c = true → String.leb a c = true.
Proof.
  unfold String.leb.
  destruct (String.compare a b) eqn:Eab; [|  |done];
  destruct (String.compare b c) eqn:Ebc; try done; intros _ _.
  - apply String.compare_eq_iff in Eab as ->. by rewrite Ebc.
  - apply String.compare_eq_iff in Eab as ->. by rewrite Ebc.
  - apply String.compare_eq_iff in Ebc as <-. by rewrite Eab.
  - assert (String.compare a c = Lt) as ->; [|done].
    apply String_as_OT.cmp_lt. eapply String_as_OT.lt_trans; by apply String_as_OT.cmp_lt.
Qed.

Lemma string_leb_total (a b : string) : String.leb a b = false → String.leb b a = true.
Proof. destruct (String.leb_total a b) as [H|H]; congruence. Qed.

Section Sorting.
Context {V : Type}.
Implicit Types (a : string * V) (l : list (string * V)).

Lemma insert_sorted_perm a l : insert_sorted a l ≡ₚ a :: l.
Proof.
  induction l as [|b l IH]; simpl; [done|].
  destruct (String.leb a.1 b.1); [done|]. rewrite IH. apply Permutation_swap.
Qed.

Lemma sorted_items_perm l : sorted_items l ≡ₚ l.
Proof.
  induction l as [|a l IH]; simpl; [done|].
  rewrite insert_sorted_perm. by rewrite IH.
Qed.

Lemma insert_sorted_sorted a l :
  StronglySorted key_le l → StronglySorted key_le (insert_sorted a l).
Proof.
  induction 1 as [|b l Hl IH Hb]; simpl.
  - repeat constructor.
  - destruct (String.leb a.1 b.1) eqn:E.
    + constructor; [by constructor|]. constructor; [done|].
      eapply Forall_impl; [exact Hb|]. intros c Hc. unfold key_le in *.
      by eapply string_leb_trans.
    + constructor; [done|].
      rewrite insert_sorted_perm. constructor; [|done].
      by apply string_leb_total.
Qed.

Lemma sorted_items_sorted l : StronglySorted key_le (sorted_items l).
Proof.
  induction l as [|a l IH]; simpl; [constructor|]. by apply insert_sorted_sorted.
Qed.

Lemma filter_sorted (P : string * V → bool) l :
  StronglySorted key_le l → StronglySorted key_le (List.filter P l).
Proof.
  induction 1 as [|b l Hl IH Hb]; simpl; [constructor|].
  destruct (P b); [|done]. constructor; [done|].
  apply Forall_forall. intros c Hc. apply list_elem_of_In, filter_In in Hc as [Hc _].
  rewrite Forall_forall in Hb. by apply Hb, list_elem_of_In.
Qed.

Lemma filter_perm (P : string * V → bool) l l' :
  l ≡ₚ l' → List.filter P l ≡ₚ List.filter P l'.
Proof.
  induction 1; simpl; try done.
  - destruct (P x); [by constructor|done].
  - destruct (P x), (P y); try done. apply Permutation_swap.
  - by etrans.
Qed.
End Sorting.

Lemma filter_all_none (l : StyleSet) :
  Forall (λ a, a.2 = None) l → List.filter has_value l = [].
Proof.
  induction 1 as [|a l Ha Hl IH]; simpl; [done|].
  unfold has_value at 1. by rewrite Ha.
Qed.

(** C8, as the code has it.  Both serialisers print the entries in key
    order.  [render_attrs] drops every entry whose value is falsy;
    [render_inline_styles] drops only the entries whose value is [None]
    (an empty string is printed), so a StyleSet whose values are all
    [None] serialises to the empty string. *)
Theorem serialization_sorts_and_drops (ext : External) (attrs : Attrs) (styles : StyleSet) :
  (∃ l, l ≡ₚ List.filter (λ a, truthy a.2) attrs
        ∧ StronglySorted key_le l
        ∧ render_attrs ext attrs = join " " (List.map (fmt_attr ext) l))
  ∧ (∃ l, l ≡ₚ List.filter has_value styles
          ∧ StronglySorted key_le l
          ∧ render_inline_styles styles = join ";" (List.map fmt_style l))
  ∧ (Forall (λ a, a.2 = None) styles → render_inline_styles styles = "").
Proof.
  split; [|split].
  - exists (List.filter (λ a, truthy a.2) (sorted_items attrs)). split; [|split].
    + apply filter_perm, sorted_items_perm.
    + apply filter_sorted, sorted_items_sorted.
    + by destruct attrs.
  - exists (List.filter has_value (sorted_items styles)). split; [|split].
    + apply filter_perm, sorted_items_perm.
    + apply filter_sorted, sorted_items_sorted.
    + by destruct styles.
  - intros H. destruct styles as [|a styles]; [done|].
    unfold render_inline_styles.
    assert (List.filter has_value (sorted_items (a :: styles)) = []) as Hnil.
    { apply Permutation_nil_r. rewrite (filter_perm _ _ _ (sorted_items_perm _)).
      by rewrite filter_all_none. }
    unfold has_value in Hnil. by rewrite Hnil.
Qed.

(** C8 as stated fails: the falsy value [""] is not dropped from an
    inline style, which then does not serialise to [""]. *)
Lemma empty_style_value_is_kept : truthy_str (Some "") = false ∧ render_inline_styles [("color", Some "")] = "color: "
  ∧ render_inline_styles [("color", Some "")] ≠ "".
Proof. split; [done|]. split; [vm_compute; reflexivity|]. vm_compute. discriminate. Qed.

(** *** Merged ranges *)

Lemma elem_of_zrange (lo hi v : Z) : v ∈ zrange lo hi ↔ lo ≤ v ≤ hi.
Proof.
  unfold zrange. rewrite list_elem_of_In, in_map_iff. split.
  - intros (i & <- & Hi). apply in_seq in Hi. lia.
  - intros H. exists (Z.to_nat (v - lo)). split; [lia|]. apply in_seq. lia.
Qed.

Lemma zrange_head (lo hi : Z) : lo ≤ hi → ∃ rest, zrange lo hi = lo :: rest.
Proof.
  intros H. unfold zrange.
  destruct (Z.to_nat (hi - lo + 1)) as [|n] eqn:E; [lia|].
  simpl. rewrite Z.add_0_r. eauto.
Qed.

Lemma zrange_empty (lo hi : Z) : hi < lo → zrange lo hi = [].
Proof. intros H. unfold zrange. by replace (Z.to_nat (hi - lo + 1)) with 0%nat by lia. Qed.

Lemma elem_of_rows_from_range (rg : CellRange) (c : coord) :
  In c (concat (rows_from_range rg)) ↔ in_range rg c.
Proof.
  unfold rows_from_range, in_range. rewrite in_concat. split.
  - intros (l & Hl & Hc). apply in_map_iff in Hl as (r & <- & Hr).
    apply in_map_iff in Hc as (k & <- & Hk).
    apply list_elem_of_In, elem_of_zrange in Hr. apply list_elem_of_In, elem_of_zrange in Hk.
    simpl. lia.
  - intros [H1 H2]. destruct c as [k r]. simpl in *.
    exists (List.map (λ c, (c, r)) (zrange (min_col rg) (max_col rg))). split.
    + apply in_map_iff. exists r. split; [done|].
      by apply list_elem_of_In, elem_of_zrange.
    + apply in_map_iff. exists k. split; [done|].
      by apply list_elem_of_In, elem_of_zrange.
Qed.

Lemma coordinate_ws_cell (ws : Worksheet) (c : coord) : coordinate (ws_cell ws c) = c.
Proof.
  unfold ws_cell. destruct (List.find _ _) as [cell|] eqn:E.
  - apply find_some in E as [_ E]. by apply bool_decide_eq_true in E.
  - by destruct c.
Qed.

Lemma ws_range_nonempty (ws : Worksheet) (rg : CellRange) :
  nonempty_range rg →
  ∃ rest0 rest,
    ws_range_rows ws rg
    = (ws_cell ws (anchor rg) :: rest0) :: rest
    ∧ ws_cell ws (anchor rg) :: rest0
      = List.map (ws_cell ws)
          (List.map (λ c, (c, min_row rg)) (zrange (min_col rg) (max_col rg))).
Proof.
  intros [Hc Hr]. unfold ws_range_rows, rows_from_range.
  destruct (zrange_head _ _ Hr) as [rs ->]. destruct (zrange_head _ _ Hc) as [cs Hcs].
  simpl. rewrite Hcs. simpl. do 2 eexists. split; reflexivity.
Qed.

Lemma ws_range_empty (ws : Worksheet) (rg : CellRange) :
  ¬ nonempty_range rg →
  ws_range_rows ws rg = [] ∨ ∃ rest, ws_range_rows ws rg = [] :: rest.
Proof.
  intros H. unfold ws_range_rows, rows_from_range.
  destruct (Z_lt_le_dec (max_row rg) (min_row rg)) as [Hr|Hr].
  - left. by rewrite (zrange_empty _ _ Hr).
  - right. destruct (Z_lt_le_dec (max_col rg) (min_col rg)) as [Hc|Hc].
    + destruct (zrange_head _ _ Hr) as [rs ->]. rewrite (zrange_empty _ _ Hc). simpl. eauto.
    + destruct H. by split.
Qed.

Lemma getitem_head {A} (a : A) (l : list A) : getitem (a :: l) 0 = Ok a.
Proof.
  unfold getitem. simpl.
  destruct (Z.leb_spec (Z.pos (Pos.of_succ_nat (length l))) 0); [lia|done].
Qed.

Lemma merge_step_raise (ws : Worksheet) (rgs : list CellRange) (e : exn) :
  fold_left (merge_step ws) rgs (Raise e) = Raise e.
Proof. induction rgs as [|rg rgs IH]; simpl; [done|]. apply IH. Qed.

Lemma merge_step_ok (ws : Worksheet) (rg : CellRange) m x m' x' :
  merge_step ws (Ok (m, x)) rg = Ok (m', x') →
  nonempty_range rg ∧ one_cell rg = false ∧ anchor rg ∈ x ∧ x' = x ∖ {[anchor rg]}
  ∧ m' = <[anchor rg := range_info ws rg]> m.
Proof.
  unfold merge_step, range_info, ws_range. simpl.
  destruct (one_cell rg); [done|]. cbn [bind].
  destruct (decide (nonempty_range rg)) as [Hn|Hn].
  - destruct (ws_range_nonempty ws rg Hn) as (rest0 & rest & -> & Hrow).
    rewrite getitem_head. cbn [bind]. rewrite getitem_head. cbn [bind].
    rewrite coordinate_ws_cell. rewrite Hrow.
    case_bool_decide as Hin; [|done]. intros [= <- <-]. done.
  - destruct (ws_range_empty ws rg Hn) as [-> | [rest ->]]; [done|].
    by rewrite getitem_head.
Qed.

(** *** The grid loops *)

Section GridLemmas.
Context (ext : External) (wb : Workbook) (ws : Worksheet) (locale : option string)
        (fs : option Worksheet) (ws_id : nat)
        (mmap : gmap coord MergeInfo) (excl : gset coord).

Local Abbreviation cells_loop' := (cells_loop ext wb ws locale fs ws_id mmap excl).
Local Abbreviation rows_loop' := (rows_loop ext wb ws locale fs ws_id mmap excl).
Local Abbreviation row_step' := (row_step ext wb ws locale fs ws_id mmap excl).
Local Abbreviation row_visits' := (row_visits ext wb ws locale fs mmap excl).
Local Abbreviation grid_visits' := (grid_visits ext wb ws locale fs mmap excl).
Local Abbreviation emit_row' := (emit_row ext wb ws locale fs mmap excl).
Local Abbreviation grid_spec' := (grid_spec ext wb ws locale fs mmap excl).
Local Abbreviation tables_after' := (tables_after ext ws_id).

Lemma row_visits_cells (row_i col_i : nat) (cells : list Cell) :
  List.map snd (row_visits' row_i col_i cells) = emit_row' cells.
Proof.
  revert col_i. induction cells as [|cell rest IH]; intros col_i; [done|].
  unfold emit_row in *. simpl. rewrite map_app, IH.
  by destruct (skipped ws excl cell).
Qed.

Lemma cells_loop_spec (row_i col_i : nat) (cells : list Cell) (st : RowState) :
  let t := tables_after' (row_visits' row_i col_i cells) (cell_styles st, cell_classnames st) in
  cells_loop' row_i col_i cells st
  = {| data_row := app (data_row st) (List.map snd (row_visits' row_i col_i cells));
       cell_styles := t.1;
       cell_classnames := t.2 |}.
Proof.
  revert col_i st. induction cells as [|cell rest IH]; intros col_i st; simpl.
  - rewrite app_nil_r. by destruct st.
  - rewrite IH. unfold cell_step, tables_after.
    destruct (skipped ws excl cell); simpl; [done|].
    by rewrite <- app_assoc.
Qed.

Lemma tables_after_app (vs vs' : list visit) t :
  tables_after' (app vs vs') t = tables_after' vs' (tables_after' vs t).
Proof. apply fold_left_app. Qed.

Lemma rows_loop_snoc (row_i : nat) (rws : list (list Cell)) (cells : list Cell)
    (st : GridState) :
  rows_loop' row_i (app rws [cells]) st
  = row_step' (row_i + length rws) cells (rows_loop' row_i rws st).
Proof.
  revert row_i st. induction rws as [|r rws IH]; intros row_i st; simpl.
  - by rewrite Nat.add_0_r.
  - rewrite IH. f_equal. lia.
Qed.

Lemma build_grid_cons (cells : list Cell) (rest : list (list Cell)) :
  rows_loop' 0 (rev (cells :: rest)) grid_init
  = row_step' (length rest) cells (rows_loop' 0 (rev rest) grid_init).
Proof. simpl. rewrite rows_loop_snoc. by rewrite length_rev. Qed.

Lemma rows_loop_spec (rws : list (list Cell)) :
  let g := rows_loop' 0 (rev rws) grid_init in
  data_list g = grid_spec' rws
  ∧ no_found_data g = trailing_blank rws
  ∧ (styles_count g, classnames g) = tables_after' (grid_visits' rws) (∅, ∅).
Proof.
  induction rws as [|cells rest IH]; [done|].
  rewrite build_grid_cons. destruct IH as (Hd & Hn & Ht).
  set (g := rows_loop' 0 (rev rest) grid_init) in *.
  unfold row_step. rewrite Hn. simpl grid_spec. simpl grid_visits.
  destruct (trailing_blank rest) eqn:E2, (all_none cells) eqn:E1; simpl;
    rewrite ?cells_loop_spec; simpl; rewrite ?row_visits_cells, ?app_nil_r, Hd, ?E1, ?E2;
    (split; [done|]); (split; [done|]); try done.
  all: rewrite tables_after_app, <- Ht; symmetry; apply surjective_pairing.
Qed.

End GridLemmas.

(** *** Class names *)

#[local] Arguments String.append !s1 s2 : simpl nomatch.

Lemma append_inj_l (s a b : string) : s ++ a = s ++ b → a = b.
Proof. induction s as [|c s IH]; simpl; [done|]. intros [= H]. by apply IH. Qed.

Lemma dash_split (a b a' b' : string) :
  dashless a → dashless a' → a ++ "-" ++ b = a' ++ "-" ++ b' → a = a' ∧ b = b'.
Proof.
  revert a'. induction a as [|c a IH]; intros [|c' a'] Ha Ha'; simpl.
  - by intros [= ->].
  - intros [= <- _]. by destruct Ha' as [[] _].
  - intros [= -> _]. by destruct Ha as [[] _].
  - intros [= -> H]. destruct Ha as [_ Ha], Ha' as [_ Ha'].
    destruct (IH a' Ha Ha' H) as [-> ->]. done.
Qed.

Lemma dashless_uint (d : Decimal.uint) : dashless (NilEmpty.string_of_uint d).
Proof. induction d; simpl; try done. Qed.

Lemma dashless_str_of_nat (n : nat) : dashless (str_of_int (Z.of_nat n)).
Proof.
  unfold str_of_int. destruct n as [|n]; [simpl; done|].
  simpl. unfold NilZero.string_of_uint.
  destruct (Pos.to_uint _); try apply dashless_uint. simpl. done.
Qed.

Lemma str_of_nat_inj (n m : nat) :
  str_of_int (Z.of_nat n) = str_of_int (Z.of_nat m) → n = m.
Proof.
  unfold str_of_int. intros H.
  assert (∀ k : nat, Z.to_int (Z.of_nat k) ≠ Decimal.Pos Decimal.Nil
                     ∧ Z.to_int (Z.of_nat k) ≠ Decimal.Neg Decimal.Nil) as Hk.
  { intros k. split; intros E.
    - destruct k; [done|]. simpl in E. injection E as E.
      by apply DecimalPos.Unsigned.to_uint_nonnil in E.
    - destruct k; done. }
  assert (Some (Z.to_int (Z.of_nat n)) = Some (Z.to_int (Z.of_nat m))) as [= E].
  { rewrite <- (NilZero.isi (Z.to_int (Z.of_nat n))) by apply Hk.
    rewrite <- (NilZero.isi (Z.to_int (Z.of_nat m))) by apply Hk.
    by rewrite H. }
  apply DecimalZ.to_int_inj in E. lia.
Qed.

Lemma classname_inj (ws_id ri ci ri' ci' : nat) :
  classname ws_id ri ci = classname ws_id ri' ci' → ri = ri' ∧ ci = ci'.
Proof.
  unfold classname. intros H.
  apply append_inj_l, append_inj_l, append_inj_l in H.
  apply dash_split in H as [H1 H2]; try apply dashless_str_of_nat.
  split; by apply str_of_nat_inj.
Qed.

#[local] Set Warnings "-clear-no-such-hyp".

Lemma merged_fold_spec (ws : Worksheet) (rgs : list CellRange)
    (m0 : gmap coord MergeInfo) (x0 : gset coord) m x :
  fold_left (merge_step ws) rgs (Ok (m0, x0)) = Ok (m, x) →
  Forall nonempty_range rgs
  ∧ NoDup (List.map anchor rgs)
  ∧ (∀ rg, In rg rgs → anchor rg ∈ x0)
  ∧ x = x0 ∖ list_to_set (List.map anchor rgs)
  ∧ (∀ rg, In rg rgs → m !! anchor rg = Some (range_info ws rg))
  ∧ (∀ c, ¬ In c (List.map anchor rgs) → m !! c = m0 !! c).
Proof.
  revert m0 x0. induction rgs as [|rg rgs IH]; intros m0 x0; cbn [fold_left].
  - intros [= <- <-]. split; [constructor|]. split; [constructor|].
    split; [done|]. split; [set_solver|]. done.
  - destruct (merge_step ws (Ok (m0, x0)) rg) as [[m1 x1]|e] eqn:E;
      [|by rewrite merge_step_raise].
    apply merge_step_ok in E as (Hn & _ & Hin & -> & ->).
    intros H. apply IH in H as (Hne & Hnd & Hx & -> & Hm & Hother).
    assert (¬ In (anchor rg) (List.map anchor rgs)) as Hfresh.
    { intros Ha. apply in_map_iff in Ha as (rg' & Ha & Hrg').
      apply Hx in Hrg'. rewrite Ha in Hrg'. set_solver. }
    repeat split.
    + by constructor.
    + apply NoDup_cons. split; [by rewrite list_elem_of_In|done].
    + intros rg' [<-|Hrg']; [done|]. apply Hx in Hrg'. set_solver.
    + set_solver.
    + intros rg' [<-|Hrg']; [|by apply Hm].
      rewrite Hother by done. apply lookup_insert_eq.
    + intros c Hc. simpl in Hc. rewrite Hother by tauto. apply lookup_insert_ne. tauto.
Qed.

Lemma merged_cells_spec (ws : Worksheet) m x :
  merged_cells ws = Ok (m, x) →
  Forall nonempty_range (ws_merged_ranges ws)
  ∧ NoDup (List.map anchor (ws_merged_ranges ws))
  ∧ x = excluded_init ws ∖ list_to_set (List.map anchor (ws_merged_ranges ws))
  ∧ (∀ rg, In rg (ws_merged_ranges ws) → m !! anchor rg = Some (range_info ws rg))
  ∧ (∀ c, ¬ In c (List.map anchor (ws_merged_ranges ws)) → m !! c = None).
Proof.
  intros H. apply merged_fold_spec in H as (H1 & H2 & _ & H3 & H4 & H5).
  repeat split; try done.
Qed.

Lemma elem_of_excluded_init (ws : Worksheet) (c : coord) :
  c ∈ excluded_init ws ↔ ∃ rg, In rg (ws_merged_ranges ws) ∧ in_range rg c.
Proof.
  unfold excluded_init. rewrite elem_of_list_to_set, list_elem_of_In.
  induction (ws_merged_ranges ws) as [|rg rgs IH]; simpl.
  - split; [done|]. by intros (rg & [] & _).
  - rewrite concat_app, in_app_iff, IH, elem_of_rows_from_range. split.
    + intros [H|(rg' & Hrg' & H)]; [exists rg; tauto|exists rg'; tauto].
    + intros (rg' & [<-|Hrg'] & H); [by left|right; eauto].
Qed.

(** *** The rows of the grid *)

Section DedupShape.
Context (ext : External) (cs : gmap string nat) (cn : gmap string string).

Lemma dedup_cell_coords sd g g' sd' :
  dedup_cell ext cs cn sd g = Ok (g', sd') → coords_of g' = coords_of g.
Proof.
  unfold dedup_cell, table_get.
  destruct (cs !! _) as [n|]; [|done]. simpl.
  destruct (1 <? n)%nat; [|by intros [= <- _]].
  destruct (cn !! _); [|done]. simpl. by intros [= <- _].
Qed.

Lemma dedup_row_coords sd r r' sd' :
  dedup_row ext cs cn sd r = Ok (r', sd') → row_coords r' = row_coords r.
Proof.
  revert sd r' sd'. induction r as [|g r IH]; intros sd r' sd'; simpl.
  - by intros [= <- _].
  - destruct (dedup_cell ext cs cn sd g) as [[g1 sd1]|] eqn:E1; [|done]. simpl.
    destruct (dedup_row ext cs cn sd1 r) as [[r1 sd2]|] eqn:E2; [|done]. simpl.
    intros [= <- _]. simpl. f_equal; [by eapply dedup_cell_coords|by eapply IH].
Qed.

Lemma dedup_rows_coords sd rws rws' sd' :
  dedup_rows ext cs cn sd rws = Ok (rws', sd') →
  List.map row_coords rws' = List.map row_coords rws.
Proof.
  revert sd rws' sd'. induction rws as [|r rws IH]; intros sd rws' sd'; simpl.
  - by intros [= <- _].
  - destruct (dedup_row ext cs cn sd r) as [[r1 sd1]|] eqn:E1; [|done]. simpl.
    destruct (dedup_rows ext cs cn sd1 rws) as [[rws1 sd2]|] eqn:E2; [|done]. simpl.
    intros [= <- _]. simpl. f_equal; [by eapply dedup_row_coords|by eapply IH].
Qed.
End DedupShape.

Lemma coords_of_cell_data ext wb ws locale fs mmap cell :
  coords_of (cell_data ext wb ws locale fs mmap cell) = coordinate cell.
Proof. done. Qed.

Lemma grid_spec_coords ext wb ws locale fs mmap rws :
  List.map row_coords (grid_spec ext wb ws locale fs mmap (suppressed ws) rws)
  = coords_spec ws rws.
Proof.
  induction rws as [|cells rest IH]; [done|].
  simpl. rewrite IH. f_equal.
  destruct (all_none cells && trailing_blank rest); [done|].
  unfold row_coords, emit_row, kept_coords. rewrite map_map. done.
Qed.

(** What [worksheet_to_data] returns, in terms of the two loops. *)
Lemma worksheet_to_data_ok ext wb pos ws locale fs data :
  worksheet_to_data ext wb pos ws locale fs = Ok data →
  ∃ mmap rws' sd,
    merged_cells ws = Ok (mmap, suppressed ws)
    ∧ dedup_rows ext
        (styles_count (build_grid ext wb ws locale fs (pos + 1) mmap (suppressed ws)))
        (classnames (build_grid ext wb ws locale fs (pos + 1) mmap (suppressed ws)))
        [] (data_list (build_grid ext wb ws locale fs (pos + 1) mmap (suppressed ws)))
      = Ok (rws', sd)
    ∧ rows data = rws' ∧ styles data = sd.
Proof.
  unfold worksheet_to_data.
  destruct (merged_cells ws) as [[mmap excl]|] eqn:Em; [|done]. simpl.
  destruct (merged_cells_spec _ _ _ Em) as (_ & _ & -> & _).
  fold (suppressed ws) in *.
  destruct (dedup_rows _ _ _ _ _) as [[rws' sd]|] eqn:Ed; [|done]. simpl.
  intros [= <-]. by exists mmap, rws', sd.
Qed.

(** The grid has one row per row of the sheet, with the coordinates
    [coords_spec] lists. *)
Lemma worksheet_to_data_coords
    (ext : External) (wb : Workbook) (pos : nat) (ws : Worksheet)
    (locale : option string) (fs : option Worksheet) (data : Data) :
  worksheet_to_data ext wb pos ws locale fs = Ok data →
  length (rows data) = length (ws_rows ws)
  ∧ List.map row_coords (rows data) = coords_spec ws (ws_rows ws).
Proof.
  intros H. apply worksheet_to_data_ok in H as (mmap & rws' & sd & Hm & Hd & -> & _).
  apply dedup_rows_coords in Hd. unfold build_grid in Hd.
  destruct (rows_loop_spec ext wb ws locale fs (pos + 1) mmap (suppressed ws) (ws_rows ws))
    as (Hg & _ & _).
  rewrite Hg, grid_spec_coords in Hd. split; [|done].
  apply (f_equal length) in Hd. rewrite length_map in Hd. rewrite Hd.
  clear. induction (ws_rows ws); simpl; [done|]. by f_equal.
Qed.

(** *** The second pass *)

Section DedupPass.
Context (ext : External) (cs : gmap string nat) (cn : gmap string string).

Lemma dedup_cell_spec sd g g' sd' :
  dedup_cell ext cs cn sd g = Ok (g', sd') →
  dedup_rel ext cs cn g g' ∧ sd' = sheet_step ext cs cn sd g.
Proof.
  unfold dedup_cell, dedup_rel, sheet_step, table_get, style_key.
  destruct (cs !! _) as [n|]; [|done]. simpl.
  destruct (1 <? n)%nat eqn:En.
  - destruct (cn !! _) as [name|]; [|done]. simpl. intros [= <- <-].
    split; [|done]. exists n. rewrite En. split; [done|]. by exists name.
  - intros [= <- <-]. split; [|by destruct (cn !! _)]. exists n. by rewrite En.
Qed.

Lemma dedup_row_spec sd r r' sd' :
  dedup_row ext cs cn sd r = Ok (r', sd') →
  Forall2 (dedup_rel ext cs cn) r r' ∧ sd' = fold_left (sheet_step ext cs cn) r sd.
Proof.
  revert sd r' sd'. induction r as [|g r IH]; intros sd r' sd'; simpl.
  - intros [= <- <-]. split; [constructor|done].
  - destruct (dedup_cell ext cs cn sd g) as [[g1 sd1]|] eqn:E1; [|done]. simpl.
    destruct (dedup_row ext cs cn sd1 r) as [[r1 sd2]|] eqn:E2; [|done]. simpl.
    intros [= <- <-]. apply dedup_cell_spec in E1 as [H1 ->].
    apply IH in E2 as [H2 ->]. split; [by constructor|done].
Qed.

Lemma dedup_rows_spec sd rws rws' sd' :
  dedup_rows ext cs cn sd rws = Ok (rws', sd') →
  Forall2 (Forall2 (dedup_rel ext cs cn)) rws rws'
  ∧ sd' = fold_left (sheet_step ext cs cn) (concat rws) sd.
Proof.
  revert sd rws' sd'. induction rws as [|r rws IH]; intros sd rws' sd'; simpl.
  - intros [= <- <-]. split; [constructor|done].
  - destruct (dedup_row ext cs cn sd r) as [[r1 sd1]|] eqn:E1; [|done]. simpl.
    destruct (dedup_rows ext cs cn sd1 rws) as [[rws1 sd2]|] eqn:E2; [|done]. simpl.
    intros [= <- <-]. apply dedup_row_spec in E1 as [H1 ->].
    apply IH in E2 as [H2 ->]. split; [by constructor|].
    by rewrite fold_left_app.
Qed.

(** The second pass cannot fail when both tables know every cell. *)
Lemma dedup_cell_total sd g :
  is_Some (cs !! style_key ext g) → is_Some (cn !! style_key ext g) →
  ∃ r, dedup_cell ext cs cn sd g = Ok r.
Proof.
  intros [n Hn] [name Hname]. unfold dedup_cell, table_get. unfold style_key in *.
  rewrite Hn. simpl. rewrite Hname. simpl. destruct (1 <? n)%nat; eauto.
Qed.

Lemma dedup_row_total sd r :
  (∀ g, In g r → is_Some (cs !! style_key ext g) ∧ is_Some (cn !! style_key ext g)) →
  ∃ res, dedup_row ext cs cn sd r = Ok res.
Proof.
  revert sd. induction r as [|g r IH]; intros sd H; simpl; [eauto|].
  destruct (dedup_cell_total sd g) as [[g1 sd1] ->]; try apply H; [by left..|]. simpl.
  destruct (IH sd1) as [[r1 sd2] ->]; [intros g' Hg'; apply H; by right|]. simpl. eauto.
Qed.

Lemma dedup_rows_total sd rws :
  (∀ g, In g (concat rws) →
        is_Some (cs !! style_key ext g) ∧ is_Some (cn !! style_key ext g)) →
  ∃ res, dedup_rows ext cs cn sd rws = Ok res.
Proof.
  revert sd. induction rws as [|r rws IH]; intros sd H; simpl; [eauto|].
  destruct (dedup_row_total sd r) as [[r1 sd1] ->].
  { intros g Hg. apply H. simpl. apply in_app_iff. by left. }
  simpl. destruct (IH sd1) as [[rws1 sd2] ->].
  { intros g Hg. apply H. simpl. apply in_app_iff. by right. }
  simpl. eauto.
Qed.

End DedupPass.

(** *** The occurrence tables *)

Section Tables.
Context (ext : External) (ws_id : nat).
Implicit Types (vs : list visit) (v : visit).

Local Abbreviation tables_after' := (tables_after ext ws_id).
Local Abbreviation occ := (occurrences ext).

Lemma occurrences_cons k g l :
  occ k (g :: l) = ((if String.eqb (style_key ext g) k then 1 else 0) + occ k l)%nat.
Proof. unfold occurrences. simpl. by destruct (String.eqb _ _). Qed.

Lemma occurrences_app k l l' : occ k (app l l') = (occ k l + occ k l')%nat.
Proof. unfold occurrences. by rewrite List.filter_app, List.length_app. Qed.

Lemma occurrences_in k g l : In g l → style_key ext g = k → (1 ≤ occ k l)%nat.
Proof.
  intros Hin Hk. induction l as [|g' l IH]; [done|]. rewrite occurrences_cons.
  destruct Hin as [->|Hin]; [|specialize (IH Hin); lia].
  rewrite Hk, String.eqb_refl. lia.
Qed.

Lemma occurrences_pos k l : (1 ≤ occ k l)%nat → ∃ g, In g l ∧ style_key ext g = k.
Proof.
  induction l as [|g l IH]; [unfold occurrences; simpl; lia|].
  rewrite occurrences_cons. destruct (String.eqb_spec (style_key ext g) k) as [E|E].
  - intros _. exists g. split; [by left|done].
  - intros H. destruct IH as (g' & Hg' & Hk); [lia|]. exists g'. split; [by right|done].
Qed.

Lemma tables_after_cons v vs t :
  tables_after' (v :: vs) t = tables_after' vs (table_step ext ws_id t v).
Proof. done. Qed.

Lemma count_table vs cs0 cn0 k :
  (tables_after' vs (cs0, cn0)).1 !! k
  = match occ k (List.map snd vs) with
    | O => cs0 !! k
    | S n => Some (S n + default 0%nat (cs0 !! k))%nat
    end.
Proof.
  revert cs0 cn0. induction vs as [|v vs IH]; intros cs0 cn0; [done|].
  rewrite tables_after_cons.
  rewrite (surjective_pairing (table_step ext ws_id (cs0, cn0) v)), IH.
  unfold table_step. cbn [fst snd List.map]. rewrite occurrences_cons.
  destruct (String.eqb_spec (style_key ext v.2) k) as [E|E].
  - rewrite E, lookup_insert_eq. simpl.
    destruct (occ k (List.map snd vs)); destruct (cs0 !! k); simpl; f_equal; lia.
  - rewrite lookup_insert_ne by done. done.
Qed.

Lemma name_table vs cs0 cn0 k name :
  (tables_after' vs (cs0, cn0)).2 !! k = Some name →
  (∃ v, In v vs ∧ style_key ext v.2 = k ∧ name = classname ws_id v.1.1 v.1.2)
  ∨ cn0 !! k = Some name.
Proof.
  revert cs0 cn0. induction vs as [|v vs IH]; intros cs0 cn0; [by right|].
  rewrite tables_after_cons.
  rewrite (surjective_pairing (table_step ext ws_id (cs0, cn0) v)). intros H.
  apply IH in H as [(v' & Hv' & Hk & Hn)|H]; unfold table_step in *; cbn [fst snd] in *.
  - left. exists v'. split; [by right|done].
  - destruct (String.eqb_spec (style_key ext v.2) k) as [E|E].
    + rewrite E, lookup_insert_eq in H. injection H as <-.
      left. exists v. split; [by left|done].
    + rewrite lookup_insert_ne in H by done. by right.
Qed.

Lemma name_table_dom vs cs0 cn0 k :
  is_Some (cn0 !! k) ∨ (∃ v, In v vs ∧ style_key ext v.2 = k) →
  is_Some ((tables_after' vs (cs0, cn0)).2 !! k).
Proof.
  revert cs0 cn0. induction vs as [|v vs IH]; intros cs0 cn0.
  - intros [H|(v & [] & _)]. done.
  - intros H. rewrite tables_after_cons.
    rewrite (surjective_pairing (table_step ext ws_id (cs0, cn0) v)). apply IH.
    unfold table_step. cbn [fst snd].
    destruct (String.eqb_spec (style_key ext v.2) k) as [E|E].
    + left. rewrite E, lookup_insert_eq. eauto.
    + rewrite lookup_insert_ne by done.
      destruct H as [H|(v' & [<-|Hv'] & Hk)]; [by left|done|right; eauto].
Qed.

End Tables.

Section Visits.
Context (ext : External) (wb : Workbook) (ws : Worksheet) (locale : option string)
        (fs : option Worksheet) (mmap : gmap coord MergeInfo) (excl : gset coord).

Local Abbreviation row_visits' := (row_visits ext wb ws locale fs mmap excl).
Local Abbreviation grid_visits' := (grid_visits ext wb ws locale fs mmap excl).
Local Abbreviation emit_row' := (emit_row ext wb ws locale fs mmap excl).
Local Abbreviation grid_spec' := (grid_spec ext wb ws locale fs mmap excl).

Lemma row_visits_pos row_i col_i cells v :
  In v (row_visits' row_i col_i cells) → v.1.1 = row_i ∧ (col_i ≤ v.1.2)%nat.
Proof.
  revert col_i. induction cells as [|cell rest IH]; intros col_i; [done|].
  simpl. rewrite in_app_iff. intros [H|H].
  - destruct (skipped ws excl cell); [done|]. destruct H as [<-|[]]. simpl. lia.
  - apply IH in H. lia.
Qed.

Lemma row_visits_nodup row_i col_i cells :
  NoDup (List.map fst (row_visits' row_i col_i cells)).
Proof.
  revert col_i. induction cells as [|cell rest IH]; intros col_i; [constructor|].
  simpl. rewrite map_app. destruct (skipped ws excl cell); simpl; [apply IH|].
  apply NoDup_cons. split; [|apply IH].
  rewrite list_elem_of_In, in_map_iff. intros (v & Hv & Hin).
  apply row_visits_pos in Hin as [_ Hc]. rewrite Hv in Hc. simpl in Hc. lia.
Qed.

Lemma grid_visits_pos rws v :
  In v (grid_visits' rws) → (v.1.1 < length rws)%nat.
Proof.
  induction rws as [|cells rest IH]; [done|].
  simpl. rewrite in_app_iff. intros [H|H].
  - apply IH in H. lia.
  - destruct (all_none cells && trailing_blank rest); [done|].
    apply row_visits_pos in H as [-> _]. lia.
Qed.

Lemma grid_visits_nodup rws : NoDup (List.map fst (grid_visits' rws)).
Proof.
  induction rws as [|cells rest IH]; [constructor|].
  simpl. rewrite map_app. apply NoDup_app. split; [done|]. split.
  - intros p Hp Hp'. apply list_elem_of_In, in_map_iff in Hp as (v & <- & Hv).
    apply list_elem_of_In, in_map_iff in Hp' as (v' & Hv' & Hin').
    apply grid_visits_pos in Hv.
    destruct (all_none cells && trailing_blank rest); [done|].
    apply row_visits_pos in Hin' as [Hr _]. rewrite Hv' in Hr. lia.
  - destruct (all_none cells && trailing_blank rest); [constructor|].
    apply row_visits_nodup.
Qed.

Lemma grid_visits_cells rws :
  List.map snd (grid_visits' rws) ≡ₚ concat (grid_spec' rws).
Proof.
  induction rws as [|cells rest IH]; [done|].
  simpl. rewrite map_app, IH, Permutation_app_comm. apply Permutation_app_tail.
  destruct (all_none cells && trailing_blank rest); [done|].
  by rewrite row_visits_cells.
Qed.

End Visits.

Lemma filter_length_perm {A} (P : A → bool) (l l' : list A) :
  l ≡ₚ l' → length (List.filter P l) = length (List.filter P l').
Proof.
  induction 1; simpl; try done.
  - destruct (P x); simpl; [by f_equal|done].
  - by destruct (P x), (P y).
  - by etrans.
Qed.

Lemma occurrences_perm ext k l l' : l ≡ₚ l' → occurrences ext k l = occurrences ext k l'.
Proof. apply filter_length_perm. Qed.

(** *** The stylesheet *)

Section Dict.
Context {V : Type}.
Implicit Types (d : list (string * V)).

Lemma dict_set_here k v d : In (k, v) (dict_set k v d).
Proof.
  induction d as [|[k0 v0] d IH]; simpl; [by left|].
  destruct (String.eqb_spec k0 k) as [->|Hne]; [by left|by right].
Qed.

Lemma dict_set_keys k v d k' :
  In k' (List.map fst (dict_set k v d)) ↔ k' = k ∨ In k' (List.map fst d).
Proof.
  induction d as [|[k0 v0] d IH]; simpl; [naive_solver|].
  destruct (String.eqb_spec k0 k) as [->|Hne]; simpl; [naive_solver|].
  rewrite IH. naive_solver.
Qed.

Lemma dict_set_nodup k v d :
  NoDup (List.map fst d) → NoDup (List.map fst (dict_set k v d)).
Proof.
  induction d as [|[k0 v0] d IH]; simpl; intros H.
  - apply NoDup_cons. split; [by intros ?%elem_of_nil|constructor].
  - apply NoDup_cons in H as [H1 H2].
    destruct (String.eqb_spec k0 k) as [->|Hne]; simpl.
    + by apply NoDup_cons.
    + apply NoDup_cons. split; [|by apply IH].
      rewrite list_elem_of_In, dict_set_keys. rewrite list_elem_of_In in H1. naive_solver.
Qed.

Lemma unique_entry (P : string * V → bool) d name st :
  NoDup (List.map fst d) → In (name, st) d → P (name, st) = true →
  (∀ e, In e d → P e = true → e.1 = name) →
  List.filter P d = [(name, st)].
Proof.
  induction d as [|e d IH]; [done|]. simpl. intros Hnd Hin HP Hall.
  apply NoDup_cons in Hnd as [Hne Hnd]. rewrite list_elem_of_In in Hne.
  assert (∀ e', In e' d → e'.1 ≠ e.1) as Hfresh.
  { intros e' He' E. apply Hne. rewrite <- E. by apply in_map. }
  destruct Hin as [->|Hin].
  - rewrite HP. f_equal.
    assert (∀ e', In e' d → P e' = false) as Hnone.
    { intros e' He'. destruct (P e') eqn:E; [|done].
      exfalso. apply (Hfresh e' He'). simpl. apply Hall; [by right|done]. }
    clear -Hnone. induction d as [|e' d IH]; [done|]. simpl.
    rewrite Hnone by (by left). apply IH. intros e'' He''. apply Hnone. by right.
  - destruct (P e) eqn:E.
    + exfalso. apply (Hfresh _ Hin). simpl. symmetry. apply Hall; [by left|done].
    + apply IH; try done. intros e' He'. apply Hall. by right.
Qed.

Lemma no_entry (P : string * V → bool) d :
  (∀ e, In e d → P e = false) → List.filter P d = [].
Proof.
  induction d as [|e d IH]; [done|]. simpl. intros H.
  rewrite H by (by left). apply IH. intros e' He'. apply H. by right.
Qed.

End Dict.

Section SheetFold.
Context (ext : External) (cs : gmap string nat) (cn : gmap string string)
        (L : list GridCell).
Hypothesis Hcs : ∀ g, In g L → cs !! style_key ext g = Some (occurrences ext (style_key ext g) L).
Hypothesis Hcn : ∀ g, In g L → is_Some (cn !! style_key ext g).

Lemma sheet_step_inv sd g : In g L → sheet_inv ext cn L sd → sheet_inv ext cn L (sheet_step ext cs cn sd g).
Proof.
  intros Hg [Hnd Hall]. unfold sheet_step. rewrite (Hcs g Hg).
  destruct (Hcn g Hg) as [name Hname]. rewrite Hname.
  destruct (Nat.ltb_spec 1 (occurrences ext (style_key ext g) L)) as [Hlt|Hle]; [|done].
  split; [by apply dict_set_nodup|].
  intros name' st Hin. apply dict_set_in in Hin as [[-> ->]|Hin]; [|by apply Hall].
  by exists g.
Qed.

Lemma sheet_fold_inv P sd :
  (∀ g, In g P → In g L) → sheet_inv ext cn L sd →
  sheet_inv ext cn L (fold_left (sheet_step ext cs cn) P sd).
Proof.
  revert sd. induction P as [|g P IH]; intros sd HP Hinv; [done|].
  simpl. apply IH; [intros g' Hg'; apply HP; by right|].
  apply sheet_step_inv; [apply HP; by left|done].
Qed.

Lemma sheet_step_keeps sd g name :
  In name (List.map fst sd) → In name (List.map fst (sheet_step ext cs cn sd g)).
Proof.
  intros H. unfold sheet_step.
  destruct (cs !! _); [|done]. destruct (cn !! _); [|done].
  destruct (1 <? _)%nat; [|done]. apply dict_set_keys. by right.
Qed.

Lemma sheet_fold_keeps P sd name :
  In name (List.map fst sd) →
  In name (List.map fst (fold_left (sheet_step ext cs cn) P sd)).
Proof.
  revert sd. induction P as [|g P IH]; intros sd H; [done|].
  simpl. by apply IH, sheet_step_keeps.
Qed.

Lemma sheet_fold_has P sd g name :
  (∀ g, In g P → In g L) → In g P →
  (1 < occurrences ext (style_key ext g) L)%nat → cn !! style_key ext g = Some name →
  In name (List.map fst (fold_left (sheet_step ext cs cn) P sd)).
Proof.
  revert sd. induction P as [|g' P IH]; intros sd HP Hin Hocc Hname; [done|].
  simpl. destruct Hin as [->|Hin].
  - apply sheet_fold_keeps. unfold sheet_step.
    rewrite (Hcs g) by (apply HP; by left). rewrite Hname.
    apply Nat.ltb_lt in Hocc. rewrite Hocc. apply dict_set_keys. by left.
  - apply IH; try done. intros g'' Hg''. apply HP. by right.
Qed.

End SheetFold.

(** *** Style deduplication *)

Section Assembly.
Context (ext : External) (wb : Workbook) (pos : nat) (ws : Worksheet)
        (locale : option string) (fs : option Worksheet)
        (mmap : gmap coord MergeInfo) (excl : gset coord).

Local Abbreviation G := (build_grid ext wb ws locale fs (pos + 1) mmap excl).
Local Abbreviation V := (grid_visits ext wb ws locale fs mmap excl (ws_rows ws)).
Local Abbreviation grid := (grid_spec ext wb ws locale fs mmap excl (ws_rows ws)).

Lemma grid_tables :
  data_list G = grid
  ∧ (styles_count G, classnames G) = tables_after ext (pos + 1) V (∅, ∅).
Proof.
  destruct (rows_loop_spec ext wb ws locale fs (pos + 1) mmap excl (ws_rows ws))
    as (H1 & _ & H2). done.
Qed.

Lemma grid_counts g :
  In g (concat grid) →
  styles_count G !! style_key ext g
  = Some (occurrences ext (style_key ext g) (concat grid)).
Proof.
  intros Hg. destruct grid_tables as [_ Ht].
  apply (f_equal fst) in Ht. simpl in Ht. rewrite Ht, count_table.
  rewrite (occurrences_perm _ _ _ _ (grid_visits_cells ext wb ws locale fs mmap excl _)).
  pose proof (occurrences_in ext _ _ _ Hg eq_refl) as Hpos.
  destruct (occurrences _ _ _); [lia|]. rewrite lookup_empty. simpl. f_equal. lia.
Qed.

Lemma grid_names g :
  In g (concat grid) → is_Some (classnames G !! style_key ext g).
Proof.
  intros Hg. destruct grid_tables as [_ Ht].
  apply (f_equal snd) in Ht. simpl in Ht. rewrite Ht. apply name_table_dom. right.
  assert (In g (List.map snd V)) as Hin.
  { apply list_elem_of_In. rewrite (grid_visits_cells ext wb ws locale fs mmap excl _).
    by apply list_elem_of_In. }
  apply in_map_iff in Hin as (v & <- & Hv). eauto.
Qed.

Lemma grid_name_visit k name :
  classnames G !! k = Some name →
  ∃ ri ci g0, In (ri, ci, g0) V ∧ style_key ext g0 = k ∧ name = classname (pos + 1) ri ci.
Proof.
  intros H. destruct grid_tables as [_ Ht].
  apply (f_equal snd) in Ht. simpl in Ht. rewrite Ht in H.
  apply name_table in H as [([[ri ci] g0] & Hv & Hk & Hn)|H]; [|by rewrite lookup_empty in H].
  by exists ri, ci, g0.
Qed.

Lemma grid_names_inj k1 k2 name :
  classnames G !! k1 = Some name → classnames G !! k2 = Some name → k1 = k2.
Proof.
  intros H1 H2.
  apply grid_name_visit in H1 as (r1 & c1 & g1 & Hv1 & <- & ->).
  apply grid_name_visit in H2 as (r2 & c2 & g2 & Hv2 & <- & Hn).
  apply classname_inj in Hn as [-> ->].
  pose proof (grid_visits_nodup ext wb ws locale fs mmap excl (ws_rows ws)) as Hnd.
  assert (g1 = g2) as ->; [|done].
  revert Hv1 Hv2 Hnd. generalize V. intros vs. induction vs as [|v vs IH]; [done|].
  simpl. intros Hv1 Hv2 Hnd. apply NoDup_cons in Hnd as [Hne Hnd].
  rewrite list_elem_of_In in Hne.
  destruct Hv1 as [->|Hv1], Hv2 as [E|Hv2].
  - by injection E.
  - exfalso. apply Hne. by apply (in_map fst) in Hv2.
  - exfalso. apply Hne. rewrite E. by apply (in_map fst) in Hv1.
  - by apply IH.
Qed.

(** C7.  Once the merged ranges are read, [worksheet_to_data] returns,
    and every cell of the grid is deduplicated: when the serialisation
    key of its StyleSet occurs in two cells or more, the cell loses
    its inline StyleSet for a [class] attribute whose name is built
    from the sheet index and from the row and column index of an
    occurrence of the key, and the stylesheet has exactly one entry
    for the key, under that name; when the key occurs once, the cell
    is left as it is and the stylesheet has no entry for the key. *)
Theorem shared_styles_become_classes :
  merged_cells ws = Ok (mmap, excl) →
  ∃ data,
    worksheet_to_data ext wb pos ws locale fs = Ok data
    ∧ Forall2
        (Forall2 (deduplicated ext (pos + 1) V (concat (data_list G)) (styles data)))
        (data_list G) (rows data).
Proof.
  intros Hm.
  destruct (dedup_rows_total ext (styles_count G) (classnames G) [] (data_list G))
    as [[rws' sd] Hd].
  { intros g Hg. rewrite (proj1 grid_tables) in Hg.
    split; [rewrite grid_counts by done; eauto|by apply grid_names]. }
  exists {| title := ws_title ws; rows := rws'; cols := ws_cols ws;
            images := ws_images ws; styles := sd |}.
  split. { unfold worksheet_to_data. rewrite Hm. simpl. rewrite Hd. done. }
  simpl. apply dedup_rows_spec in Hd as [Hrel ->].
  rewrite (proj1 grid_tables) in *.
  assert (sheet_inv ext (classnames G) (concat grid)
            (fold_left (sheet_step ext (styles_count G) (classnames G)) (concat grid) []))
    as [Hnd Hall].
  { apply sheet_fold_inv; try done.
    - apply grid_counts. - apply grid_names.
    - split; [constructor|]. by intros ?? []. }
  assert (∀ r, (∀ g, In g r → In g (concat grid)) →
            ∀ r', Forall2 (dedup_rel ext (styles_count G) (classnames G)) r r' →
            Forall2 (deduplicated ext (pos + 1) V (concat grid)
                       (fold_left (sheet_step ext (styles_count G) (classnames G))
                          (concat grid) [])) r r') as Hrow.
  { intros r Hr r' HF. induction HF as [|g g' r r' Hg HF IH]; constructor.
    2:{ apply IH. intros g0 Hg0. apply Hr. by right. }
    assert (In g (concat grid)) as Hin by (apply Hr; by left).
    destruct Hg as (n & Hn & Hg). rewrite grid_counts in Hn by done.
    injection Hn as <-. split.
    - intros Hocc. destruct (Nat.ltb_spec 1 (occurrences ext (style_key ext g) (concat grid)));
        [|lia].
      destruct Hg as (name & Hname & ->).
      destruct (grid_name_visit _ _ Hname) as (ri & ci & g0 & Hv & Hk & ->).
      assert (In (classname (pos + 1) ri ci)
                (List.map fst (fold_left (sheet_step ext (styles_count G) (classnames G))
                                 (concat grid) []))) as Hhas.
      { eapply sheet_fold_has; try done. apply grid_counts. }
      apply in_map_iff in Hhas as ([name st] & Hfst & Hst). simpl in Hfst. subst name.
      exists ri, ci, g0, st. repeat split; try done.
      unfold entries_for. apply unique_entry; try done.
      + destruct (Hall _ _ Hst) as (g1 & Hg1 & _ & Hn1 & ->).
        simpl. apply String.eqb_eq. fold (style_key ext g1).
        by eapply grid_names_inj.
      + intros [name' st'] He HP. simpl in *. apply String.eqb_eq in HP.
        destruct (Hall _ _ He) as (g1 & Hg1 & _ & Hn1 & ->).
        fold (style_key ext g1) in HP. rewrite HP in Hn1. congruence.
    - intros Hocc. destruct (Nat.ltb_spec 1 (occurrences ext (style_key ext g) (concat grid)));
        [lia|].
      split; [done|]. unfold entries_for. apply no_entry.
      intros [name st] He. simpl. apply String.eqb_neq. intros HP.
      destruct (Hall _ _ He) as (g1 & Hg1 & Ho1 & Hn1 & ->).
      fold (style_key ext g1) in HP. rewrite HP in Ho1. lia. }
  clear Hnd Hall.
  assert (∀ rws rws1, (∀ g, In g (concat rws) → In g (concat grid)) →
            Forall2 (Forall2 (dedup_rel ext (styles_count G) (classnames G))) rws rws1 →
            Forall2 (Forall2 (deduplicated ext (pos + 1) V (concat grid)
                       (fold_left (sheet_step ext (styles_count G) (classnames G))
                          (concat grid) []))) rws rws1) as Hrows.
  { intros rws rws1 Hsub HF. induction HF as [|r r' rws rws1 Hr HF IH]; constructor.
    - apply Hrow; [|done]. intros g Hg. apply Hsub. simpl. apply in_app_iff. by left.
    - apply IH. intros g Hg. apply Hsub. simpl. apply in_app_iff. by right. }
  by apply Hrows.
Qed.

End Assembly.

Lemma shared_styles_witness :
  merged_cells blank_rows_sheet = Ok (∅, ∅)
  ∧ ∃ data,
      worksheet_to_data sample_ext no_theme 0 blank_rows_sheet None None = Ok data
      ∧ Forall2
          (Forall2
             (deduplicated sample_ext (0 + 1)
                (grid_visits sample_ext no_theme blank_rows_sheet None None ∅ ∅
                   (ws_rows blank_rows_sheet))
                (concat
                   (data_list
                      (build_grid sample_ext no_theme blank_rows_sheet None None (0 + 1) ∅ ∅)))
                (styles data)))
          (data_list
             (build_grid sample_ext no_theme blank_rows_sheet None None (0 + 1) ∅ ∅))
          (rows data).
Proof.
  assert (merged_cells blank_rows_sheet = Ok (∅, ∅)) as H by (vm_compute; reflexivity).
  exact (conj H
           (shared_styles_become_classes sample_ext no_theme 0 blank_rows_sheet None None
              ∅ ∅ H)).
Defined.

(** *** Rows of the grid, one by one *)

Lemma lookup_map {A B} (f : A → B) (l : list A) (i : nat) :
  List.map f l !! i = option_map f (l !! i).
Proof. revert i. induction l as [|a l IH]; intros [|i]; simpl; try done. Qed.

Lemma coords_spec_lookup (ws : Worksheet) (rws : list (list Cell)) (i : nat)
    (cells : list Cell) :
  rws !! i = Some cells →
  coords_spec ws rws !! i
  = Some (if trailing_blank (drop i rws) then [] else kept_coords ws cells).
Proof.
  revert i. induction rws as [|r rws IH]; intros [|i]; simpl; try done.
  - by intros [= ->].
  - apply IH.
Qed.

Lemma kept_coords_hidden (ws : Worksheet) (cells : list Cell) :
  row_hidden ws cells = true → kept_coords ws cells = [].
Proof.
  unfold kept_coords, row_hidden. induction cells as [|c cells IH]; [done|].
  cbn [forallb List.filter]. intros [Hc H]%andb_true_iff.
  unfold skipped at 1. rewrite Hc, orb_true_r. cbn [negb]. by apply IH.
Qed.

Lemma grid_row_coords
    (ext : External) (wb : Workbook) (pos : nat) (ws : Worksheet)
    (locale : option string) (fs : option Worksheet) (data : Data)
    (i : nat) (cells : list Cell) :
  worksheet_to_data ext wb pos ws locale fs = Ok data →
  ws_rows ws !! i = Some cells →
  ∃ r, rows data !! i = Some r
       ∧ row_coords r
         = (if trailing_blank (drop i (ws_rows ws)) then [] else kept_coords ws cells).
Proof.
  intros Hd Hi. apply worksheet_to_data_coords in Hd as [_ Hd].
  apply (f_equal (λ l, l !! i)) in Hd.
  rewrite lookup_map, (coords_spec_lookup _ _ _ _ Hi) in Hd.
  destruct (rows data !! i) as [r|]; [|done]. injection Hd as Hd. by exists r.
Qed.




(** *** Hidden rows *)

(** C6, as the code has it.  The cells of a hidden row are skipped one
    by one inside the loop over the row, after the row itself has been
    put in the grid: the row stays in the render model, without cells,
    and is printed as an empty [<tr>]. *)
Theorem hidden_row_keeps_empty_placeholder
    (ext : External) (wb : Workbook) (pos : nat) (ws : Worksheet)
    (locale : option string) (fs : option Worksheet) (data : Data)
    (i : nat) (cells : list Cell) :
  worksheet_to_data ext wb pos ws locale fs = Ok data →
  ws_rows ws !! i = Some cells →
  row_hidden ws cells = true →
  length (rows data) = length (ws_rows ws)
  ∧ ∃ r, rows data !! i = Some r
         ∧ render_row ext no_lineno data i r = lines ["<tr>"; "</tr>"].
Proof.
  intros Hd Hi Hh. split; [by apply (worksheet_to_data_coords _ _ _ _ _ _ _ Hd)|].
  destruct (grid_row_coords _ _ _ _ _ _ _ _ _ Hd Hi) as (r & Hr & Hco).
  rewrite (kept_coords_hidden _ _ Hh) in Hco.
  exists r. split; [done|].
  assert (r = []) as -> by (destruct (trailing_blank _); by destruct r).
  reflexivity.
Qed.

Lemma hidden_row_witness :
  worksheet_to_data sample_ext no_theme 0 hidden_row_sheet None None
  = Ok (data_of hidden_row_sheet)
  ∧ ws_rows hidden_row_sheet !! 1%nat = Some [plain_cell 1 2 (VStr "b") false]
  ∧ row_hidden hidden_row_sheet [plain_cell 1 2 (VStr "b") false] = true
  ∧ length (rows (data_of hidden_row_sheet)) = 3%nat
  ∧ ∃ r, rows (data_of hidden_row_sheet) !! 1%nat = Some r
         ∧ render_row sample_ext no_lineno (data_of hidden_row_sheet) 1 r
           = lines ["<tr>"; "</tr>"].
Proof.
  assert (worksheet_to_data sample_ext no_theme 0 hidden_row_sheet None None
          = Ok (data_of hidden_row_sheet)) as H1 by (vm_compute; reflexivity).
  assert (ws_rows hidden_row_sheet !! 1%nat = Some [plain_cell 1 2 (VStr "b") false]) as H2
    by reflexivity.
  assert (row_hidden hidden_row_sheet [plain_cell 1 2 (VStr "b") false] = true) as H3
    by reflexivity.
  exact (conj H1 (conj H2 (conj H3
           (hidden_row_keeps_empty_placeholder _ _ _ _ _ _ _ _ _ H1 H2 H3)))).
Defined.

(** C6 as stated fails: the hidden second row of the sample sheet is
    still a row of the render model, and the table has an empty
    [<tr>] for it between the rows of A1 and A3. *)
Lemma hidden_row_leaves_empty_tr :
  ws_row_hidden hidden_row_sheet 2 = true
  ∧ List.map row_coords (rows (data_of hidden_row_sheet)) = [[(1, 1)]; []; [(1, 3)]]
  ∧ table_of hidden_row_sheet
    = Ok (lines
            [table_open; "</colgroup>";
             "<tr>";
             td (attr "id" "A1") "border-collapse: collapse" "a";
             "</tr>";
             "<tr>"; "</tr>";
             "<tr>";
             td (attr "id" "A3")
                "border-collapse: collapse;font-size: 11px;font-weight: bold" "c";
             "</tr>";
             "</table>"]).
Proof. split; [reflexivity|]. split; vm_compute; reflexivity. Qed.

(** *** Merged ranges in the grid *)


Lemma concat_grid_spec ext wb ws locale fs mmap excl rws :
  concat (grid_spec ext wb ws locale fs mmap excl rws)
  = List.map (cell_data ext wb ws locale fs mmap) (kept_cells ws excl rws).
Proof.
  induction rws as [|cells rest IH]; [done|].
  cbn [grid_spec kept_cells concat]. rewrite IH, List.map_app. f_equal.
  by destruct (trailing_blank _).
Qed.

Lemma filter_sublist {A} (P : A → bool) (l : list A) : sublist (List.filter P l) l.
Proof.
  induction l as [|a l IH]; simpl; [constructor|].
  destruct (P a); by constructor.
Qed.

Lemma kept_cells_sublist (ws : Worksheet) (excl : gset coord) (rws : list (list Cell)) :
  sublist (kept_cells ws excl rws) (concat rws).
Proof.
  induction rws as [|cells rest IH]; [constructor|].
  cbn [kept_cells concat]. apply sublist_app; [|done].
  destruct (trailing_blank _); [apply sublist_nil_l|apply filter_sublist].
Qed.


Lemma kept_cells_not_skipped (ws : Worksheet) (excl : gset coord)
    (rws : list (list Cell)) (cell : Cell) :
  In cell (kept_cells ws excl rws) → skipped ws excl cell = false.
Proof.
  induction rws as [|r rws IH]; [done|].
  cbn [kept_cells]. rewrite in_app_iff. intros [H|H]; [|by apply IH].
  destruct (trailing_blank _); [done|].
  apply filter_In in H as [_ H]. by destruct (skipped ws excl cell).
Qed.





Lemma Forall2_concat_rows {A B} (R : A → B → Prop) (l : list (list A)) l' :
  Forall2 (Forall2 R) l l' → Forall2 R (concat l) (concat l').
Proof.
  intros HF. induction HF as [|r r' l l' Hr HF IH]; [constructor|].
  simpl. by apply Forall2_app.
Qed.






(** C1 as stated fails: a range need not leave a cell in the grid.
    With A2:B2 merged in a blank last row the row is skipped, and with
    A1:A2 merged and row 1 hidden the top-left cell is skipped as a
    cell of a hidden row: no cell of either region is emitted. *)
Lemma merged_region_without_cell :
  worksheet_to_data sample_ext no_theme 0 blank_merged_sheet None None
  = Ok (data_of blank_merged_sheet)
  ∧ In blank_merged_range (ws_merged_ranges blank_merged_sheet)
  ∧ region_cells blank_merged_range (data_of blank_merged_sheet) = []
  ∧ List.map row_coords (rows (data_of blank_merged_sheet)) = [[(1, 1); (2, 1)]; []]
  ∧ worksheet_to_data sample_ext no_theme 0 hidden_merged_sheet None None
    = Ok (data_of hidden_merged_sheet)
  ∧ In hidden_merged_range (ws_merged_ranges hidden_merged_sheet)
  ∧ region_cells hidden_merged_range (data_of hidden_merged_sheet) = [].
Proof.
  split; [vm_compute; reflexivity|]. split; [left; reflexivity|].
  split; [vm_compute; reflexivity|]. split; [vm_compute; reflexivity|].
  split; [vm_compute; reflexivity|]. split; [left; reflexivity|].
  vm_compute; reflexivity.
Qed.

(** ** Further properties of the code *)

(** *** Where the cells of the render model come from *)

Lemma Forall2_in_r {A B} (R : A → B → Prop) (l : list A) (l' : list B) (b : B) :
  Forall2 R l l' → In b l' → ∃ a, In a l ∧ R a b.
Proof.
  intros HF. induction HF as [|a b' l l' Hab HF IH]; [done|].
  intros [<-|Hb]; [exists a; split; [by left|done]|].
  destruct (IH Hb) as (a' & Ha' & HR). exists a'. split; [by right|done].
Qed.

Lemma sublist_In {A} (l k : list A) (a : A) : sublist l k → In a l → In a k.
Proof.
  intros Hs. induction Hs as [|x l k Hs IH|x l k Hs IH]; [done| |].
  - intros [->|Ha]; [by left|right; by apply IH].
  - intros Ha. right. by apply IH.
Qed.

(** Where the cells of the render model come from. *)
Lemma emitted_origin ext wb pos ws locale fs data g' :
  worksheet_to_data ext wb pos ws locale fs = Ok data →
  In g' (emitted data) →
  ∃ mmap cell,
    merged_cells ws = Ok (mmap, suppressed ws)
    ∧ In cell (kept_cells ws (suppressed ws) (ws_rows ws))
    ∧ (g' = cell_data ext wb ws locale fs mmap cell
       ∨ ∃ name, g' = with_class name (cell_data ext wb ws locale fs mmap cell)).
Proof.
  intros Hd Hg.
  apply worksheet_to_data_ok in Hd as (mmap & rws' & sd & Hm & Hd & Hrows & _).
  apply dedup_rows_spec in Hd as [Hrel _]. unfold build_grid in Hrel.
  destruct (rows_loop_spec ext wb ws locale fs (pos + 1) mmap (suppressed ws) (ws_rows ws))
    as (Hgrid & _ & _).
  rewrite Hgrid in Hrel. clear Hgrid.
  apply Forall2_concat_rows in Hrel. rewrite concat_grid_spec in Hrel.
  unfold emitted in Hg. rewrite Hrows in Hg.
  destruct (Forall2_in_r _ _ _ _ Hrel Hg) as (g & Hin & n & _ & Hgg).
  apply in_map_iff in Hin as (cell & <- & Hcell).
  exists mmap, cell. split; [done|]. split; [done|].
  destruct (1 <? n)%nat; [|by left]. destruct Hgg as (name & _ & ->). right. by exists name.
Qed.

(** The entries of [merged_cell_map] are those of the ranges. *)
Lemma merged_map_entry (ws : Worksheet) m x c info :
  merged_cells ws = Ok (m, x) → m !! c = Some info →
  ∃ rg, In rg (ws_merged_ranges ws) ∧ c = anchor rg ∧ info = range_info ws rg.
Proof.
  intros Hm Hc. destruct (merged_cells_spec _ _ _ Hm) as (_ & _ & _ & Hin & Hout).
  destruct (decide (c ∈ List.map anchor (ws_merged_ranges ws))) as [Ha|Ha];
    rewrite list_elem_of_In in Ha.
  - apply in_map_iff in Ha as (rg & <- & Hrg). exists rg. split; [done|]. split; [done|].
    rewrite (Hin _ Hrg) in Hc. by injection Hc.
  - rewrite (Hout _ Ha) in Hc. done.
Qed.

Section DictGet.
Context {V : Type}.
Implicit Types (d : list (string * V)).

Lemma dict_get_set_ne k k' v d : k' ≠ k → dict_get k (dict_set k' v d) = dict_get k d.
Proof.
  intros Hne. induction d as [|[k0 v0] d IH]; simpl.
  - destruct (String.eqb_spec k' k); [done|done].
  - destruct (String.eqb_spec k0 k') as [->|H0]; simpl.
    + destruct (String.eqb_spec k' k); [done|done].
    + destruct (String.eqb_spec k0 k); [done|apply IH].
Qed.

Lemma dict_get_set_eq k v d : dict_get k (dict_set k v d) = Some v.
Proof.
  induction d as [|[k0 v0] d IH]; simpl.
  - by rewrite String.eqb_refl.
  - destruct (String.eqb_spec k0 k) as [->|H0]; simpl.
    + by rewrite String.eqb_refl.
    + destruct (String.eqb_spec k0 k); [done|apply IH].
Qed.

Lemma dict_get_update_other k d other :
  (∀ v, ¬ In (k, v) other) → dict_get k (dict_update d other) = dict_get k d.
Proof.
  unfold dict_update. revert d. induction other as [|[k0 v0] other IH]; intros d H; [done|].
  simpl. rewrite IH.
  - apply dict_get_set_ne. intros ->. apply (H v0). by left.
  - intros v Hv. apply (H v). by right.
Qed.

Lemma dict_get_in k v d : dict_get k d = Some v → In (k, v) d.
Proof.
  induction d as [|[k0 v0] d IH]; simpl; [done|].
  destruct (String.eqb_spec k0 k) as [->|H0]; [intros [= ->]; by left|].
  intros H. right. by apply IH.
Qed.

Lemma dict_get_nodup k v d : NoDup (List.map fst d) → In (k, v) d → dict_get k d = Some v.
Proof.
  induction d as [|[k0 v0] d IH]; simpl; [done|].
  intros [Hne Hnd]%NoDup_cons [[= -> ->]|Hin].
  - by rewrite String.eqb_refl.
  - destruct (String.eqb_spec k0 k) as [->|H0]; [|by apply IH].
    exfalso. apply Hne. apply list_elem_of_In. by apply (in_map fst) in Hin.
Qed.

(** A [dict_set] never removes a key. *)
Lemma dict_set_keeps k k' v d :
  is_Some (dict_get k d) → is_Some (dict_get k (dict_set k' v d)).
Proof.
  destruct (String.eqb_spec k' k) as [->|Hne].
  - intros _. rewrite dict_get_set_eq. eauto.
  - by rewrite dict_get_set_ne.
Qed.

Lemma dict_update_keeps k d other :
  is_Some (dict_get k d) → is_Some (dict_get k (dict_update d other)).
Proof.
  unfold dict_update. revert d. induction other as [|[k0 v0] other IH]; intros d H; [done|].
  simpl. apply IH. by apply dict_set_keeps.
Qed.

Lemma dict_update_has k v d other :
  In (k, v) other → is_Some (dict_get k (dict_update d other)).
Proof.
  unfold dict_update. revert d. induction other as [|[k0 v0] other IH]; intros d; [done|].
  intros [[= -> ->]|Hin]; [|by apply IH].
  simpl. apply (dict_update_keeps k _ other). rewrite dict_get_set_eq. eauto.
Qed.

End DictGet.

Lemma range_info_attrs_id (ws : Worksheet) (rg : CellRange) (v : pyval) :
  ¬ In ("id", v) (m_attrs (range_info ws rg)).
Proof. unfold range_info, merge_info. simpl. intros [[=]|[[=]|[]]]. Qed.

(** The attributes of a grid cell before the second pass. *)
Lemma cell_data_id ext wb ws locale fs m x cell :
  merged_cells ws = Ok (m, x) →
  dict_get "id" (attrs (cell_data ext wb ws locale fs m cell))
  = Some (VStr (get_cell_id cell)).
Proof.
  intros Hm. unfold cell_data. cbn [attrs].
  destruct (m !! coordinate cell) as [info|] eqn:E; [|done].
  destruct (merged_map_entry _ _ _ _ _ Hm E) as (rg & _ & _ & ->).
  rewrite dict_get_update_other; [done|]. apply range_info_attrs_id.
Qed.


(** X2.  The cells of the render model are cells of the sheet: each one has
    the coordinates and the value of a cell of [ws.iter_rows()], and
    its [id] attribute is the coordinate of that cell. *)
Theorem emitted_cells_are_sheet_cells
    (ext : External) (wb : Workbook) (pos : nat) (ws : Worksheet)
    (locale : option string) (fs : option Worksheet) (data : Data) (g : GridCell) :
  worksheet_to_data ext wb pos ws locale fs = Ok data →
  In g (emitted data) →
  ∃ cell, In cell (concat (ws_rows ws))
          ∧ coords_of g = coordinate cell
          ∧ value g = cell_value cell
          ∧ dict_get "id" (attrs g) = Some (VStr (get_cell_id cell)).
Proof.
  intros Hd Hg. destruct (emitted_origin _ _ _ _ _ _ _ _ Hd Hg) as (m & cell & Hm & Hk & Hgg).
  exists cell. split; [eapply sublist_In; [apply kept_cells_sublist|done]|].
  pose proof (cell_data_id ext wb ws locale fs _ _ cell Hm) as Hid.
  destruct Hgg as [->|[name ->]]; [done|].
  repeat split. cbn [attrs with_class].
  rewrite dict_get_update_other; [done|]. intros v [[=]|[]].
Qed.

Lemma emitted_cells_witness :
  worksheet_to_data sample_ext no_theme 0 merged_sheet None None = Ok (data_of merged_sheet)
  ∧ In (with_class "wsid-1-cellst-2-0"
          (cell_data sample_ext no_theme merged_sheet None None
             {[ (1, 1) := range_info merged_sheet merged_range ]}
             (plain_cell 1 1 (VStr "a") false)))
       (emitted (data_of merged_sheet))
  ∧ ∃ cell, In cell (concat (ws_rows merged_sheet))
            ∧ (1, 1) = coordinate cell
            ∧ VStr "a" = cell_value cell
            ∧ Some (VStr "A1") = Some (VStr (get_cell_id cell)).
Proof.
  assert (worksheet_to_data sample_ext no_theme 0 merged_sheet None None
          = Ok (data_of merged_sheet)) as H1 by (vm_compute; reflexivity).
  assert (In (with_class "wsid-1-cellst-2-0"
                (cell_data sample_ext no_theme merged_sheet None None
                   {[ (1, 1) := range_info merged_sheet merged_range ]}
                   (plain_cell 1 1 (VStr "a") false)))
             (emitted (data_of merged_sheet))) as H2 by (left; vm_compute; reflexivity).
  exact (conj H1 (conj H2 (emitted_cells_are_sheet_cells _ _ _ _ _ _ _ _ H1 H2))).
Defined.


(** X3.  No cell of a hidden row is in the render model, and the only cells
    of a merged range that are in it are top-left cells of ranges. *)
Theorem hidden_and_merged_cells_are_never_emitted
    (ext : External) (wb : Workbook) (pos : nat) (ws : Worksheet)
    (locale : option string) (fs : option Worksheet) (data : Data) (g : GridCell) :
  worksheet_to_data ext wb pos ws locale fs = Ok data →
  In g (emitted data) →
  ws_row_hidden ws (row g) = false
  ∧ ∀ rg, In rg (ws_merged_ranges ws) → in_range rg (coords_of g) →
      ∃ rg', In rg' (ws_merged_ranges ws) ∧ coords_of g = anchor rg'.
Proof.
  intros Hd Hg. destruct (emitted_origin _ _ _ _ _ _ _ _ Hd Hg) as (m & cell & Hm & Hk & Hgg).
  apply kept_cells_not_skipped in Hk. unfold skipped in Hk.
  apply orb_false_iff in Hk as [Hx Hh]. apply bool_decide_eq_false in Hx.
  assert (coords_of g = coordinate cell ∧ row g = cell_row cell) as [Hc Hr]
    by (destruct Hgg as [->|[name ->]]; done).
  rewrite Hr, Hc. split; [done|]. intros rg Hrg Hin.
  destruct (decide (coordinate cell ∈ List.map anchor (ws_merged_ranges ws))) as [Ha|Ha];
    rewrite list_elem_of_In in Ha.
  - apply in_map_iff in Ha as (rg' & Ha & Hrg'). by exists rg'.
  - exfalso. apply Hx. unfold suppressed. apply elem_of_difference. split.
    + apply elem_of_excluded_init. by exists rg.
    + rewrite elem_of_list_to_set, list_elem_of_In. done.
Qed.

Lemma hidden_and_merged_witness :
  worksheet_to_data sample_ext no_theme 0 merged_sheet None None = Ok (data_of merged_sheet)
  ∧ In (with_class "wsid-1-cellst-2-0"
          (cell_data sample_ext no_theme merged_sheet None None
             {[ (1, 1) := range_info merged_sheet merged_range ]}
             (plain_cell 1 1 (VStr "a") false)))
       (emitted (data_of merged_sheet))
  ∧ ws_row_hidden merged_sheet 1 = false
  ∧ ∀ rg, In rg (ws_merged_ranges merged_sheet) → in_range rg (1, 1) →
      ∃ rg', In rg' (ws_merged_ranges merged_sheet) ∧ (1, 1) = anchor rg'.
Proof.
  assert (worksheet_to_data sample_ext no_theme 0 merged_sheet None None
          = Ok (data_of merged_sheet)) as H1 by (vm_compute; reflexivity).
  assert (In (with_class "wsid-1-cellst-2-0"
                (cell_data sample_ext no_theme merged_sheet None None
                   {[ (1, 1) := range_info merged_sheet merged_range ]}
                   (plain_cell 1 1 (VStr "a") false)))
             (emitted (data_of merged_sheet))) as H2 by (left; vm_compute; reflexivity).
  exact (conj H1 (conj H2 (hidden_and_merged_cells_are_never_emitted _ _ _ _ _ _ _ _ H1 H2))).
Defined.

(** *** When [worksheet_to_data] returns *)










(** *** Data validations *)

Lemma elem_of_range_rows (rg : CellRange) (r c : Z) :
  In (r, c) (concat (range_rows rg)) ↔ in_range rg (c, r).
Proof.
  unfold range_rows, in_range. rewrite in_concat. split.
  - intros (l & Hl & Hc). apply in_map_iff in Hl as (r' & <- & Hr).
    apply in_map_iff in Hc as (k & [= <- <-] & Hk).
    apply list_elem_of_In, elem_of_zrange in Hr. apply list_elem_of_In, elem_of_zrange in Hk.
    simpl. lia.
  - intros [H1 H2]. simpl in *.
    exists (List.map (λ c, (r, c)) (zrange (min_col rg) (max_col rg))). split.
    + apply in_map_iff. exists r. split; [done|].
      by apply list_elem_of_In, elem_of_zrange.
    + apply in_map_iff. exists c. split; [done|].
      by apply list_elem_of_In, elem_of_zrange.
Qed.

Lemma elem_of_cells_with_list (ws : Worksheet) (r c : Z) :
  (r, c) ∈ cells_with_list ws ↔ in_list_validation ws (c, r).
Proof.
  unfold cells_with_list, in_list_validation.
  rewrite elem_of_list_to_set, list_elem_of_In, in_concat. split.
  - intros (l & Hl & Hin). apply in_map_iff in Hl as (dv & <- & Hdv).
    unfold dv_cells in Hin. destruct (dv_type dv) as [t|] eqn:Et; [|done].
    destruct (String.eqb_spec t "list") as [->|]; [|done].
    apply in_concat in Hin as (l & Hl & Hin).
    apply in_concat in Hl as (ll & Hll & Hl).
    apply in_map_iff in Hll as (rg & <- & Hrg).
    exists dv, rg. split; [done|]. split; [done|]. split; [done|].
    apply elem_of_range_rows. apply in_concat. eauto.
  - intros (dv & rg & Hdv & Ht & Hrg & Hin).
    exists (dv_cells dv). split; [by apply in_map|].
    unfold dv_cells. rewrite Ht. simpl.
    apply elem_of_range_rows, in_concat in Hin as (l & Hl & Hin).
    apply in_concat. exists l. split; [|done].
    apply in_concat. exists (range_rows rg). split; [by apply in_map|done].
Qed.

(** X4.  A cell of the render model is flagged [is_list] exactly when its
    coordinate lies in a range of a data validation of type ['list']. *)
Theorem is_list_marks_list_validations
    (ext : External) (wb : Workbook) (pos : nat) (ws : Worksheet)
    (locale : option string) (fs : option Worksheet) (data : Data) (g : GridCell) :
  worksheet_to_data ext wb pos ws locale fs = Ok data →
  In g (emitted data) →
  is_list g = true ↔ in_list_validation ws (coords_of g).
Proof.
  intros Hd Hg. destruct (emitted_origin _ _ _ _ _ _ _ _ Hd Hg) as (m & cell & Hm & Hk & Hgg).
  assert (is_list g = bool_decide ((cell_row cell, cell_column cell) ∈ cells_with_list ws)
          ∧ coords_of g = (cell_column cell, cell_row cell)) as [-> ->]
    by (destruct Hgg as [->|[name ->]]; done).
  rewrite bool_decide_eq_true. apply elem_of_cells_with_list.
Qed.

Lemma is_list_witness :
  worksheet_to_data sample_ext no_theme 0 list_sheet None None = Ok (data_of list_sheet)
  ∧ In list_sheet_a1 (emitted (data_of list_sheet))
  ∧ (is_list list_sheet_a1 = true ↔ in_list_validation list_sheet (1, 1)).
Proof.
  assert (worksheet_to_data sample_ext no_theme 0 list_sheet None None
          = Ok (data_of list_sheet)) as H1 by (vm_compute; reflexivity).
  assert (In list_sheet_a1 (emitted (data_of list_sheet))) as H2
    by (left; vm_compute; reflexivity).
  exact (conj H1 (conj H2 (is_list_marks_list_validations _ _ _ _ _ _ _ _ H1 H2))).
Defined.

(** *** Line feeds *)

Lemma prefix_lf (c : ascii) (s : string) :
  Ascii.eqb c LF = false → String.prefix (String LF EmptyString) (String c s) = false.
Proof.
  intros H. cbn [String.prefix]. destruct (ascii_dec LF c) as [<-|]; [|done].
  by rewrite Ascii.eqb_refl in H.
Qed.

Lemma replace_lf_has_no_lf (s : string) :
  contains (String LF EmptyString) (replace_char LF "<br/>" s) = false.
Proof.
  induction s as [|c s IH]; [done|].
  cbn [replace_char]. destruct (Ascii.eqb c LF) eqn:E.
  - change ("<br/>" ++ replace_char LF "<br/>" s)
      with (String "<" (String "b" (String "r" (String "/" (String ">"
              (replace_char LF "<br/>" s)))))).
    cbn [contains]. rewrite !prefix_lf by done. by rewrite IH.
  - cbn [contains]. rewrite prefix_lf by done. by rewrite IH.
Qed.

(** X5.  The formatted text of a cell of the render model holds no line
    feed: each one has been replaced by a [<br/>] tag. *)
Theorem formatted_text_has_no_line_feed
    (ext : External) (wb : Workbook) (pos : nat) (ws : Worksheet)
    (locale : option string) (fs : option Worksheet) (data : Data) (g : GridCell)
    (s : string) :
  worksheet_to_data ext wb pos ws locale fs = Ok data →
  In g (emitted data) →
  formatted_value g = VStr s →
  contains (String LF EmptyString) s = false.
Proof.
  intros Hd Hg. destruct (emitted_origin _ _ _ _ _ _ _ _ Hd Hg) as (m & cell & Hm & Hk & Hgg).
  assert (formatted_value g
          = formatted_value (cell_data ext wb ws locale fs m cell)) as ->
    by (destruct Hgg as [->|[name ->]]; done).
  unfold cell_data. cbn [formatted_value].
  destruct (format_cell ext cell locale _); try done.
  intros [= <-]. apply replace_lf_has_no_lf.
Qed.

Lemma formatted_text_witness :
  worksheet_to_data sample_ext no_theme 0 list_sheet None None = Ok (data_of list_sheet)
  ∧ In list_sheet_a1 (emitted (data_of list_sheet))
  ∧ formatted_value list_sheet_a1 = VStr "a<br/>b"
  ∧ contains (String LF EmptyString) "a<br/>b" = false.
Proof.
  assert (worksheet_to_data sample_ext no_theme 0 list_sheet None None
          = Ok (data_of list_sheet)) as H1 by (vm_compute; reflexivity).
  assert (In list_sheet_a1 (emitted (data_of list_sheet))) as H2
    by (left; vm_compute; reflexivity).
  assert (formatted_value list_sheet_a1 = VStr "a<br/>b") as H3 by (vm_compute; reflexivity).
  exact (conj H1 (conj H2 (conj H3
           (formatted_text_has_no_line_feed _ _ _ _ _ _ _ _ _ H1 H2 H3)))).
Defined.

(** *** The keys of a StyleSet *)

Lemma edge_key_not_collapse (k : string) : edge_key k → k ≠ "border-collapse".
Proof. intros (d & rest & ->). by destruct d. Qed.

Lemma dict_update_in {V} (d other : list (string * V)) (k : string) (v : V) :
  In (k, v) (dict_update d other) → In (k, v) d ∨ In (k, v) other.
Proof.
  unfold dict_update. revert d. induction other as [|[k0 v0] other IH]; intros d; [by left|].
  simpl. intros H. apply IH in H as [H|H]; [|by right; right].
  apply dict_set_in in H as [[-> ->]|H]; [right; by left|by left].
Qed.

Lemma border_step_edge_keys ext wb cell h d :
  (∀ k v, In (k, v) h → edge_key k) →
  ∀ k v, In (k, v) (border_step ext wb cell h d) → edge_key k.
Proof.
  intros Hh. unfold border_step.
  destruct (border_side _ _) as [b_s|]; [|done].
  destruct (border_styles_get _ _) as [[|kv border_style]|]; [done| |done].
  set (bs := kv :: border_style). clearbody bs.
  assert (∀ k v, In (k, v)
            (fold_left
               (λ h kv, dict_set ("border-" ++ b_dir_name d ++ "-" ++ kv.1) (Some kv.2) h)
               bs h)
          → edge_key k) as Hfold.
  { clear -Hh. revert h Hh. induction bs as [|kv bs IH]; intros h Hh; simpl; [done|].
    apply IH. intros k v Hin. apply dict_set_in in Hin as [[-> _]|Hin]; [|by eapply Hh].
    by exists d, kv.1. }
  destruct (side_color b_s); [|done].
  intros k v Hin. apply dict_set_in in Hin as [[-> _]|Hin]; [|by eapply Hfold].
  by exists d, "color".
Qed.

Lemma border_style_edge_keys ext wb cell k v :
  In (k, v) (get_border_style_from_cell ext wb cell) → edge_key k.
Proof.
  unfold get_border_style_from_cell.
  assert (∀ ds h, (∀ k v, In (k, v) h → edge_key k) →
            ∀ k v, In (k, v) (fold_left (border_step ext wb cell) ds h) → edge_key k)
    as Hfold.
  { induction ds as [|d ds IH]; intros h Hh; simpl; [done|].
    apply IH. by apply border_step_edge_keys. }
  apply Hfold. intros ?? [].
Qed.

Lemma merged_border_edge_keys ext wb (cells : list Cell) (b : StyleSet) k v :
  (∀ k v, In (k, v) b → edge_key k) →
  In (k, v) (fold_left (λ b m_cell, dict_update b (get_border_style_from_cell ext wb m_cell))
               cells b) →
  edge_key k.
Proof.
  revert b. induction cells as [|c cells IH]; intros b Hb; simpl; [by apply Hb|].
  apply IH. intros k' v' [H|H]%dict_update_in; [by eapply Hb|by eapply border_style_edge_keys].
Qed.

Lemma fill_styles_get ext wb fill h k :
  k ≠ "background-color" → dict_get k (fill_styles ext wb fill h) = dict_get k h.
Proof.
  intros Hk. unfold fill_styles. destruct fill as [[p|] c|]; [|done|done].
  destruct (String.eqb p "solid"); by rewrite dict_get_set_ne.
Qed.

Lemma font_styles_get ext wb font h k :
  k ≠ "font-size" → k ≠ "font-family" → k ≠ "color" → k ≠ "font-weight" →
  k ≠ "font-style" → k ≠ "text-decoration" →
  dict_get k (font_styles ext wb font h) = dict_get k h.
Proof.
  intros H1 H2 H3 H4 H5 H6. unfold font_styles. destruct font as [f|]; [|done].
  destruct (truthy_str (font_u f)); rewrite ?dict_get_set_ne by done;
    destruct (font_i f); rewrite ?dict_get_set_ne by done;
    destruct (font_b f); rewrite ?dict_get_set_ne by done;
    destruct (font_color f); rewrite ?dict_get_set_ne by done;
    destruct (truthy_str (font_name f)); rewrite ?dict_get_set_ne by done; done.
Qed.

Lemma fill_styles_keeps ext wb fill h k :
  is_Some (dict_get k h) → is_Some (dict_get k (fill_styles ext wb fill h)).
Proof.
  intros H. unfold fill_styles. destruct fill as [[p|] c|]; [|done|done].
  destruct (String.eqb p "solid"); by apply dict_set_keeps.
Qed.

Lemma font_styles_keeps ext wb font h k :
  is_Some (dict_get k h) → is_Some (dict_get k (font_styles ext wb font h)).
Proof.
  intros H. unfold font_styles. destruct font as [f|]; [|done].
  destruct (truthy_str (font_u f)); [apply dict_set_keeps|];
    (destruct (font_i f); [apply dict_set_keeps|]);
    (destruct (font_b f); [apply dict_set_keeps|]);
    (destruct (font_color f); [apply dict_set_keeps|]);
    (destruct (truthy_str (font_name f)); [apply dict_set_keeps|]);
    by apply dict_set_keeps.
Qed.


Lemma get_styles_border_collapse
    (ext : External) (wb : Workbook) (cell : Cell) (info : option MergeInfo) :
  dict_get "border-collapse" (get_styles_from_cell ext wb cell info)
  = Some (Some "collapse").
Proof.
  unfold get_styles_from_cell.
  rewrite font_styles_get, fill_styles_get by done.
  destruct (truthy_str (vertical _)); rewrite ?dict_get_set_ne by done;
    destruct (truthy_str (horizontal _)); rewrite ?dict_get_set_ne by done;
    (rewrite dict_get_update_other; [done|]);
    intros v Hv; apply (edge_key_not_collapse "border-collapse"); try done;
    (destruct info as [info|];
     [eapply merged_border_edge_keys; [|exact Hv]; apply border_style_edge_keys
     |by eapply border_style_edge_keys]).
Qed.

(** X6.  Every StyleSet [get_styles_from_cell] returns declares
    [border-collapse: collapse]: no border, alignment, fill or font
    property takes its place, whatever the cell and the merged range. *)
Theorem border_collapse_is_always_declared
    (ext : External) (wb : Workbook) (cell : Cell) (info : option MergeInfo) :
  dict_get "border-collapse" (get_styles_from_cell ext wb cell info)
  = Some (Some "collapse").
Proof. apply get_styles_border_collapse. Qed.

(** *** Borders of a merged range *)

Lemma merged_border_has ext wb (cells : list Cell) (b : StyleSet) m_cell k v :
  In m_cell cells → In (k, v) (get_border_style_from_cell ext wb m_cell) →
  is_Some (dict_get k
             (fold_left
                (λ b m_cell, dict_update b (get_border_style_from_cell ext wb m_cell))
                cells b)).
Proof.
  assert (∀ cells b, is_Some (dict_get k b) →
            is_Some (dict_get k
              (fold_left
                 (λ b m_cell, dict_update b (get_border_style_from_cell ext wb m_cell))
                 cells b))) as Hkeep.
  { clear. induction cells as [|c cells IH]; intros b Hb; simpl; [done|].
    by apply IH, dict_update_keeps. }
  revert b. induction cells as [|c cells IH]; intros b; [done|].
  intros [->|Hin] Hk; simpl; [|by apply IH].
  apply Hkeep. by eapply dict_update_has.
Qed.

(** X7.  The StyleSet of the top-left cell of a merged range has every
    border property of every cell of the range. *)
Theorem merged_cell_takes_member_borders
    (ext : External) (wb : Workbook) (cell : Cell) (info : MergeInfo)
    (m_cell : Cell) (k : string) (v : option string) :
  In m_cell (m_cells info) →
  In (k, v) (get_border_style_from_cell ext wb m_cell) →
  is_Some (dict_get k (get_styles_from_cell ext wb cell (Some info))).
Proof.
  intros Hm Hk. unfold get_styles_from_cell.
  apply font_styles_keeps, fill_styles_keeps.
  assert (is_Some (dict_get k
            (dict_update [("border-collapse", Some "collapse")]
               (fold_left
                  (λ b m_cell, dict_update b (get_border_style_from_cell ext wb m_cell))
                  (m_cells info) (get_border_style_from_cell ext wb cell))))) as H.
  { destruct (merged_border_has ext wb (m_cells info)
                (get_border_style_from_cell ext wb cell) m_cell k v Hm Hk) as [v' Hv'].
    apply dict_get_in in Hv'. by eapply dict_update_has. }
  destruct (truthy_str (vertical _)); [apply dict_set_keeps|];
    (destruct (truthy_str (horizontal _)); [apply dict_set_keeps|]); done.
Qed.

Lemma merged_cell_borders_witness :
  In thin_right_cell [plain_cell 1 1 (VStr "a") false; thin_right_cell]
  ∧ In ("border-right-style", Some "solid")
       (get_border_style_from_cell sample_ext no_theme thin_right_cell)
  ∧ is_Some (dict_get "border-right-style"
               (get_styles_from_cell sample_ext no_theme (plain_cell 1 1 (VStr "a") false)
                  (Some {| m_attrs := [];
                           m_cells := [plain_cell 1 1 (VStr "a") false; thin_right_cell] |}))).
Proof.
  assert (In thin_right_cell [plain_cell 1 1 (VStr "a") false; thin_right_cell]) as H1
    by (right; left; reflexivity).
  assert (In ("border-right-style", Some "solid")
            (get_border_style_from_cell sample_ext no_theme thin_right_cell)) as H2
    by (left; vm_compute; reflexivity).
  exact (conj H1 (conj H2
           (merged_cell_takes_member_borders sample_ext no_theme
              (plain_cell 1 1 (VStr "a") false)
              {| m_attrs := []; m_cells := [plain_cell 1 1 (VStr "a") false; thin_right_cell] |}
              thin_right_cell "border-right-style" (Some "solid") H1 H2))).
Defined.

(** *** Dictionaries with unique keys *)

Section DictUnique.
Context {V : Type}.
Implicit Types (d : list (string * V)).

Lemma dict_set_fresh k v d :
  ¬ In k (List.map fst d) → dict_set k v d = app d [(k, v)].
Proof.
  induction d as [|[k0 v0] d IH]; simpl; [done|]. intros H.
  destruct (String.eqb_spec k0 k) as [->|Hne]; [destruct H; by left|].
  rewrite IH; [done|]. intros Hin. apply H. by right.
Qed.

Lemma dict_update_fresh d other :
  NoDup (List.map fst (app d other)) → dict_update d other = app d other.
Proof.
  unfold dict_update. revert d. induction other as [|[k v] other IH]; intros d Hnd; simpl.
  - by rewrite app_nil_r.
  - assert (¬ In k (List.map fst d)) as Hk.
    { rewrite List.map_app in Hnd. apply NoDup_app in Hnd as (_ & Hdis & _).
      intros Hin%list_elem_of_In. apply (Hdis _ Hin). simpl. left. }
    rewrite (dict_set_fresh _ _ _ Hk), IH; rewrite <- app_assoc; done.
Qed.

Lemma dict_update_nodup d other :
  NoDup (List.map fst d) → NoDup (List.map fst (dict_update d other)).
Proof.
  unfold dict_update. revert d. induction other as [|[k v] other IH]; intros d Hnd; [done|].
  simpl. by apply IH, dict_set_nodup.
Qed.

End DictUnique.

Lemma fill_styles_nodup ext wb fill h :
  NoDup (List.map fst h) → NoDup (List.map fst (fill_styles ext wb fill h)).
Proof.
  intros H. unfold fill_styles. destruct fill as [[p|] c|]; [|done|done].
  destruct (String.eqb p "solid"); by apply dict_set_nodup.
Qed.

Lemma font_styles_nodup ext wb font h :
  NoDup (List.map fst h) → NoDup (List.map fst (font_styles ext wb font h)).
Proof.
  intros H. unfold font_styles. destruct font as [f|]; [|done].
  destruct (truthy_str (font_u f)); [apply dict_set_nodup|];
    (destruct (font_i f); [apply dict_set_nodup|]);
    (destruct (font_b f); [apply dict_set_nodup|]);
    (destruct (font_color f); [apply dict_set_nodup|]);
    (destruct (truthy_str (font_name f)); [apply dict_set_nodup|]);
    by apply dict_set_nodup.
Qed.

Lemma get_styles_nodup ext wb cell info :
  NoDup (List.map fst (get_styles_from_cell ext wb cell info)).
Proof.
  unfold get_styles_from_cell. apply font_styles_nodup, fill_styles_nodup.
  assert (NoDup (List.map fst [("border-collapse", Some "collapse") : string * option string]))
    as H0 by (apply NoDup_singleton).
  destruct (truthy_str (vertical _)); [apply dict_set_nodup|];
    (destruct (truthy_str (horizontal _)); [apply dict_set_nodup|]);
    by apply dict_update_nodup.
Qed.

(** The inline StyleSet of a grid cell is what [get_styles_from_cell]
    returns. *)
Lemma cell_data_style ext wb ws locale fs m cell :
  style (cell_data ext wb ws locale fs m cell)
  = get_styles_from_cell ext wb cell (m !! coordinate cell).
Proof.
  unfold cell_data. cbn [style]. apply (dict_update_fresh []). apply get_styles_nodup.
Qed.

Lemma cell_data_no_class ext wb ws locale fs m x cell :
  merged_cells ws = Ok (m, x) →
  dict_get "class" (attrs (cell_data ext wb ws locale fs m cell)) = None.
Proof.
  intros Hm. unfold cell_data. cbn [attrs].
  destruct (m !! coordinate cell) as [info|] eqn:E; [|done].
  destruct (merged_map_entry _ _ _ _ _ Hm E) as (rg & _ & _ & ->).
  rewrite dict_get_update_other; [done|].
  unfold range_info, merge_info. simpl. intros v [[=]|[[=]|[]]].
Qed.

Lemma with_class_attr name g :
  dict_get "class" (attrs (with_class name g)) = Some (VStr name).
Proof. unfold with_class. cbn [attrs]. apply (dict_get_set_eq "class"). Qed.


(** X8.  A cell of the render model either has no [class] attribute and an
    inline StyleSet that declares [border-collapse: collapse], or has
    a [class] attribute and an empty inline StyleSet. *)
Theorem emitted_cell_is_inline_or_classed
    (ext : External) (wb : Workbook) (pos : nat) (ws : Worksheet)
    (locale : option string) (fs : option Worksheet) (data : Data) (g : GridCell) :
  worksheet_to_data ext wb pos ws locale fs = Ok data →
  In g (emitted data) →
  (dict_get "class" (attrs g) = None
   ∧ dict_get "border-collapse" (style g) = Some (Some "collapse"))
  ∨ (∃ name, dict_get "class" (attrs g) = Some (VStr name) ∧ style g = []).
Proof.
  intros Hd Hg. destruct (emitted_origin _ _ _ _ _ _ _ _ Hd Hg) as (m & cell & Hm & Hk & Hgg).
  destruct Hgg as [->|[name ->]].
  - left. split; [by eapply cell_data_no_class|].
    rewrite cell_data_style. apply get_styles_border_collapse.
  - right. exists name. split; [apply with_class_attr|done].
Qed.

Lemma inline_or_classed_witness :
  worksheet_to_data sample_ext no_theme 0 blank_rows_sheet None None
  = Ok (data_of blank_rows_sheet)
  ∧ In blank_rows_a4 (emitted (data_of blank_rows_sheet))
  ∧ ((dict_get "class" (attrs blank_rows_a4) = None
      ∧ dict_get "border-collapse" (style blank_rows_a4) = Some (Some "collapse"))
     ∨ (∃ name, dict_get "class" (attrs blank_rows_a4) = Some (VStr name)
                ∧ style blank_rows_a4 = [])).
Proof.
  assert (worksheet_to_data sample_ext no_theme 0 blank_rows_sheet None None
          = Ok (data_of blank_rows_sheet)) as H1 by (vm_compute; reflexivity).
  assert (In blank_rows_a4 (emitted (data_of blank_rows_sheet))) as H2
    by (do 3 right; left; vm_compute; reflexivity).
  exact (conj H1 (conj H2 (emitted_cell_is_inline_or_classed _ _ _ _ _ _ _ _ H1 H2))).
Defined.

Section Lossless.
Context (ext : External) (wb : Workbook) (pos : nat) (ws : Worksheet)
        (locale : option string) (fs : option Worksheet)
        (mmap : gmap coord MergeInfo) (excl : gset coord).

Local Abbreviation G := (build_grid ext wb ws locale fs (pos + 1) mmap excl).
Local Abbreviation grid := (grid_spec ext wb ws locale fs mmap excl (ws_rows ws)).

Lemma grid_cells_have_no_class g :
  merged_cells ws = Ok (mmap, excl) → In g (concat grid) →
  dict_get "class" (attrs g) = None.
Proof.
  intros Hm Hg. rewrite concat_grid_spec in Hg.
  apply in_map_iff in Hg as (cell & <- & _). by eapply cell_data_no_class.
Qed.

(** X9.  Deduplication loses no style: when cells with the same
    serialisation key have the same StyleSet, every cell of the
    result is displayed with the StyleSet it had in the grid, through
    the stylesheet entry of its class or inline. *)
Theorem deduplication_keeps_every_style :
  merged_cells ws = Ok (mmap, excl) →
  keys_determine_styles ext (concat (data_list G)) →
  ∃ data,
    worksheet_to_data ext wb pos ws locale fs = Ok data
    ∧ Forall2 (Forall2 (λ g g', resolved_style data g' = style g))
        (data_list G) (rows data).
Proof.
  intros Hm Hinj.
  destruct (dedup_rows_total ext (styles_count G) (classnames G) [] (data_list G))
    as [[rws' sd] Hd].
  { intros g Hg. rewrite (proj1 (grid_tables ext wb pos ws locale fs mmap excl)) in Hg.
    split; [rewrite grid_counts by done; eauto|by apply grid_names]. }
  exists {| title := ws_title ws; rows := rws'; cols := ws_cols ws;
            images := ws_images ws; styles := sd |}.
  split. { unfold worksheet_to_data. rewrite Hm. simpl. rewrite Hd. done. }
  cbn [rows]. apply dedup_rows_spec in Hd as [Hrel ->].
  rewrite (proj1 (grid_tables ext wb pos ws locale fs mmap excl)) in *.
  set (sheet := fold_left (sheet_step ext (styles_count G) (classnames G)) (concat grid) []).
  assert (sheet_inv ext (classnames G) (concat grid) sheet) as [Hnd Hall].
  { apply sheet_fold_inv; try done.
    - apply grid_counts. - apply grid_names.
    - split; [constructor|]. by intros ?? []. }
  assert (∀ g g', In g (concat grid) →
            dedup_rel ext (styles_count G) (classnames G) g g' →
            resolved_style
              {| title := ws_title ws; rows := rws'; cols := ws_cols ws;
                 images := ws_images ws; styles := sheet |} g' = style g) as Hcell.
  { intros g g' Hin (n & Hn & Hg). rewrite grid_counts in Hn by done. injection Hn as <-.
    unfold resolved_style, class_style. cbn [styles].
    destruct (Nat.ltb_spec 1 (occurrences ext (style_key ext g) (concat grid))) as [Hlt|Hle].
    - destruct Hg as (name & Hname & ->). rewrite with_class_attr. cbn [style with_class].
      rewrite app_nil_r.
      assert (In name (List.map fst sheet)) as Hhas.
      { eapply sheet_fold_has; try done. apply grid_counts. }
      apply in_map_iff in Hhas as ([name' st] & Hfst & Hst). simpl in Hfst. subst name'.
      rewrite (dict_get_nodup _ _ _ Hnd Hst).
      destruct (Hall _ _ Hst) as (g1 & Hg1 & _ & Hn1 & ->).
      apply Hinj; try done.
      by eapply (grid_names_inj ext wb pos ws locale fs mmap excl).
    - subst g'. by rewrite (grid_cells_have_no_class g Hm Hin). }
  clearbody sheet.
  assert (∀ r r', (∀ g, In g r → In g (concat grid)) →
            Forall2 (dedup_rel ext (styles_count G) (classnames G)) r r' →
            Forall2 (λ g g', resolved_style
                      {| title := ws_title ws; rows := rws'; cols := ws_cols ws;
                         images := ws_images ws; styles := sheet |} g' = style g) r r')
    as Hrow.
  { intros r r' Hr HF. induction HF as [|g g' r r' Hg HF IH]; constructor.
    - apply Hcell; [apply Hr; by left|done].
    - apply IH. intros g0 Hg0. apply Hr. by right. }
  assert (∀ rws rws1, (∀ g, In g (concat rws) → In g (concat grid)) →
            Forall2 (Forall2 (dedup_rel ext (styles_count G) (classnames G))) rws rws1 →
            Forall2 (Forall2 (λ g g', resolved_style
                      {| title := ws_title ws; rows := rws'; cols := ws_cols ws;
                         images := ws_images ws; styles := sheet |} g' = style g))
              rws rws1) as Hrows.
  { intros rws rws1 Hsub HF. induction HF as [|r r' rws rws1 Hr HF IH]; constructor.
    - apply Hrow; [|done]. intros g Hg. apply Hsub. simpl. apply in_app_iff. by left.
    - apply IH. intros g Hg. apply Hsub. simpl. apply in_app_iff. by right. }
  by apply Hrows.
Qed.

End Lossless.

Lemma deduplication_witness :
  merged_cells blank_rows_sheet = Ok (∅, ∅)
  ∧ keys_determine_styles sample_ext
      (concat (data_list (build_grid sample_ext no_theme blank_rows_sheet None None (0 + 1) ∅ ∅)))
  ∧ ∃ data,
      worksheet_to_data sample_ext no_theme 0 blank_rows_sheet None None = Ok data
      ∧ Forall2 (Forall2 (λ g g', resolved_style data g' = style g))
          (data_list (build_grid sample_ext no_theme blank_rows_sheet None None (0 + 1) ∅ ∅))
          (rows data).
Proof.
  assert (merged_cells blank_rows_sheet = Ok (∅, ∅)) as H1 by (vm_compute; reflexivity).
  assert (keys_determine_styles sample_ext
            (concat (data_list
               (build_grid sample_ext no_theme blank_rows_sheet None None (0 + 1) ∅ ∅))))
    as H2.
  { intros g1 g2 Hg1 Hg2.
    vm_compute in Hg1. vm_compute in Hg2.
    repeat (destruct Hg1 as [<-|Hg1]); try done;
      repeat (destruct Hg2 as [<-|Hg2]); try done; vm_compute; congruence. }
  exact (conj H1 (conj H2
           (deduplication_keeps_every_style sample_ext no_theme 0 blank_rows_sheet None None
              ∅ ∅ H1 H2))).
Defined.

(** *** [rgb_to_hex] *)

Lemma channel_round_trip (k : Z) :
  0 ≤ k ≤ 255 → round_int (unit_channel k * float_of_Z RGBMAX) = Ok k.
Proof.
  intros H.
  assert (forallb (λ k, match round_int (unit_channel k * float_of_Z RGBMAX) with
                        | Ok k' => k' =? k
                        | _ => false
                        end)
            (zrange 0 (Z.of_nat 256 - 1)) = true) as Hall by (vm_compute; reflexivity).
  assert (Hk := forallb_below _ _ Hall k ltac:(lia)). simpl in Hk.
  destruct (round_int _); [|discriminate]. apply Z.eqb_eq in Hk. by subst.
Qed.

(** X10.  [rgb_to_hex] prints the channels [r/255], [g/255], [b/255] as the
    six upper-case hexadecimal digits of [r], [g] and [b]: dividing a
    byte by [RGBMAX] and multiplying back loses nothing. *)
Theorem rgb_to_hex_of_bytes (r g b : Z) :
  0 ≤ r ≤ 255 → 0 ≤ g ≤ 255 → 0 ≤ b ≤ 255 →
  rgb_to_hex (unit_channel r, unit_channel g, unit_channel b) = Ok (hex6 r g b).
Proof.
  intros Hr Hg Hb. unfold rgb_to_hex.
  rewrite !channel_round_trip by done. reflexivity.
Qed.

Lemma rgb_to_hex_of_bytes_witness :
  0 ≤ 255 ≤ 255 ∧ 0 ≤ 3 ≤ 255 ∧ 0 ≤ 0 ≤ 255
  ∧ rgb_to_hex (unit_channel 255, unit_channel 3, unit_channel 0) = Ok "FF0300".
Proof.
  assert (0 ≤ 255 ≤ 255) as H1 by lia.
  assert (0 ≤ 3 ≤ 255) as H2 by lia.
  assert (0 ≤ 0 ≤ 255) as H3 by lia.
  exact (conj H1 (conj H2 (conj H3 (rgb_to_hex_of_bytes 255 3 0 H1 H2 H3)))).
Defined.

(** *** [rgb_to_ms_hls] on strings *)

Lemma drop_str_app (p s : string) : drop_str (String.length p) (p ++ s) = s.
Proof. induction p as [|c p IH]; [by destruct s|]. simpl. apply IH. Qed.

Lemma length_append (p s : string) :
  String.length (p ++ s) = (String.length p + String.length s)%nat.
Proof. induction p as [|c p IH]; simpl; [done|]. by rewrite IH. Qed.

Lemma remove_char_app (c : ascii) (p s : string) :
  remove_char c (p ++ s) = remove_char c p ++ remove_char c s.
Proof.
  induction p as [|a p IH]; simpl; [done|].
  destruct (Ascii.eqb a c); simpl; by rewrite IH.
Qed.

Lemma all_chars_app (f : ascii → bool) (p s : string) :
  all_chars f (p ++ s) = all_chars f p && all_chars f s.
Proof. induction p as [|a p IH]; simpl; [done|]. by rewrite IH, andb_assoc. Qed.

Lemma hex_channels_suffix (p s : string) :
  String.length s = 6%nat → hex_channels (p ++ s) = hex_channels s.
Proof.
  intros Hs. unfold hex_channels. rewrite length_append, Hs.
  replace (6 <? 6)%nat with false by done.
  destruct (Nat.ltb_spec 6 (String.length p + 6)) as [Hlt|Hle].
  - replace (String.length p + 6 - 6)%nat with (String.length p) by lia.
    by rewrite drop_str_app.
  - assert (String.length p = 0%nat) as Hp by lia. by destruct p.
Qed.

(** X11.  [rgb_to_ms_hls] reads the last six characters of a longer hex
    string: a leading alpha byte or [#] does not change the result. *)
Theorem rgb_to_ms_hls_ignores_prefix (p s : string) :
  String.length s = 6%nat →
  all_chars is_hex (remove_char "#" (p ++ s)) = true →
  rgb_to_ms_hls (Hex (p ++ s)) = rgb_to_ms_hls (Hex s).
Proof.
  intros Hs Hall. unfold rgb_to_ms_hls. rewrite Hall.
  rewrite remove_char_app, all_chars_app in Hall. apply andb_true_iff in Hall as [_ ->].
  by rewrite hex_channels_suffix.
Qed.

Lemma rgb_to_ms_hls_prefix_witness :
  String.length "FF0300" = 6%nat
  ∧ all_chars is_hex (remove_char "#" ("80" ++ "FF0300")) = true
  ∧ rgb_to_ms_hls (Hex ("80" ++ "FF0300")) = rgb_to_ms_hls (Hex "FF0300").
Proof.
  assert (String.length "FF0300" = 6%nat) as H1 by reflexivity.
  assert (all_chars is_hex (remove_char "#" ("80" ++ "FF0300")) = true) as H2 by reflexivity.
  exact (conj H1 (conj H2 (rgb_to_ms_hls_ignores_prefix "80" "FF0300" H1 H2))).
Defined.

Lemma drop_str_short (n : nat) (s : string) :
  (String.length s ≤ n)%nat → drop_str n s = "".
Proof.
  revert s. induction n as [|n IH]; intros [|c s]; simpl; try done; [lia|].
  intros H. apply IH. lia.
Qed.

(** X12.  A colour string of four characters or fewer has no blue channel
    to read: [rgb_to_ms_hls] returns white for it instead of raising. *)
Theorem rgb_to_ms_hls_short_string_is_white (s : string) :
  (String.length s ≤ 4)%nat → rgb_to_ms_hls (Hex s) = white_hls.
Proof.
  intros H. unfold rgb_to_ms_hls.
  destruct (negb (all_chars is_hex (remove_char "#" s))); [done|].
  unfold hex_channels.
  destruct (Nat.ltb_spec 6 (String.length s)) as [Hlt|_]; [lia|].
  by rewrite (drop_str_short 4 s H).
Qed.

Lemma rgb_to_ms_hls_short_witness :
  (String.length "FFF" ≤ 4)%nat ∧ rgb_to_ms_hls (Hex "FFF") = white_hls.
Proof.
  assert (String.length "FFF" ≤ 4)%nat as H by (simpl; lia).
  exact (conj H (rgb_to_ms_hls_short_string_is_white "FFF" H)).
Defined.

(** *** [get_theme_colors] *)

Lemma length_concat_map {A B} (f : A → list B) (l : list A) :
  length (List.concat (List.map f l)) = sum_list (List.map (λ a, length (f a)) l).
Proof.
  induction l as [|a l IH]; simpl; [done|]. by rewrite List.length_app, IH.
Qed.

(** X13.  With a colour scheme, [get_theme_colors] returns one entry for
    each absent slot and one per child element of each present slot,
    in the order lt1, dk1, lt2, dk2, accent1..accent6: a slot with no
    child or with several children shifts the entries after it. *)
Theorem theme_palette_length (wb : Workbook) (scheme : Element) :
  has_scheme wb scheme →
  get_theme_colors wb
  = Ok (List.concat (List.map (slot_colors scheme) theme_slots))
  ∧ length (List.concat (List.map (slot_colors scheme) theme_slots))
    = sum_list (List.map (slot_size scheme) theme_slots).
Proof.
  intros (root & themeEl & rest & Hroot & Hel & Hscheme). split.
  - unfold get_theme_colors. rewrite Hroot. cbn [bind]. by rewrite Hel, Hscheme.
  - rewrite length_concat_map. f_equal. apply map_ext. intros c.
    unfold slot_colors, slot_size.
    destruct (find (qname c) scheme); [apply length_map|done].
Qed.

Lemma theme_palette_witness :
  has_scheme sample_theme sample_scheme
  ∧ get_theme_colors sample_theme
    = Ok ["FFFFFE"; "111111"; "222222"; "FFFFFF"; "FFFFFF"; "FFFFFF"; "FFFFFF";
          "FFFFFF"; "FFFFFF"; "FFFFFF"; "FFFFFF"]
  ∧ 11%nat = sum_list (List.map (slot_size sample_scheme) theme_slots).
Proof.
  assert (has_scheme sample_theme sample_scheme) as H.
  { exists (Elem (qname "theme") [] [Elem (qname "themeElements") [] [sample_scheme]]),
      (Elem (qname "themeElements") [] [sample_scheme]), [].
    split; [reflexivity|]. split; vm_compute; reflexivity. }
  exact (conj H (theme_palette_length sample_theme sample_scheme H)).
Defined.

(** *** [tint_luminance] *)

(** X14.  On the luminance range [0..HLSMAX], a tint of 1 gives [HLSMAX]
    (white), a tint of -1 gives 0 (black) and a tint of 0 leaves the
    luminance as it is. *)
Theorem tint_luminance_extremes (lum : Z) :
  0 ≤ lum ≤ HLSMAX →
  tint_luminance 1 lum = Ok HLSMAX
  ∧ tint_luminance (-1) lum = Ok 0
  ∧ tint_luminance 0 lum = Ok lum.
Proof.
  intros H. unfold HLSMAX in *.
  assert (forallb (λ l, match tint_luminance 1 l, tint_luminance (-1) l, tint_luminance 0 l with
                        | Ok a, Ok b, Ok c => (a =? 240) && (b =? 0) && (c =? l)
                        | _, _, _ => false
                        end)
            (zrange 0 (Z.of_nat 241 - 1)) = true) as Hall by (vm_compute; reflexivity).
  assert (Hl := forallb_below _ _ Hall lum ltac:(lia)). clear Hall. simpl in Hl.
  destruct (tint_luminance 1 lum); [|discriminate].
  destruct (tint_luminance (-1) lum); [|discriminate].
  destruct (tint_luminance 0 lum); [|discriminate].
  apply andb_true_iff in Hl as [[Ha Hb]%andb_true_iff Hc].
  apply Z.eqb_eq in Ha, Hb, Hc. by subst.
Qed.

Lemma tint_luminance_witness :
  0 ≤ 120 ≤ HLSMAX
  ∧ tint_luminance 1 120 = Ok 240
  ∧ tint_luminance (-1) 120 = Ok 0
  ∧ tint_luminance 0 120 = Ok 120.
Proof.
  assert (0 ≤ 120 ≤ HLSMAX) as H by (unfold HLSMAX; lia).
  exact (conj H (tint_luminance_extremes 120 H)).
Defined.

(** *** Hidden columns *)

Lemma letter_index_never_matches (n : Z) (cols : list ColumnSpec) :
  Forall letter_index cols →
  existsb (pyval_eqb (VInt n)) (hidden_columns cols) = false.
Proof.
  unfold hidden_columns. induction 1 as [|col cols [s Hs] _ IH]; [done|].
  cbn [List.filter]. destruct (col_hidden col); [|done].
  cbn [List.map existsb]. by rewrite Hs, IH.
Qed.

(** X15.  A column entry whose index is a string hides no cell, hidden or
    not: [render_table] looks the integer column of each cell up in
    the set of the hidden entries' indexes, where a string never
    equals it.  Every cell of the row is printed. *)
Theorem letter_indexed_columns_hide_nothing
    (ext : External) (append_lineno : list string → nat → list string)
    (data : Data) (i : nat) (cells : list GridCell) :
  Forall letter_index (cols data) →
  render_row ext append_lineno data i cells
  = lines (app (append_lineno ["<tr>"] i)
             (app (List.map (render_cell ext data) cells) ["</tr>"])).
Proof.
  intros H. unfold render_row, lines.
  assert (List.filter
            (λ cell, negb (existsb (pyval_eqb (VInt (column cell)))
                             (hidden_columns (cols data)))) cells = cells) as ->.
  { induction cells as [|cell cells IH]; [done|].
    cbn [List.filter]. rewrite (letter_index_never_matches _ _ H). cbn [negb].
    by rewrite IH. }
  by rewrite <- app_assoc.
Qed.

Lemma letter_indexed_columns_witness :
  Forall letter_index (cols hidden_letter_data)
  ∧ render_row sample_ext no_lineno hidden_letter_data 0 [blank_rows_a4]
    = lines ["<tr>";
             td (attr "id" "A4")
                "border-collapse: collapse;font-size: 11px;font-weight: bold" "y";
             "</tr>"].
Proof.
  assert (Forall letter_index (cols hidden_letter_data)) as H.
  { repeat constructor. by exists "A". }
  exact (conj H (letter_indexed_columns_hide_nothing sample_ext no_lineno
                   hidden_letter_data 0 [blank_rows_a4] H)).
Defined.

(** ** Images and the column list *)

Import Layout LayoutSpec.

(** *** Images *)

Section ImageGroups.
Context {V : Type}.
Implicit Types (d : list (string * list V)).

Lemma dict_get_append_eq k (v : V) d :
  dict_get k (dict_append k v d)
  = Some (app (match dict_get k d with Some l => l | None => [] end) [v]).
Proof.
  induction d as [|[k0 l0] d IH]; simpl.
  - by rewrite String.eqb_refl.
  - destruct (String.eqb_spec k0 k) as [->|Hne]; simpl.
    + by rewrite String.eqb_refl.
    + destruct (String.eqb_spec k0 k); [done|apply IH].
Qed.

Lemma dict_get_append_ne k k' (v : V) d :
  k' ≠ k → dict_get k (dict_append k' v d) = dict_get k d.
Proof.
  intros Hne. induction d as [|[k0 l0] d IH]; simpl.
  - destruct (String.eqb_spec k' k); done.
  - destruct (String.eqb_spec k0 k') as [->|H0]; simpl.
    + destruct (String.eqb_spec k' k); done.
    + destruct (String.eqb_spec k0 k); [done|apply IH].
Qed.

End ImageGroups.

Lemma colon_split (a b a' b' : string) :
  colonless a → colonless a' → a ++ ":" ++ b = a' ++ ":" ++ b' → a = a' ∧ b = b'.
Proof.
  revert a'. induction a as [|c a IH]; intros [|c' a'] Ha Ha'; simpl.
  - by intros [= ->].
  - intros [= <- _]. by destruct Ha' as [[] _].
  - intros [= -> _]. by destruct Ha as [[] _].
  - intros [= -> H]. destruct Ha as [_ Ha], Ha' as [_ Ha'].
    destruct (IH a' Ha Ha' H) as [-> ->]. done.
Qed.

Lemma colonless_uint (d : Decimal.uint) : colonless (NilEmpty.string_of_uint d).
Proof. induction d; simpl; try done. Qed.

Lemma colonless_nzuint (d : Decimal.uint) : colonless (NilZero.string_of_uint d).
Proof. destruct d; try apply colonless_uint. simpl. done. Qed.

Lemma colonless_str_of_int (n : Z) : colonless (str_of_int n).
Proof.
  unfold str_of_int, NilZero.string_of_int.
  destruct (Z.to_int n); [apply colonless_nzuint|].
  simpl. split; [done|apply colonless_nzuint].
Qed.

Lemma str_of_int_inj (n m : Z) : str_of_int n = str_of_int m → n = m.
Proof.
  unfold str_of_int. intros H.
  assert (∀ k : Z, Z.to_int k ≠ Decimal.Pos Decimal.Nil
                   ∧ Z.to_int k ≠ Decimal.Neg Decimal.Nil) as Hk.
  { intros k. split; intros E.
    - destruct k; [done| |done]. simpl in E. injection E as E.
      by apply DecimalPos.Unsigned.to_uint_nonnil in E.
    - destruct k; [done|done|]. simpl in E. injection E as E.
      by apply DecimalPos.Unsigned.to_uint_nonnil in E. }
  assert (Some (Z.to_int n) = Some (Z.to_int m)) as [= E].
  { rewrite <- (NilZero.isi (Z.to_int n)) by apply Hk.
    rewrite <- (NilZero.isi (Z.to_int m)) by apply Hk.
    by rewrite H. }
  by apply DecimalZ.to_int_inj in E.
Qed.

Section ImageLemmas.
Context (ext : External) (EMU_to_pixels : Z → pyval) (bytes_to_datauri : Image → string).

Local Abbreviation to_data := (image_to_data ext EMU_to_pixels bytes_to_datauri).
Local Abbreviation to_dict := (images_to_data ext EMU_to_pixels bytes_to_datauri).

Lemma image_key_eqb (image : Image) (c r : Z) :
  String.eqb (image_key (to_data image)) (str_of_int c ++ ":" ++ str_of_int r)
  = anchored_at c r image.
Proof.
  unfold image_key, anchored_at, image_to_data. cbn [fst snd].
  destruct (String.eqb_spec (str_of_int (from_col image + 1) ++ ":"
                               ++ str_of_int (from_row image + 1))
              (str_of_int c ++ ":" ++ str_of_int r)) as [E|E].
  - apply colon_split in E as [E1 E2]; try apply colonless_str_of_int.
    apply str_of_int_inj in E1, E2. rewrite E1, E2, !Z.eqb_refl. done.
  - symmetry. apply andb_false_iff.
    destruct (Z.eqb_spec (from_col image + 1) c) as [<-|]; [|by left].
    destruct (Z.eqb_spec (from_row image + 1) r) as [<-|]; [|by right]. done.
Qed.

Lemma images_fold_get (images : list Image) (d : list (string * list ImageData))
    (c r : Z) :
  match dict_get (str_of_int c ++ ":" ++ str_of_int r)
          (fold_left
             (λ images_data _i,
                dict_append (image_key (to_data _i)) (to_data _i).2 images_data)
             images d) with
  | Some l => l
  | None => []
  end
  = app (match dict_get (str_of_int c ++ ":" ++ str_of_int r) d with
         | Some l => l
         | None => []
         end)
        (List.map (λ i, (to_data i).2) (List.filter (anchored_at c r) images)).
Proof.
  revert d. induction images as [|i images IH]; intros d; cbn [fold_left List.filter List.map].
  - by rewrite app_nil_r.
  - rewrite IH. rewrite <- (image_key_eqb i c r).
    destruct (String.eqb_spec (image_key (to_data i))
                (str_of_int c ++ ":" ++ str_of_int r)) as [E|E].
    + rewrite <- E, dict_get_append_eq. cbn [List.map]. by rewrite <- app_assoc.
    + by rewrite dict_get_append_ne.
Qed.

(** X16.  [images_to_data] files every image under the key
    ["<col>:<row>"] of its anchor, counted from 1, and keeps the
    images of a key in the order of [ws._images]; so the images
    [render_table] prints in a cell are those anchored in the row of
    the cell and in one of the columns its [colspan] covers, column by
    column. *)
Theorem images_are_printed_in_their_anchor_cell
    (images : list Image) (data : Data) (cell : GridCell) :
  Core.images data = to_dict images →
  cell_images data cell
  = concat
      (List.map
         (λ c, List.map (λ i, (to_data i).2)
                 (List.filter (anchored_at c (row cell)) images))
         (zrange (column cell) (column cell + cell_colspan cell - 1))).
Proof.
  intros Hd. unfold cell_images. rewrite Hd. f_equal. apply map_ext. intros c.
  unfold images_to_data. by rewrite images_fold_get.
Qed.

End ImageLemmas.

Lemma images_witness :
  Core.images sample_image_data
  = images_to_data sample_ext sample_pixels sample_datauri sample_images
  ∧ cell_images sample_image_data merged_a1
    = [(image_to_data sample_ext sample_pixels sample_datauri (image_at 0 0)).2;
       (image_to_data sample_ext sample_pixels sample_datauri (image_at 1 0)).2;
       (image_to_data sample_ext sample_pixels sample_datauri (image_at 1 0)).2].
Proof.
  assert (Core.images sample_image_data
          = images_to_data sample_ext sample_pixels sample_datauri sample_images) as H
    by reflexivity.
  exact (conj H (images_are_printed_in_their_anchor_cell sample_ext sample_pixels
                   sample_datauri sample_images sample_image_data merged_a1 H)).
Defined.

(** *** The column list *)

Lemma entries_appended_step (n : nat) (m : Z) :
  1 ≤ m →
  entries_appended (Z.of_nat (S n)) m = S (entries_appended (Z.of_nat n) (m - 1)).
Proof. intros H. unfold entries_appended. lia. Qed.

Lemma col_repeat_spec (n : nat) (entry : ColumnSpec) (l : list ColumnSpec) (m : Z) :
  col_repeat n entry (l, m)
  = (app l (repeat entry (entries_appended (Z.of_nat n) m)),
     m - Z.of_nat (entries_appended (Z.of_nat n) m)).
Proof.
  revert l m. induction n as [|n IH]; intros l m.
  - unfold entries_appended. replace (Z.to_nat _) with 0%nat by lia.
    simpl. by rewrite app_nil_r, Z.sub_0_r.
  - cbn [col_repeat fst snd]. destruct (Z.ltb_spec (m - 1) 0) as [Hlt|Hge].
    + unfold entries_appended. replace (Z.to_nat _) with 1%nat by lia. done.
    + rewrite IH, entries_appended_step by lia. cbn [repeat].
      rewrite <- app_assoc. cbn [app]. f_equal. lia.
Qed.

(** X17.  A column dimension whose [min] or [max] is unset or 0 adds
    nothing to the column list.  Any other one adds
    [min(max - min + 1, max(max_col_number, 0) + 1)] copies of its
    entry and lowers [max_col_number] by as many: the [break] comes
    after the [append], so a dimension of one column or more adds an
    entry even when [max_col_number] is already negative. *)
Theorem column_dimension_entries
    (ext : External) (round2 : float → float)
    (col_list : list ColumnSpec) (max_col_number : Z) (col_dim : ColumnDimension) :
  col_step ext round2 (col_list, max_col_number) col_dim
  = match col_bounds col_dim with
    | None => (col_list, max_col_number)
    | Some (lo, hi) =>
        (app col_list
           (repeat (col_entry ext round2 col_dim)
              (entries_appended (hi - lo + 1) max_col_number)),
         max_col_number - Z.of_nat (entries_appended (hi - lo + 1) max_col_number))
    end.
Proof.
  unfold col_step. destruct (col_bounds col_dim) as [[lo hi]|]; [|done].
  rewrite col_repeat_spec.
  replace (entries_appended (Z.of_nat (Z.to_nat (hi - lo + 1))) max_col_number)
    with (entries_appended (hi - lo + 1) max_col_number)
    by (unfold entries_appended; lia).
  done.
Qed.

Lemma col_repeat_letters (n : nat) (entry : ColumnSpec) (st : list ColumnSpec * Z) :
  letter_index entry → Forall letter_index st.1 →
  Forall letter_index (col_repeat n entry st).1.
Proof.
  intros He. revert st. induction n as [|n IH]; intros [l m] Hl; [done|].
  cbn [col_repeat fst snd]. cbn [fst] in Hl.
  assert (Forall letter_index (app l [entry])) as Hl'.
  { apply Forall_app. split; [done|]. by constructor. }
  destruct (m - 1 <? 0); [done|]. by apply IH.
Qed.

Lemma col_list_letters (ext : External) (round2 : float → float)
    (column_dimensions : list ColumnDimension) (max_col_number : Z) :
  Forall letter_index (col_list ext round2 column_dimensions max_col_number).
Proof.
  unfold col_list. generalize (max_col_number + 1). intros m.
  assert (Forall letter_index (([] : list ColumnSpec), m).1) as H0 by constructor.
  revert H0. generalize (([] : list ColumnSpec), m).
  induction column_dimensions as [|col_dim dims IH]; intros st Hst; [done|].
  cbn [fold_left]. apply IH. unfold col_step.
  destruct (col_bounds col_dim) as [[lo hi]|]; [|done].
  apply col_repeat_letters; [|done]. by exists (cd_index col_dim).
Qed.

(** X18.  With the column list that lines 267-294 build, no cell is
    left out of a row because its column is hidden: the entries carry
    the column letter of the dimension as their index, and
    [render_table] looks the integer column of the cell up among them. *)
Theorem hidden_column_dimensions_hide_nothing
    (ext : External) (round2 : float → float)
    (append_lineno : list string → nat → list string)
    (column_dimensions : list ColumnDimension) (max_col_number : Z)
    (data : Data) (i : nat) (cells : list GridCell) :
  cols data = col_list ext round2 column_dimensions max_col_number →
  render_row ext append_lineno data i cells
  = lines (app (append_lineno ["<tr>"] i)
             (app (List.map (render_cell ext data) cells) ["</tr>"])).
Proof.
  intros Hc. unfold render_row, lines.
  assert (List.filter
            (λ cell, negb (existsb (pyval_eqb (VInt (column cell)))
                             (hidden_columns (cols data)))) cells = cells) as ->.
  { induction cells as [|cell cells IH]; [done|].
    cbn [List.filter]. rewrite letter_index_never_matches; [cbn [negb]; by rewrite IH|].
    rewrite Hc. apply col_list_letters. }
  by rewrite <- app_assoc.
Qed.

Lemma hidden_column_dimensions_witness :
  cols {| title := "Sheet1"; rows := [[blank_rows_a4]];
          cols := col_list sample_ext sample_round2 [wide_dimension] 0;
          images := []; styles := [] |}
  = col_list sample_ext sample_round2 [wide_dimension] 0
  ∧ render_row sample_ext no_lineno
      {| title := "Sheet1"; rows := [[blank_rows_a4]];
         cols := col_list sample_ext sample_round2 [wide_dimension] 0;
         images := []; styles := [] |} 0 [blank_rows_a4]
    = lines ["<tr>";
             td (attr "id" "A4")
                "border-collapse: collapse;font-size: 11px;font-weight: bold" "y";
             "</tr>"].
Proof.
  assert (cols {| title := "Sheet1"; rows := [[blank_rows_a4]];
                  cols := col_list sample_ext sample_round2 [wide_dimension] 0;
                  images := []; styles := [] |}
          = col_list sample_ext sample_round2 [wide_dimension] 0) as H by reflexivity.
  exact (conj H (hidden_column_dimensions_hide_nothing sample_ext sample_round2 no_lineno
                   [wide_dimension] 0 _ 0 [blank_rows_a4] H)).
Defined.
